(** * Chart repository index resolution (pkg/repo) and the index command

    A shallow embedding of the chart-repository client: the cache-backed
    lookup [FindChartInAuthRepoURL], the index download and generation of
    [ChartRepository], and the [index] entry point of the repo-index
    command, with the properties of the written specification stated and
    settled against them. *)

From Stdlib Require Import ZArith Lia Ascii String List Permutation.
From stdpp Require Import base option list gmap strings.

Local Open Scope string_scope.

(** ** Go's [strings] package, on Rocq strings (bytes are [ascii]) *)

Module strings.

Definition HasPrefix (s p : string) : bool := String.prefix p s.

Fixpoint Contains (s sub : string) : bool :=
  String.prefix sub s ||
  match s with
  | EmptyString => false
  | String _ s' => Contains s' sub
  end.

Fixpoint HasSuffix (s suf : string) : bool :=
  String.eqb s suf ||
  match s with
  | EmptyString => false
  | String _ s' => HasSuffix s' suf
  end.

(** [TrimSuffix s suf] drops [suf] when [s] ends with it, and returns [s]
    otherwise. *)
Fixpoint TrimSuffix (s suf : string) : string :=
  if String.eqb s suf then EmptyString
  else match s with
       | EmptyString => EmptyString
       | String c s' => String c (TrimSuffix s' suf)
       end.

Fixpoint ContainsByte (s : string) (c : ascii) : bool :=
  match s with
  | EmptyString => false
  | String d s' => Ascii.eqb c d || ContainsByte s' c
  end.

(** [Cut s c]: the text before and after the first [c], and whether [c]
    occurs; [(s, "", false)] when it does not. *)
Fixpoint Cut (s : string) (c : ascii) : string * string * bool :=
  match s with
  | EmptyString => (EmptyString, EmptyString, false)
  | String d s' =>
      if Ascii.eqb c d then (EmptyString, s', true)
      else let '(b, a, f) := Cut s' c in (String d b, a, f)
  end.

(** [Split s c]: the pieces of [s] between occurrences of [c]; never
    empty, as Go's [strings.Split] with a one-byte separator. *)
Fixpoint Split (s : string) (c : ascii) : list string :=
  match s with
  | EmptyString => [EmptyString]
  | String d s' =>
      if Ascii.eqb c d then EmptyString :: Split s' c
      else match Split s' c with
           | [] => [String d EmptyString]
           | p :: ps => String d p :: ps
           end
  end.

Fixpoint Join (l : list string) (sep : string) : string :=
  match l with
  | [] => EmptyString
  | [x] => x
  | x :: xs => x ++ sep ++ Join xs sep
  end.

(** [s[:LastIndex(s, c)+1]]: the prefix of [s] up to and including the
    last [c], empty when [c] does not occur. *)
Fixpoint ThroughLast (s : string) (c : ascii) : string :=
  match s with
  | EmptyString => EmptyString
  | String d s' =>
      if ContainsByte s' c then String d (ThroughLast s' c)
      else if Ascii.eqb c d then String d EmptyString
      else EmptyString
  end.

(** [s[LastIndex(s, c)+1:]]: the text after the last [c], all of [s]
    when [c] does not occur. *)
Fixpoint AfterLast (s : string) (c : ascii) : string :=
  match s with
  | EmptyString => EmptyString
  | String d s' =>
      if ContainsByte s' c then AfterLast s' c
      else if Ascii.eqb c d then s'
      else s
  end.

Definition Count (s : string) (c : ascii) : nat :=
  List.length (Split s c) - 1.

Definition ToLowerByte (c : ascii) : ascii :=
  let n := nat_of_ascii c in
  if (65 <=? n)%nat && (n <=? 90)%nat then ascii_of_nat (n + 32) else c.

Fixpoint ToLower (s : string) : string :=
  match s with
  | EmptyString => EmptyString
  | String c s' => String (ToLowerByte c) (ToLower s')
  end.

End strings.

(** ** Go's [path] package: [Clean] and [Join] *)

Module path.

(** One step of [Clean] over the elements of a slash-separated path:
    empty elements and [.] are dropped, [..] removes the element before
    it, is dropped at the root and kept at the start of a relative path. *)
Definition clean_step (rooted : bool) (acc : list string) (e : string)
  : list string :=
  if String.eqb e "" || String.eqb e "." then acc
  else if String.eqb e ".." then
    match acc with
    | [] => if rooted then [] else [".."]
    | top :: rest => if String.eqb top ".." then e :: acc else rest
    end
  else e :: acc.

Definition Clean (p : string) : string :=
  let rooted := strings.HasPrefix p "/" in
  let elems := rev (fold_left (clean_step rooted) (strings.Split p "/"%char) []) in
  let body := strings.Join elems "/" in
  let r := if rooted then "/" ++ body else body in
  if String.eqb r "" then "." else r.

(** [Join] ignores empty elements, joins the rest with slashes and cleans
    the result; with nothing to join it is the empty string. *)
Definition Join (elems : list string) : string :=
  match List.filter (fun e => negb (String.eqb e "")) elems with
  | [] => ""
  | es => Clean (strings.Join es "/")
  end.

End path.

(** ** Go's [net/url]: the parts [ResolveReferenceURL] and
    [DownloadIndexFile] go through

    [Parse], [ResolveReference] and [String] follow the functions of the
    same names (as of Go 1.17), with the escaping of paths, fragments,
    hosts and user information as there. *)

Module url.

Inductive encoding :=
| encodePath | encodePathSegment | encodeHost | encodeZone
| encodeUserPassword | encodeQueryComponent | encodeFragment.

(** [Userinfo]: the user name and the password, unescaped, and whether a
    password was given. *)
Record Userinfo := mkUserinfo {
  username : string;
  password : string;
  passwordSet : bool
}.

Record URL := mkURL {
  Scheme : string;
  Opaque : string;
  User : option Userinfo;
  Host : string;
  Path : string;
  RawPath : string;
  ForceQuery : bool;
  RawQuery : string;
  Fragment : string;
  RawFragment : string
}.

Definition empty : URL := mkURL "" "" None "" "" "" false "" "" "".

Definition byte_in (c : ascii) (lo hi : nat) : bool :=
  let n := nat_of_ascii c in (lo <=? n)%nat && (n <=? hi)%nat.

Definition is_alpha (c : ascii) : bool := byte_in c 97 122 || byte_in c 65 90.
Definition is_digit (c : ascii) : bool := byte_in c 48 57.
Definition ishex (c : ascii) : bool :=
  is_digit c || byte_in c 97 102 || byte_in c 65 70.

Definition unhex (c : ascii) : nat :=
  let n := nat_of_ascii c in
  if is_digit c then n - 48
  else if byte_in c 97 102 then n - 97 + 10
  else if byte_in c 65 70 then n - 65 + 10
  else 0.

Definition one_of (c : ascii) (set : string) : bool := strings.ContainsByte set c.

(** The byte 0x22, the double quote. *)
Definition dquote : ascii := ascii_of_nat 34.

Definition shouldEscape (c : ascii) (mode : encoding) : bool :=
  if is_alpha c || is_digit c then false
  else if match mode with encodeHost | encodeZone => true | _ => false end
          && (one_of c "!$&'()*+,;=:[]<>" || Ascii.eqb c dquote) then false
  else if one_of c "-_.~" then false
  else if one_of c "$&+,/:;=?@" then
    match mode with
    | encodePath => Ascii.eqb c "?"
    | encodePathSegment => one_of c "/;,?"
    | encodeUserPassword => one_of c "@/?:"
    | encodeQueryComponent => true
    | encodeFragment => false
    | _ => true
    end
  else if match mode with encodeFragment => true | _ => false end
          && one_of c "!()*" then false
  else true.

Definition upperhex (n : nat) : ascii :=
  if (n <? 10)%nat then ascii_of_nat (48 + n) else ascii_of_nat (65 + n - 10).

Fixpoint escape (s : string) (mode : encoding) : string :=
  match s with
  | EmptyString => EmptyString
  | String c s' =>
      if shouldEscape c mode then
        match mode, Ascii.eqb c " " with
        | encodeQueryComponent, true => String "+" (escape s' mode)
        | _, _ =>
            let n := nat_of_ascii c in
            String "%" (String (upperhex (n / 16)) (String (upperhex (n mod 16))
              (escape s' mode)))
        end
      else String c (escape s' mode)
  end.

(** [unescape] for the path and fragment modes: every [%] must start a
    two-digit hexadecimal escape, which is decoded; other bytes are
    kept. [None] is Go's [EscapeError]. *)
Fixpoint unescape_fuel (n : nat) (s : string) : option string :=
  match n with
  | O => Some EmptyString
  | S n' =>
      match s with
      | EmptyString => Some EmptyString
      | String "%" (String h (String l rest)) =>
          if ishex h && ishex l then
            option_map (String (ascii_of_nat (16 * unhex h + unhex l)))
                       (unescape_fuel n' rest)
          else None
      | String "%" _ => None
      | String c rest => option_map (String c) (unescape_fuel n' rest)
      end
  end.

Definition unescape (s : string) : option string :=
  unescape_fuel (String.length s) s.

Fixpoint validEncoded (s : string) (mode : encoding) : bool :=
  match s with
  | EmptyString => true
  | String c s' =>
      (one_of c "!$&'()*+,;=:@[]%" || negb (shouldEscape c mode))
      && validEncoded s' mode
  end.

Inductive ParseError :=
| InvalidControlCharacter
| MissingProtocolScheme
| FirstPathSegmentColon
| EscapeError
| InvalidHostError
| MissingBracket
| InvalidPort
| InvalidUserinfo.

(** [unescape] in the host mode and, with [zone], in the zone mode: an
    escape may stand for a byte above 127 or be [%25] in a host, and for a
    byte a host may hold, a space or [%25] in a zone; a byte below 128 that
    a host must escape is an [InvalidHostError]. The first offending
    position gives the error. *)
Fixpoint unescape_host_fuel (n : nat) (zone : bool) (s : string)
  : ParseError + string :=
  match n with
  | O => inr EmptyString
  | S n' =>
      match s with
      | EmptyString => inr EmptyString
      | String "%" (String h (String l rest)) =>
          if ishex h && ishex l then
            let v := ascii_of_nat (16 * unhex h + unhex l) in
            let is25 := Ascii.eqb h "2" && Ascii.eqb l "5" in
            if (if zone
                then negb is25 && negb (Ascii.eqb v " ") && shouldEscape v encodeHost
                else (unhex h <? 8)%nat && negb is25)
            then inl EscapeError
            else match unescape_host_fuel n' zone rest with
                 | inl e => inl e
                 | inr t => inr (String v t)
                 end
          else inl EscapeError
      | String "%" _ => inl EscapeError
      | String c rest =>
          if (nat_of_ascii c <? 128)%nat && shouldEscape c encodeHost
          then inl InvalidHostError
          else match unescape_host_fuel n' zone rest with
               | inl e => inl e
               | inr t => inr (String c t)
               end
      end
  end.

Definition unescape_host (zone : bool) (s : string) : ParseError + string :=
  unescape_host_fuel (String.length s) zone s.

Fixpoint all_digits (s : string) : bool :=
  match s with
  | EmptyString => true
  | String c s' => is_digit c && all_digits s'
  end.

Definition validOptionalPort (port : string) : bool :=
  match port with
  | EmptyString => true
  | String c rest => Ascii.eqb c ":" && all_digits rest
  end.

(** [s[:LastIndex(s, c)]], for a [c] that occurs in [s]. *)
Definition before_last (s : string) (c : ascii) : string :=
  strings.TrimSuffix (strings.ThroughLast s c) (String c EmptyString).

(** [(s[:i], s[i:])] for [i] the first index of [sub] in [s]. *)
Fixpoint split_at (s sub : string) : option (string * string) :=
  if String.prefix sub s then Some (EmptyString, s)
  else match s with
       | EmptyString => None
       | String c s' =>
           match split_at s' sub with
           | Some (b, a) => Some (String c b, a)
           | None => None
           end
       end.

(** [parseHost]: a host with an optional port; an IP literal in brackets
    may carry a zone after [%25]. *)
Definition parseHost (host : string) : ParseError + string :=
  if strings.HasPrefix host "[" then
    if negb (strings.ContainsByte host "]") then inl MissingBracket
    else if negb (validOptionalPort (strings.AfterLast host "]")) then inl InvalidPort
    else
      match split_at (before_last host "]") "%25" with
      | Some (address, zone) =>
          match unescape_host false address with
          | inl e => inl e
          | inr host1 =>
              match unescape_host true zone with
              | inl e => inl e
              | inr host2 =>
                  match unescape_host false ("]" ++ strings.AfterLast host "]") with
                  | inl e => inl e
                  | inr host3 => inr (host1 ++ host2 ++ host3)
                  end
              end
          end
      | None => unescape_host false host
      end
  else if strings.ContainsByte host ":"
          && negb (validOptionalPort (":" ++ strings.AfterLast host ":"))
  then inl InvalidPort
  else unescape_host false host.

Fixpoint validUserinfo (s : string) : bool :=
  match s with
  | EmptyString => true
  | String c s' =>
      (is_alpha c || is_digit c || one_of c "-._:~!$&'()*+,;=%@") && validUserinfo s'
  end.

(** [parseAuthority]: the host after the last [@], the user information
    before it, split at its first colon. *)
Definition parseAuthority (authority : string)
  : ParseError + (option Userinfo * string) :=
  let has_user := strings.ContainsByte authority "@" in
  match parseHost (if has_user then strings.AfterLast authority "@" else authority) with
  | inl e => inl e
  | inr host =>
      if negb has_user then inr (None, host)
      else
        let userinfo := before_last authority "@" in
        if negb (validUserinfo userinfo) then inl InvalidUserinfo
        else if negb (strings.ContainsByte userinfo ":") then
          match unescape userinfo with
          | None => inl EscapeError
          | Some name => inr (Some (mkUserinfo name "" false), host)
          end
        else
          let '(name, pass, _) := strings.Cut userinfo ":" in
          match unescape name, unescape pass with
          | Some name', Some pass' => inr (Some (mkUserinfo name' pass' true), host)
          | _, _ => inl EscapeError
          end
  end.

(** [setPath]: [Path] is the decoded form, [RawPath] is kept only when
    the text differs from the default encoding of [Path]. *)
Definition setPath (u : URL) (p : string) : option URL :=
  match unescape p with
  | None => None
  | Some decoded =>
      let raw := if String.eqb p (escape decoded encodePath) then "" else p in
      Some (mkURL (Scheme u) (Opaque u) (User u) (Host u) decoded raw
                  (ForceQuery u) (RawQuery u) (Fragment u) (RawFragment u))
  end.

Definition setFragment (u : URL) (f : string) : option URL :=
  match unescape f with
  | None => None
  | Some decoded =>
      let raw := if String.eqb f (escape decoded encodeFragment) then "" else f in
      Some (mkURL (Scheme u) (Opaque u) (User u) (Host u) (Path u) (RawPath u)
                  (ForceQuery u) (RawQuery u) decoded raw)
  end.

Definition EscapedPath (u : URL) : string :=
  if negb (String.eqb (RawPath u) "")
     && validEncoded (RawPath u) encodePath
     && match unescape (RawPath u) with
        | Some p => String.eqb p (Path u)
        | None => false
        end
  then RawPath u
  else if String.eqb (Path u) "*" then "*"
  else escape (Path u) encodePath.

Definition EscapedFragment (u : URL) : string :=
  if negb (String.eqb (RawFragment u) "")
     && validEncoded (RawFragment u) encodeFragment
     && match unescape (RawFragment u) with
        | Some f => String.eqb f (Fragment u)
        | None => false
        end
  then RawFragment u
  else escape (Fragment u) encodeFragment.

Fixpoint stringContainsCTLByte (s : string) : bool :=
  match s with
  | EmptyString => false
  | String c s' =>
      (nat_of_ascii c <? 32)%nat || (nat_of_ascii c =? 127)%nat
      || stringContainsCTLByte s'
  end.

(** [getScheme]: the scheme before the first colon when everything before
    it is a letter or, past the first byte, a digit, [+], [-] or [.]. The
    boolean [first] is Go's [i == 0]. *)
Fixpoint getScheme_from (first : bool) (s : string)
  : option (option (string * string)) :=
  match s with
  | EmptyString => Some None
  | String c s' =>
      if is_alpha c then
        match getScheme_from false s' with
        | Some (Some (sch, rest)) => Some (Some (String c sch, rest))
        | r => r
        end
      else if is_digit c || one_of c "+-." then
        if first then Some None
        else match getScheme_from false s' with
             | Some (Some (sch, rest)) => Some (Some (String c sch, rest))
             | r => r
             end
      else if Ascii.eqb c ":" then
        if first then None else Some (Some (EmptyString, s'))
      else Some None
  end.

Definition getScheme (rawURL : string) : option (string * string) :=
  match getScheme_from true rawURL with
  | None => None
  | Some None => Some ("", rawURL)
  | Some (Some r) => Some r
  end.

Definition parse (rawURL : string) : ParseError + URL :=
  if stringContainsCTLByte rawURL then inl InvalidControlCharacter
  else if String.eqb rawURL "*" then
    inr (mkURL "" "" None "" "*" "" false "" "" "")
  else
    match getScheme rawURL with
    | None => inl MissingProtocolScheme
    | Some (scheme0, rest0) =>
        let scheme := strings.ToLower scheme0 in
        let '(rest, force, query) :=
          if strings.HasSuffix rest0 "?" && (strings.Count rest0 "?" =? 1)%nat
          then (strings.TrimSuffix rest0 "?", true, "")
          else let '(b, a, _) := strings.Cut rest0 "?" in (b, false, a) in
        if negb (strings.HasPrefix rest "/") && negb (String.eqb scheme "") then
          inr (mkURL scheme rest None "" "" "" force query "" "")
        else if negb (strings.HasPrefix rest "/")
                && strings.ContainsByte (fst (fst (strings.Cut rest "/"))) ":"
        then inl FirstPathSegmentColon
        else
          let '(parsed, rest') :=
            if (negb (String.eqb scheme "") || negb (strings.HasPrefix rest "///"))
               && strings.HasPrefix rest "//"
            then
              let authority0 := String.substring 2 (String.length rest - 2) rest in
              let '(authority, _, found) := strings.Cut authority0 "/" in
              let tail :=
                if found
                then String.substring (String.length authority)
                       (String.length authority0 - String.length authority)
                       authority0
                else "" in
              (parseAuthority authority, tail)
            else (inr (None, ""), rest) in
          match parsed with
          | inl e => inl e
          | inr (user, host) =>
              match setPath (mkURL scheme "" user host "" "" force query "" "") rest' with
              | None => inl EscapeError
              | Some u => inr u
              end
          end
    end.

Definition Parse (rawURL : string) : ParseError + URL :=
  let '(u, frag, _) := strings.Cut rawURL "#" in
  match parse u with
  | inl e => inl e
  | inr url =>
      if String.eqb frag "" then inr url
      else match setFragment url frag with
           | None => inl EscapeError
           | Some url' => inr url'
           end
  end.

(** [resolvePath]: [ref] against [base] as in RFC 3986 section 5.2, with
    the dot segments removed. *)
Definition resolve_step (dst : list string) (elem : string) : list string :=
  if String.eqb elem "." then dst
  else if String.eqb elem ".." then removelast dst
  else (dst ++ [elem])%list.

Definition resolvePath (base ref : string) : string :=
  let full :=
    if String.eqb ref "" then base
    else if negb (strings.HasPrefix ref "/")
    then strings.ThroughLast base "/" ++ ref
    else ref in
  if String.eqb full "" then ""
  else
    let src := strings.Split full "/" in
    let dst := fold_left resolve_step src [] in
    let last := List.last src "" in
    let dst' := if String.eqb last "." || String.eqb last ".."
                then (dst ++ [""])%list else dst in
    let joined := strings.Join dst' "/" in
    "/" ++ (if strings.HasPrefix joined "/"
            then String.substring 1 (String.length joined - 1) joined
            else joined).

(** [setPath] where the argument is known to be validly escaped: on a
    failure Go leaves the URL as it was. *)
Definition setPath_ignore (u : URL) (p : string) : URL :=
  match setPath u p with Some u' => u' | None => u end.

Definition ResolveReference (u ref : URL) : URL :=
  let url := mkURL (if String.eqb (Scheme ref) "" then Scheme u else Scheme ref)
                   (Opaque ref) (User ref) (Host ref) (Path ref) (RawPath ref)
                   (ForceQuery ref) (RawQuery ref) (Fragment ref) (RawFragment ref) in
  if negb (String.eqb (Scheme ref) "") || negb (String.eqb (Host ref) "")
     || match User ref with Some _ => true | None => false end
  then setPath_ignore url (resolvePath (EscapedPath ref) "")
  else if negb (String.eqb (Opaque ref) "") then
    mkURL (Scheme url) (Opaque url) None "" "" (RawPath url)
          (ForceQuery url) (RawQuery url) (Fragment url) (RawFragment url)
  else
    let url1 :=
      if String.eqb (Path ref) "" && negb (ForceQuery ref)
         && String.eqb (RawQuery ref) ""
      then
        if String.eqb (Fragment ref) ""
        then mkURL (Scheme url) (Opaque url) (User url) (Host url) (Path url)
                   (RawPath url) (ForceQuery url) (RawQuery u)
                   (Fragment u) (RawFragment u)
        else mkURL (Scheme url) (Opaque url) (User url) (Host url) (Path url)
                   (RawPath url) (ForceQuery url) (RawQuery u)
                   (Fragment url) (RawFragment url)
      else url in
    if String.eqb (Path ref) "" && negb (String.eqb (Opaque u) "") then
      mkURL (Scheme url1) (Opaque u) None "" "" (RawPath url1)
            (ForceQuery url1) (RawQuery url1) (Fragment url1) (RawFragment url1)
    else
      setPath_ignore
        (mkURL (Scheme url1) (Opaque url1) (User u) (Host u) (Path url1)
               (RawPath url1) (ForceQuery url1) (RawQuery url1)
               (Fragment url1) (RawFragment url1))
        (resolvePath (EscapedPath u) (EscapedPath ref)).

Definition Userinfo_String (ui : Userinfo) : string :=
  escape (username ui) encodeUserPassword
  ++ (if passwordSet ui then ":" ++ escape (password ui) encodeUserPassword else "").

Definition String (u : URL) : string :=
  let head := if String.eqb (Scheme u) "" then "" else Scheme u ++ ":" in
  let body :=
    if negb (String.eqb (Opaque u) "") then head ++ Opaque u
    else
      let auth :=
        if negb (String.eqb (Scheme u) "") || negb (String.eqb (Host u) "")
           || match User u with Some _ => true | None => false end
        then
          (if negb (String.eqb (Host u) "") || negb (String.eqb (Path u) "")
              || match User u with Some _ => true | None => false end
           then "//" else "")
          ++ match User u with Some ui => Userinfo_String ui ++ "@" | None => "" end
          ++ (if String.eqb (Host u) "" then "" else escape (Host u) encodeHost)
        else "" in
      let p := EscapedPath u in
      let buf := head ++ auth
                 ++ (if negb (String.eqb p "") && negb (strings.HasPrefix p "/")
                        && negb (String.eqb (Host u) "")
                     then "/" else "") in
      let dot :=
        if String.eqb buf ""
           && strings.ContainsByte (fst (fst (strings.Cut p "/"))) ":"
        then "./" else "" in
      buf ++ dot ++ p in
  body
  ++ (if ForceQuery u || negb (String.eqb (RawQuery u) "")
      then "?" ++ RawQuery u else "")
  ++ (if String.eqb (Fragment u) "" then "" else "#" ++ EscapedFragment u).

End url.

(** ** Errors and results

    Go's [error] values, by the way they are made: [errors.Errorf] and
    [errors.New] with their message, [errors.Wrap] around a cause, a URL
    parse error, and the opaque errors of the collaborators (getter, file
    system, YAML codec, chart loader). *)

Inductive error :=
| Errorf (msg : string)
| Wrap (cause : error) (msg : string)
| URLError (e : url.ParseError)
| External (what : string).

Inductive result (A : Type) : Type :=
| Ok (a : A)
| Err (err : error).
Arguments Ok {A} a.
Arguments Err {A} err.

(** ** Go's [time] durations, in nanoseconds *)

Module time.
Definition Nanosecond : Z := 1.
Definition Second : Z := 1000000000 * Nanosecond.
Definition Minute : Z := 60 * Second.
End time.

(** ** The TTL cache (github.com/patrickmn/go-cache)

    An item carries the stored object and its expiration instant in
    nanoseconds since the epoch, 0 for an item that never expires. The
    wall clock is the explicit argument [now]. *)

Module cache.

Definition NoExpiration : Z := -1.
Definition DefaultExpiration : Z := 0.

Record Item (V : Type) := mkItem { Object : V; Expiration : Z }.
Arguments mkItem {V} Object Expiration.
Arguments Object {V} i.
Arguments Expiration {V} i.

Record Cache (V : Type) := mkCache {
  defaultExpiration : Z;
  cleanupInterval : Z;
  items : gmap string (Item V)
}.
Arguments mkCache {V} defaultExpiration cleanupInterval items.
Arguments defaultExpiration {V} c.
Arguments cleanupInterval {V} c.
Arguments items {V} c.

(** [New de ci]: an empty cache with default expiration [de] and a janitor
    that sweeps every [ci]. *)
Definition New {V} (de ci : Z) : Cache V :=
  mkCache (if (de =? 0)%Z then -1 else de)%Z ci ∅.

(** [Set]: with [DefaultExpiration] the cache's own default is used; a
    positive duration gives the expiration [now + d], any other none. *)
Definition Set_ {V} (now : Z) (k : string) (x : V) (d : Z) (c : Cache V)
  : Cache V :=
  let d := if (d =? DefaultExpiration)%Z then defaultExpiration c else d in
  let e := if (0 <? d)%Z then (now + d)%Z else 0%Z in
  mkCache (defaultExpiration c) (cleanupInterval c)
          (<[k := mkItem x e]> (items c)).

(** [Get]: a miss when nothing is stored under the key, or when the item
    has an expiration and the clock is past it
    ([time.Now().UnixNano() > item.Expiration]). *)
Definition Get {V} (now : Z) (k : string) (c : Cache V) : option V :=
  match items c !! k with
  | None => None
  | Some it =>
      if (0 <? Expiration it)%Z && (Expiration it <? now)%Z then None
      else Some (Object it)
  end.

Definition Delete {V} (k : string) (c : Cache V) : Cache V :=
  mkCache (defaultExpiration c) (cleanupInterval c) (delete k (items c)).

(** [DeleteExpired], the janitor's sweep, run every [cleanupInterval]: the
    items whose expiration the clock is past are removed. *)
Definition DeleteExpired {V} (now : Z) (c : Cache V) : Cache V :=
  mkCache (defaultExpiration c) (cleanupInterval c)
          (filter (fun kv => negb ((0 <? Expiration (snd kv))%Z
                                   && (Expiration (snd kv) <? now)%Z) = true)
                  (items c)).

End cache.

(** ** The index data model (pkg/chart, pkg/repo) *)

Module chart.
Record Metadata := mkMetadata {
  Name : string;
  Version : string;
  Description : string
}.
End chart.

Record ChartVersion := mkChartVersion {
  Metadata : chart.Metadata;
  URLs : list string;
  Created : Z;
  Digest : string
}.

Record IndexFile := mkIndexFile {
  APIVersion : string;
  Generated : Z;
  Entries : gmap string (list ChartVersion);
  PublicKeys : list string
}.

(** What the cache holds behind Go's [interface{}]: a pointer to an index
    file, or the pointer to the cache object itself. *)
Inductive object :=
| IndexFilePtr (i : IndexFile)
| CachePtr.

(** ** Repository configuration and the getter interface *)

Record Entry := mkEntry {
  Name : string;
  URL : string;
  Username : string;
  Password : string;
  CertFile : string;
  KeyFile : string;
  CAFile : string;
  InsecureSkipTLSverify : bool
}.

Module getter.

(** The options [WithURL], [WithInsecureSkipVerifyTLS],
    [WithTLSClientConfig] and [WithBasicAuth] of one request. *)
Record options := mkOptions {
  url : string;
  insecureSkipVerifyTLS : bool;
  certFile : string;
  keyFile : string;
  caFile : string;
  username : string;
  password : string
}.

(** A getter answers a request for a location. What the remote side
    serves may change from one request to the next: the first argument
    is the number of requests issued before this one. *)
Definition Getter := nat -> string -> options -> result string.

(** [Providers.ByScheme]: the getter registered for a scheme, if any. *)
Definition Providers := string -> option Getter.

End getter.

Record ChartRepository := mkChartRepository {
  Config : Entry;
  ChartPaths : list string;
  RepoIndexFile : IndexFile;
  Client : getter.Getter;
  CachePath : string
}.

(** ** The file system

    A flat table from cleaned paths to files and directories, with a set
    of paths that refuse writes. *)

Inductive node :=
| File (data : string)
| Dir.

Record FS := mkFS {
  nodes : gmap string node;
  readonly : gset string
}.

Module filepath.
Definition Join (elems : list string) : string := path.Join elems.
Definition Dir (p : string) : string := path.Clean (strings.ThroughLast p "/").
Definition Base (p : string) : string :=
  strings.AfterLast (strings.TrimSuffix p "/") "/".
End filepath.

Module os.

Definition Stat (fs : FS) (p : string) : option node := nodes fs !! p.

Definition ReadFile (fs : FS) (p : string) : result string :=
  match nodes fs !! p with
  | Some (File data) => Ok data
  | Some Dir => Err (External ("read " ++ p ++ ": is a directory"))
  | None => Err (External ("open " ++ p ++ ": no such file or directory"))
  end.

Definition WriteFile (fs : FS) (p data : string) : FS * option error :=
  if bool_decide (p ∈ readonly fs) then
    (fs, Some (External ("open " ++ p ++ ": permission denied")))
  else match nodes fs !! p with
       | Some Dir => (fs, Some (External ("open " ++ p ++ ": is a directory")))
       | _ => (mkFS (<[p := File data]> (nodes fs)) (readonly fs), None)
       end.

(** [MkdirAll], with its error dropped as every caller here drops it:
    the directory is entered when nothing is at the path. *)
Definition MkdirAll (fs : FS) (p : string) : FS :=
  match nodes fs !! p with
  | None => mkFS (<[p := Dir]> (nodes fs)) (readonly fs)
  | Some _ => fs
  end.

End os.

(** ** Collaborators

    What the code calls and this development does not define: Go's [%q]
    verb and random source, the helmpath file names, the YAML codec, the
    chart loader and digest, the semantic-version library, and the parts of
    the index file (index.go) that are used as black boxes. *)

Class Collaborators := {
  (** [fmt.Sprintf("%q", s)] *)
  quote : string -> string;
  (** the base64 text of twenty random bytes, by the number of requests
      issued so far *)
  random_name : nat -> string;
  (** [helmpath.CachePath], [helmpath.CacheChartsFile] and
      [helmpath.CacheIndexFile] *)
  helmpath_CachePath : string -> string;
  helmpath_CacheChartsFile : string -> string;
  helmpath_CacheIndexFile : string -> string;
  (** the schema tag [APIVersionV1] of an index file *)
  APIVersionV1 : string;
  (** [loadIndex]: decode and check the bytes of an index *)
  loadIndex : string -> result IndexFile;
  (** [yaml.Marshal] of an index file *)
  Marshal : IndexFile -> result string;
  (** [IndexFile.Get(name, version)]: the record for a chart under a
      version constraint *)
  IndexFile_Get : IndexFile -> string -> string -> result ChartVersion;
  (** [loader.Load(path)]: the metadata of the chart archive at a path *)
  loader_Load : FS -> string -> result chart.Metadata;
  (** [provenance.DigestFile(path)] *)
  provenance_DigestFile : FS -> string -> result string;
  (** [repo.IndexDirectory(dir, url)] at a given instant *)
  IndexDirectory : FS -> Z -> string -> string -> result IndexFile;
  (** [urlutil.URLJoin(baseURL, file)], with the fallback [path.Join] *)
  chart_location : string -> string -> string;
  (** [semver.NewVersion] and [LessThan]: versions that parse, and their
      precedence *)
  semver : Type;
  semver_NewVersion : string -> option semver;
  semver_LessThan : semver -> semver -> bool
}.

(** ** The world a call runs in

    The process-wide cache [IndexFileCache], the wall clock, the number of
    requests issued to getters, the file system, and a ghost trace of the
    calls made, in order, for the properties that count them. *)

Inductive event :=
| EvCacheGet (k : string) (hit : bool)
| EvCacheSet (k : string) (v : object)
| EvCacheDelete (k : string)
| EvDownload (indexURL : string)
| EvIndexGet (name version : string) (found : bool).

Record World := mkWorld {
  IndexFileCache : cache.Cache object;
  now : Z;
  requests : nat;
  disk : FS;
  trace : list event
}.

(** [cache.New(3*time.Minute, 3*time.Minute)] *)
Definition IndexFileCache_init : cache.Cache object :=
  cache.New (3 * time.Minute) (3 * time.Minute).

(** A call returns, fails with an error, or panics. *)
Inductive outcome (A : Type) : Type :=
| Return (a : A)
| Fail (err : error)
| Panic.
Arguments Return {A} a.
Arguments Fail {A} err.
Arguments Panic {A}.

Definition M (A : Type) : Type := World -> outcome A * World.

Definition ret {A} (a : A) : M A := fun w => (Return a, w).
Definition fail {A} (e : error) : M A := fun w => (Fail e, w).
Definition panic {A} : M A := fun w => (Panic, w).

Definition bind {A B} (m : M A) (k : A -> M B) : M B :=
  fun w =>
    match m w with
    | (Return a, w') => k a w'
    | (Fail e, w') => (Fail e, w')
    | (Panic, w') => (Panic, w')
    end.

Declare Scope go_scope.
Delimit Scope go_scope with go.
Notation "x <- m ;; k" := (bind m (fun x => k))
  (at level 100, m at next level, right associativity) : go_scope.
Notation "m ;; k" := (bind m (fun _ => k))
  (at level 100, right associativity) : go_scope.

Definition lift {A} (r : result A) : M A :=
  match r with Ok a => ret a | Err e => fail e end.

Definition log (e : event) : M unit :=
  fun w => (Return tt,
            mkWorld (IndexFileCache w) (now w) (requests w) (disk w)
                    (trace w ++ [e])%list).

(** Error wrapping at a call site: [if err != nil { return ..., f(err) }]. *)
Definition on_error {A} (m : M A) (f : error -> error) : M A :=
  fun w =>
    match m w with
    | (Fail e, w') => (Fail (f e), w')
    | r => r
    end.

(** The cache operations on the process-wide cache. *)
Definition IndexFileCache_Get (k : string) : M (option object) :=
  fun w =>
    let v := cache.Get (now w) k (IndexFileCache w) in
    (Return v,
     mkWorld (IndexFileCache w) (now w) (requests w) (disk w)
             (trace w ++ [EvCacheGet k (bool_decide (is_Some v))])%list).

Definition IndexFileCache_Set (k : string) (x : object) (d : Z) : M unit :=
  fun w =>
    (Return tt,
     mkWorld (cache.Set_ (now w) k x d (IndexFileCache w)) (now w) (requests w)
             (disk w) (trace w ++ [EvCacheSet k x])%list).

Definition IndexFileCache_Delete (k : string) : M unit :=
  fun w =>
    (Return tt,
     mkWorld (cache.Delete k (IndexFileCache w)) (now w) (requests w)
             (disk w) (trace w ++ [EvCacheDelete k])%list).

(** [r.Client.Get(indexURL, ...)]: one request to the getter. *)
Definition Client_Get (c : getter.Getter) (indexURL : string)
                      (o : getter.options) : M string :=
  fun w =>
    let w' := mkWorld (IndexFileCache w) (now w) (S (requests w)) (disk w)
                      (trace w ++ [EvDownload indexURL])%list in
    match c (requests w) indexURL o with
    | Ok body => (Return body, w')
    | Err e => (Fail e, w')
    end.

Definition os_MkdirAll (p : string) : M unit :=
  fun w => (Return tt,
            mkWorld (IndexFileCache w) (now w) (requests w)
                    (os.MkdirAll (disk w) p) (trace w)).

(** [ioutil.WriteFile], returning the error as a value. *)
Definition ioutil_WriteFile (p data : string) : M (option error) :=
  fun w =>
    let '(fs, e) := os.WriteFile (disk w) p data in
    (Return e, mkWorld (IndexFileCache w) (now w) (requests w) fs (trace w)).

Definition time_Now : M Z := fun w => (Return (now w), w).
Definition the_disk : M FS := fun w => (Return (disk w), w).
Definition the_requests : M nat := fun w => (Return (requests w), w).

Section Repo.

Context `{Collaborators}.

Local Open Scope go_scope.

(** ** The index file (index.go) *)

(** Modelled from the spec: [NewIndexFile], which index.go defines: an
    empty catalog, generation timestamp now, format tag the current schema
    version. *)
Definition NewIndexFile : M IndexFile :=
  t <- time_Now;;
  ret (mkIndexFile APIVersionV1 t ∅ []).

Definition has_version (vs : list ChartVersion) (version : string) : bool :=
  existsb (fun cv => String.eqb (chart.Version (Metadata cv)) version) vs.

(** Modelled from the spec: [IndexFile.Has], which index.go defines: exact
    string match on package name and version. *)
Definition Has (i : IndexFile) (name version : string) : bool :=
  match Entries i !! name with
  | Some vs => has_version vs version
  | None => false
  end.

Definition with_Entries (i : IndexFile) (e : gmap string (list ChartVersion))
  : IndexFile :=
  mkIndexFile (APIVersion i) (Generated i) e (PublicKeys i).

(** Modelled from the spec: [IndexFile.Add], which index.go defines: the
    record of a chart archive, with its download location resolved against
    the base URL, is appended to the package's sequence; nothing happens
    when a record with the same package name and exact version string
    exists. *)
Definition Add (t : Z) (i : IndexFile) (md : chart.Metadata)
               (filename baseURL digest : string) : IndexFile :=
  if Has i (chart.Name md) (chart.Version md) then i
  else
    let cr := mkChartVersion md [chart_location baseURL filename] t digest in
    with_Entries i
      (<[chart.Name md := (default [] (Entries i !! chart.Name md) ++ [cr])%list]>
         (Entries i)).

Definition merge_versions (mine theirs : option (list ChartVersion))
  : option (list ChartVersion) :=
  match mine, theirs with
  | None, _ => theirs
  | Some vs, None => Some vs
  | Some vs, Some ws =>
      Some (vs ++ List.filter
                    (fun cv => negb (has_version vs (chart.Version (Metadata cv))))
                    ws)%list
  end.

(** Modelled from the spec: [IndexFile.Merge], which index.go defines: a
    package present only in the other catalog is copied whole; for a
    package present in both, the other's records are appended for the
    version strings the receiver lacks. *)
Definition Merge (i other : IndexFile) : IndexFile :=
  with_Entries i (merge merge_versions (Entries i) (Entries other)).

(** [precedes a b]: [a] sorts strictly before [b]: both parse and [a] is
    the higher version, or only [a] parses. *)
Definition precedes (a b : ChartVersion) : bool :=
  match semver_NewVersion (chart.Version (Metadata a)),
        semver_NewVersion (chart.Version (Metadata b)) with
  | Some va, Some vb => semver_LessThan vb va
  | Some _, None => true
  | None, _ => false
  end.

Fixpoint insert_sorted (x : ChartVersion) (l : list ChartVersion)
  : list ChartVersion :=
  match l with
  | [] => [x]
  | y :: l' => if precedes y x then y :: insert_sorted x l' else x :: l
  end.

Definition sort_versions (l : list ChartVersion) : list ChartVersion :=
  fold_right insert_sorted [] l.

(** Modelled from the spec: [IndexFile.SortEntries], which index.go
    defines: every package's sequence in descending semantic-version
    precedence, the versions that fail to parse after the valid ones, in
    their input order (a stable sort). *)
Definition SortEntries (i : IndexFile) : IndexFile :=
  with_Entries i (sort_versions <$> Entries i).

(** Modelled from the spec: [IndexFile.WriteFile], which index.go defines:
    the catalog is serialized and written to the destination. *)
Definition IndexFile_WriteFile (i : IndexFile) (dest : string) : M (option error) :=
  match Marshal i with
  | Err e => ret (Some e)
  | Ok b => ioutil_WriteFile dest b
  end.

(** Modelled from the spec: [LoadIndexFile], which index.go defines: the
    bytes of the file, decoded as a catalog. *)
Definition LoadIndexFile (fs : FS) (p : string) : result IndexFile :=
  match os.ReadFile fs p with
  | Err e => Err e
  | Ok b => loadIndex b
  end.

(** ** The chart repository (chartrepo.go) *)

Definition NewChartRepository (cfg : Entry) (getters : getter.Providers)
  : M ChartRepository :=
  match url.Parse (URL cfg) with
  | inl _ => fail (Errorf ("invalid chart URL format: " ++ URL cfg))
  | inr u =>
      match getters (url.Scheme u) with
      | None => fail (Errorf ("could not find protocol handler for: " ++ url.Scheme u))
      | Some client =>
          i <- NewIndexFile;;
          ret (mkChartRepository cfg [] i client (helmpath_CachePath "repository"))
      end
  end.

(** The files below a root in the order of [filepath.Walk]: a directory,
    then its entries by name, each with what is below it. *)
Fixpoint insert_path (p : string) (l : list string) : list string :=
  match l with
  | [] => [p]
  | q :: l' => if String.leb p q then p :: l else q :: insert_path p l'
  end.

Definition children (fs : FS) (d : string) : list string :=
  fold_right insert_path []
    (List.filter (fun k => negb (String.eqb k d) && String.eqb (filepath.Dir k) d)
                 (map fst (map_to_list (nodes fs)))).

Fixpoint walk (fuel : nat) (fs : FS) (p : string) : list (string * bool) :=
  match fuel with
  | O => []
  | S fuel' =>
      match nodes fs !! p with
      | None => []
      | Some (File _) => [(p, false)]
      | Some Dir => (p, true) :: flat_map (walk fuel' fs) (children fs p)
      end
  end.

Definition filepath_Walk (fs : FS) (root : string) : list (string * bool) :=
  walk (S (size (nodes fs))) fs root.

(** The name a local index file must carry for [Load] to read it, and the
    name [DownloadIndexFile] joins onto the repository URL. *)
Definition is_local_index (name : string) : bool :=
  strings.Contains name "-index.yaml".

Definition remote_index_name : string := "index.yaml".

Definition with_IndexFile (r : ChartRepository) (i : IndexFile) : ChartRepository :=
  mkChartRepository (Config r) (ChartPaths r) i (Client r) (CachePath r).

Definition with_ChartPaths (r : ChartRepository) (l : list string) : ChartRepository :=
  mkChartRepository (Config r) l (RepoIndexFile r) (Client r) (CachePath r).

(** The function [Load] hands to [filepath.Walk]. *)
Definition Load_visit (fs : FS) (r : ChartRepository) (f : string * bool)
  : ChartRepository :=
  let '(p, isDir) := f in
  if isDir then r
  else if is_local_index (filepath.Base p) then
    match LoadIndexFile fs p with
    | Err _ => r
    | Ok i => with_IndexFile r i
    end
  else if strings.HasSuffix (filepath.Base p) ".tgz" then
    with_ChartPaths r (ChartPaths r ++ [p])%list
  else r.

Definition Load (fs : FS) (r : ChartRepository) : result ChartRepository :=
  match os.Stat fs (Name (Config r)) with
  | None => Err (External ("stat " ++ Name (Config r) ++ ": no such file or directory"))
  | Some (File _) => Err (Errorf (quote (Name (Config r)) ++ " is not a directory"))
  | Some Dir => Ok (fold_left (Load_visit fs) (filepath_Walk fs (Name (Config r))) r)
  end.

Definition with_paths (u : url.URL) (p raw : string) : url.URL :=
  url.mkURL (url.Scheme u) (url.Opaque u) (url.User u) (url.Host u) p raw
            (url.ForceQuery u) (url.RawQuery u) (url.Fragment u) (url.RawFragment u).

(** The location [DownloadIndexFile] requests. *)
Definition index_location (repoURL : string) : url.ParseError + string :=
  match url.Parse repoURL with
  | inl e => inl e
  | inr parsedURL =>
      inr (url.String
             (with_paths parsedURL
                (path.Join [url.Path parsedURL; remote_index_name])
                (path.Join [url.RawPath parsedURL; remote_index_name])))
  end.

Definition DownloadIndexFile (r : ChartRepository) : M (IndexFile * string) :=
  match index_location (URL (Config r)) with
  | inl e => fail (URLError e)
  | inr indexURL =>
      index <- Client_Get (Client r) indexURL
                 (getter.mkOptions (URL (Config r))
                    (InsecureSkipTLSverify (Config r))
                    (CertFile (Config r)) (KeyFile (Config r)) (CAFile (Config r))
                    (Username (Config r)) (Password (Config r)));;
      indexFile <- lift (loadIndex index);;
      let charts :=
        fold_right (fun name acc => name ++ String (ascii_of_nat 10) acc) ""
                   (map fst (map_to_list (Entries indexFile))) in
      let chartsFile :=
        filepath.Join [CachePath r; helmpath_CacheChartsFile (Name (Config r))] in
      os_MkdirAll (filepath.Dir chartsFile);;
      ioutil_WriteFile chartsFile charts;;
      let fname :=
        filepath.Join [CachePath r; helmpath_CacheIndexFile (Name (Config r))] in
      os_MkdirAll (filepath.Dir fname);;
      e <- ioutil_WriteFile fname index;;
      match e with
      | Some err => fail err
      | None => ret (indexFile, fname)
      end
  end.

(** One pass of the loop of [generateIndex] over a chart path. *)
Definition generateIndex_step (fs : FS) (t : Z) (baseURL : string)
                              (i : IndexFile) (p : string) : result IndexFile :=
  match loader_Load fs p with
  | Err e => Err e
  | Ok md =>
      match provenance_DigestFile fs p with
      | Err e => Err e
      | Ok digest =>
          if negb (Has i (chart.Name md) (chart.Version md))
          then Ok (Add t i md p baseURL digest)
          else Ok i
      end
  end.

Fixpoint generateIndex_loop (fs : FS) (t : Z) (baseURL : string)
                            (i : IndexFile) (paths : list string)
  : option error * IndexFile :=
  match paths with
  | [] => (None, i)
  | p :: rest =>
      match generateIndex_step fs t baseURL i p with
      | Err e => (Some e, i)
      | Ok i' => generateIndex_loop fs t baseURL i' rest
      end
  end.

(** [generateIndex]: the error returned, and the repository's index file
    as the call leaves it. *)
Definition generateIndex (fs : FS) (t : Z) (r : ChartRepository)
  : option error * ChartRepository :=
  match generateIndex_loop fs t (URL (Config r)) (RepoIndexFile r) (ChartPaths r) with
  | (Some e, i) => (Some e, with_IndexFile r i)
  | (None, i) => (None, with_IndexFile r (SortEntries i))
  end.

(** ** Finding a chart by repository URL *)

Definition with_Path (u : url.URL) (p : string) : url.URL :=
  with_paths u p (url.RawPath u).

Definition ResolveReferenceURL (baseURL refURL : string) : result string :=
  match url.Parse baseURL with
  | inl err => Err (Wrap (URLError err) ("failed to parse " ++ baseURL ++ " as URL"))
  | inr parsedBaseURL =>
      match url.Parse refURL with
      | inl err => Err (Wrap (URLError err) ("failed to parse " ++ refURL ++ " as URL"))
      | inr parsedRefURL =>
          let parsedBaseURL :=
            with_Path parsedBaseURL
                      (strings.TrimSuffix (url.Path parsedBaseURL) "/" ++ "/") in
          Ok (url.String (url.ResolveReference parsedBaseURL parsedRefURL))
      end
  end.


Definition GetAndCacheIndexFile
    (repoURL username password certFile keyFile caFile : string)
    (getters : getter.Providers) : M IndexFile :=
  n <- the_requests;;
  let name := random_name n in
  let c := mkEntry name repoURL username password certFile keyFile caFile false in
  r <- NewChartRepository c getters;;
  res <- on_error (DownloadIndexFile r)
           (fun err => Wrap err ("looks like " ++ quote repoURL
                                 ++ " is not a valid chart repository or cannot be reached"));;
  let repoIndex := fst res in
  IndexFileCache_Set repoURL (IndexFilePtr repoIndex) cache.DefaultExpiration;;
  ret repoIndex.

(** [repoIndex.Get(chartName, chartVersion)], with the attempt traced. *)
Definition repoIndex_Get (repoIndex : IndexFile) (chartName chartVersion : string)
  : M (result ChartVersion) :=
  let r := IndexFile_Get repoIndex chartName chartVersion in
  log (EvIndexGet chartName chartVersion
                  (match r with Ok _ => true | Err _ => false end));;
  ret r.

(** The type assertion [value.( *IndexFile)]. *)
Definition assert_IndexFile (value : object) : M IndexFile :=
  match value with
  | IndexFilePtr i => ret i
  | CachePtr => panic
  end.

Definition errMsg_of (chartName chartVersion : string) : string :=
  let errMsg := "chart " ++ quote chartName in
  if String.eqb chartVersion "" then errMsg
  else errMsg ++ " version " ++ quote chartVersion.

(** The lookup runs between [mu.Lock()] and the deferred [mu.Unlock()]:
    one caller at a time, which is the caller modelled here. *)
Definition FindChartInAuthRepoURL
    (repoURL username password chartName chartVersion certFile keyFile caFile : string)
    (getters : getter.Providers) : M string :=
  cached <- IndexFileCache_Get repoURL;;
  repoIndex <-
    match cached with
    | None =>
        GetAndCacheIndexFile repoURL username password certFile keyFile caFile getters
    | Some value => assert_IndexFile value
    end;;
  let errMsg := errMsg_of chartName chartVersion in
  first <- repoIndex_Get repoIndex chartName chartVersion;;
  cv <-
    match first with
    | Ok cv => ret cv
    | Err _ =>
        IndexFileCache_Delete repoURL;;
        repoIndex <- GetAndCacheIndexFile repoURL username password
                       certFile keyFile caFile getters;;
        second <- repoIndex_Get repoIndex chartName chartVersion;;
        match second with
        | Err _ =>
            fail (Errorf (errMsg ++ " not found in " ++ repoURL ++ " repository"))
        | Ok cv =>
            IndexFileCache_Set repoURL CachePtr cache.DefaultExpiration;;
            ret cv
        end
    end;;
  match URLs cv with
  | [] => fail (Errorf (errMsg ++ " has no downloadable URLs"))
  | chartURL :: _ =>
      match ResolveReferenceURL repoURL chartURL with
      | Err err => fail (Wrap err "failed to make chart URL absolute")
      | Ok absoluteChartURL => ret absoluteChartURL
      end
  end.

Definition FindChartInRepoURL
    (repoURL chartName chartVersion certFile keyFile caFile : string)
    (getters : getter.Providers) : M string :=
  FindChartInAuthRepoURL repoURL "" "" chartName chartVersion
                         certFile keyFile caFile getters.

(** ** The index command (cmd/helm/repo_index.go) *)

Definition index (dir url mergeTo : string) : M unit :=
  let out := filepath.Join [dir; "index.yaml"] in
  fs <- the_disk;;
  t <- time_Now;;
  i <- lift (IndexDirectory fs t dir url);;
  i <-
    (if String.eqb mergeTo "" then ret i
     else
       i2 <-
         match os.Stat fs mergeTo with
         | None =>
             i2 <- NewIndexFile;;
             IndexFile_WriteFile i2 mergeTo;;
             ret i2
         | Some _ =>
             on_error (lift (LoadIndexFile fs mergeTo))
                      (fun err => Wrap err "merge failed")
         end;;
       ret (Merge i i2));;
  let i := SortEntries i in
  e <- IndexFile_WriteFile i out;;
  match e with
  | Some err => fail err
  | None => ret tt
  end.

End Repo.

(** ** The paths of a lookup

    The catalog a lookup works on: the cached one on a hit, the downloaded
    one on a miss, with the world the choice leaves. *)

Definition logged (w : World) (e : event) : World :=
  mkWorld (IndexFileCache w) (now w) (requests w) (disk w) (trace w ++ [e])%list.

Definition chosen_catalog `{Collaborators}
    (repoURL username password certFile keyFile caFile : string)
    (getters : getter.Providers) (w : World) (repoIndex : IndexFile) (w1 : World)
  : Prop :=
  (cache.Get (now w) repoURL (IndexFileCache w) = Some (IndexFilePtr repoIndex)
   /\ w1 = logged w (EvCacheGet repoURL true))
  \/ (cache.Get (now w) repoURL (IndexFileCache w) = None
      /\ GetAndCacheIndexFile repoURL username password certFile keyFile caFile getters
           (logged w (EvCacheGet repoURL false)) = (Return repoIndex, w1)).

(** The world after a failed [Get] on the chosen catalog and the deletion of
    the cache entry. *)
Definition invalidated (repoURL chartName chartVersion : string) (w1 : World) : World :=
  mkWorld (cache.Delete repoURL (IndexFileCache w1)) (now w1) (requests w1) (disk w1)
          (trace w1 ++ [EvIndexGet chartName chartVersion false;
                        EvCacheDelete repoURL])%list.

(** The world after the retry has found the record: what the lookup then
    stores under the repository URL is the cache object. *)
Definition recached (repoURL : string) (w : World) : World :=
  mkWorld (cache.Set_ (now w) repoURL CachePtr cache.DefaultExpiration (IndexFileCache w))
          (now w) (requests w) (disk w) (trace w ++ [EvCacheSet repoURL CachePtr])%list.

(** What the lookup returns once [Get] has produced a record. *)
Definition located `{Collaborators} (repoURL chartName chartVersion : string)
                   (cv : ChartVersion) : outcome string :=
  match URLs cv with
  | [] => Fail (Errorf (errMsg_of chartName chartVersion ++ " has no downloadable URLs"))
  | chartURL :: _ =>
      match ResolveReferenceURL repoURL chartURL with
      | Err err => Fail (Wrap err "failed to make chart URL absolute")
      | Ok absoluteChartURL => Return absoluteChartURL
      end
  end.

(** The events a call added to the trace. *)
Definition events_since (w w' : World) : list event :=
  drop (List.length (trace w)) (trace w').

Definition is_IndexGet (e : event) : bool :=
  match e with EvIndexGet _ _ _ => true | _ => false end.
Definition is_CacheDelete (e : event) : bool :=
  match e with EvCacheDelete _ => true | _ => false end.
Definition is_Download (e : event) : bool :=
  match e with EvDownload _ => true | _ => false end.

Definition count (p : event -> bool) (l : list event) : nat :=
  List.length (List.filter p l).

(** The world at a later instant. *)
Definition at_time (t : Z) (w : World) : World :=
  mkWorld (IndexFileCache w) t (requests w) (disk w) (trace w).

(** ** Records and files

    The records an index file holds for a package, the records
    [generateIndex] may add, and the outcome of saving an index. *)

Definition records (i : IndexFile) (name : string) : list ChartVersion :=
  default [] (Entries i !! name).

(** The version strings an index file holds for a package. *)
Definition versions (i : IndexFile) (name : string) : list string :=
  map (fun cv => chart.Version (Metadata cv)) (records i name).

(** A record made from one of the chart paths, for a package version the
    index did not have. *)
Definition added_from `{Collaborators} (fs : FS) (t : Z) (baseURL : string)
    (i : IndexFile) (paths : list string) (name : string) (cv : ChartVersion) : Prop :=
  exists p md digest,
    In p paths
    /\ loader_Load fs p = Ok md
    /\ provenance_DigestFile fs p = Ok digest
    /\ chart.Name md = name
    /\ cv = mkChartVersion md [chart_location baseURL p] t digest
    /\ Has i (chart.Name md) (chart.Version md) = false.

(** The world with another file system. *)
Definition with_disk (w : World) (fs : FS) : World :=
  mkWorld (IndexFileCache w) (now w) (requests w) fs (trace w).

(** Saving an index: serialized, then written to the destination. *)
Definition written `{Collaborators} (i : IndexFile) (out : string) (w : World)
  : outcome unit * World :=
  match Marshal i with
  | Err e => (Fail e, w)
  | Ok b =>
      match os.WriteFile (disk w) out b with
      | (fs, Some e) => (Fail e, with_disk w fs)
      | (fs, None) => (Return tt, with_disk w fs)
      end
  end.


(** ** A repository to run the definitions on *)

Module sample.

Definition quoted (s : string) : string :=
  String url.dquote (s ++ String url.dquote "").

Fixpoint digits (s : string) (acc : nat) : option nat :=
  match s with
  | EmptyString => Some acc
  | String c s' =>
      if url.is_digit c then digits s' (10 * acc + (nat_of_ascii c - 48)) else None
  end.

(** Versions of the form [major.minor.patch]. *)
Definition version (s : string) : option (nat * nat * nat) :=
  match strings.Split s "." with
  | [a; b; c] =>
      match (if String.eqb a "" then None else digits a 0),
            (if String.eqb b "" then None else digits b 0),
            (if String.eqb c "" then None else digits c 0) with
      | Some x, Some y, Some z => Some (x, y, z)
      | _, _, _ => None
      end
  | _ => None
  end.

Definition less (a b : nat * nat * nat) : bool :=
  let '(a1, a2, a3) := a in
  let '(b1, b2, b3) := b in
  (a1 <? b1)%nat
  || ((a1 =? b1)%nat && ((a2 <? b2)%nat || ((a2 =? b2)%nat && (a3 <? b3)%nat))).

Definition record (name ver digest : string) (urls : list string) : ChartVersion :=
  mkChartVersion (chart.mkMetadata name ver "") urls 0 digest.

Definition stale : IndexFile :=
  mkIndexFile "v1" 0 {[ "bar" := [record "bar" "0.1.0" "sha256:b1" ["bar-0.1.0.tgz"]] ]} [].

Definition fresh : IndexFile :=
  mkIndexFile "v1" 0
    {[ "bar" := [record "bar" "0.1.0" "sha256:b1" ["bar-0.1.0.tgz"]];
       "foo" := [record "foo" "1.0.0" "sha256:f1" ["foo-1.0.0.tgz"]] ]} [].

Definition decode (b : string) : result IndexFile :=
  if String.eqb b "stale" then Ok stale
  else if String.eqb b "fresh" then Ok fresh
  else if String.eqb b "" then Err (Errorf "empty index.yaml file")
  else Err (External "yaml: unmarshal error").

Definition render_versions (vs : list ChartVersion) : string :=
  strings.Join (map (fun cv => chart.Version (Metadata cv) ++ "@" ++ Digest cv) vs) ",".

Definition encode (i : IndexFile) : result string :=
  Ok (strings.Join
        (map (fun kv => fst kv ++ ":" ++ render_versions (snd kv))
             (map_to_list (Entries i))) ";").

Definition lookup (i : IndexFile) (name ver : string) : result ChartVersion :=
  match Entries i !! name with
  | None => Err (Errorf "no chart name found")
  | Some vs =>
      match List.find (fun cv => String.eqb ver ""
                                 || String.eqb (chart.Version (Metadata cv)) ver) vs with
      | Some cv => Ok cv
      | None => Err (Errorf "no chart version found")
      end
  end.

(** Archives are read as [name version] on one line. *)
Definition load_chart (fs : FS) (p : string) : result chart.Metadata :=
  match os.ReadFile fs p with
  | Err e => Err e
  | Ok data =>
      let '(n, v, found) := strings.Cut data " " in
      if found then Ok (chart.mkMetadata n v "")
      else Err (Errorf "chart metadata missing")
  end.

Definition digest (fs : FS) (p : string) : result string :=
  match os.ReadFile fs p with
  | Err e => Err e
  | Ok data => Ok ("sha256:" ++ data)
  end.

Definition local : IndexFile :=
  mkIndexFile "v1" 7
    {[ "foo" := [record "foo" "1.0.0" "sha256:local" ["foo-1.0.0.tgz"];
                 record "foo" "1.2.0" "sha256:l12" ["foo-1.2.0.tgz"]] ]} [].

Definition collaborators : Collaborators :=
  {| quote := quoted;
     random_name := fun _ => "c2FtcGxl";
     helmpath_CachePath := fun s => "/cache/" ++ s;
     helmpath_CacheChartsFile := fun n => n ++ "-charts.txt";
     helmpath_CacheIndexFile := fun n => n ++ "-index.yaml";
     APIVersionV1 := "v1";
     loadIndex := decode;
     Marshal := encode;
     IndexFile_Get := lookup;
     loader_Load := load_chart;
     provenance_DigestFile := digest;
     IndexDirectory := fun _ _ _ _ => Ok local;
     chart_location := fun base file =>
       if String.eqb base "" then file else base ++ "/" ++ filepath.Base file;
     semver := (nat * nat * nat)%type;
     semver_NewVersion := version;
     semver_LessThan := less |}.

(** A remote that serves the stale index first and the fresh one from the
    second request on. *)
Definition remote : getter.Getter :=
  fun n _ _ => if (n =? 0)%nat then Ok "stale" else Ok "fresh".

Definition getters : getter.Providers :=
  fun scheme => if String.eqb scheme "https" then Some remote else None.

Definition repoURL : string := "https://repo.example/charts".

Definition find (chartName chartVersion : string) : M string :=
  FindChartInAuthRepoURL (H := collaborators) repoURL "" "" chartName chartVersion
                         "" "" "" getters.

Definition refetch : M IndexFile :=
  GetAndCacheIndexFile (H := collaborators) repoURL "" "" "" "" "" getters.

Definition empty_disk : FS := mkFS ∅ ∅.

(** A world with nothing cached, one second past the epoch. *)
Definition cold : World := mkWorld IndexFileCache_init time.Second 0 empty_disk [].

(** A world whose cache holds the stale index for the repository. *)
Definition warm : World :=
  mkWorld (cache.Set_ time.Second repoURL (IndexFilePtr stale)
                      cache.DefaultExpiration IndexFileCache_init)
          (2 * time.Second) 1 empty_disk [].

(** A directory with one archive and an index under the name the
    download uses. *)
Definition repo_disk : FS :=
  mkFS {[ "/repo" := Dir;
          "/repo/foo-1.0.0.tgz" := File "foo 1.0.0";
          "/repo/index.yaml" := File "fresh";
          "/repo/sub" := Dir;
          "/repo/sub/bar-0.1.0.tgz" := File "bar 0.1.0" ]} ∅.



Definition repository (i : IndexFile) (paths : list string) : ChartRepository :=
  mkChartRepository
    (mkEntry "/repo" repoURL "" "" "" "" "" false) paths i remote "/cache/repository".

End sample.

(** ** The parts of a download

    The names [DownloadIndexFile] gives to what it requests and to the two
    files it writes below the cache path. *)

Definition download_options (r : ChartRepository) : getter.options :=
  getter.mkOptions (URL (Config r)) (InsecureSkipTLSverify (Config r))
                   (CertFile (Config r)) (KeyFile (Config r)) (CAFile (Config r))
                   (Username (Config r)) (Password (Config r)).

Definition charts_file `{Collaborators} (r : ChartRepository) : string :=
  filepath.Join [CachePath r; helmpath_CacheChartsFile (Name (Config r))].

Definition index_file `{Collaborators} (r : ChartRepository) : string :=
  filepath.Join [CachePath r; helmpath_CacheIndexFile (Name (Config r))].

(** The world after one request for a location. *)
Definition requested (w : World) (indexURL : string) : World :=
  mkWorld (IndexFileCache w) (now w) (S (requests w)) (disk w)
          (trace w ++ [EvDownload indexURL])%list.

(** The file system when [DownloadIndexFile] comes to write the index file:
    the directories made and the chart list written, or not. *)
Definition disk_for_index_file `{Collaborators} (r : ChartRepository)
                               (i : IndexFile) (fs : FS) : FS :=
  os.MkdirAll
    (fst (os.WriteFile
            (os.MkdirAll fs (filepath.Dir (charts_file r)))
            (charts_file r)
            (fold_right (fun name acc => name ++ String (ascii_of_nat 10) acc) ""
                        (map fst (map_to_list (Entries i))))))
    (filepath.Dir (index_file r)).

(** The entries of a cache other than the one of a key. *)
Definition same_elsewhere (k : string) (c c' : cache.Cache object) : Prop :=
  cache.defaultExpiration c' = cache.defaultExpiration c
  /\ cache.cleanupInterval c' = cache.cleanupInterval c
  /\ forall k', k' <> k -> cache.items c' !! k' = cache.items c !! k'.

(** What a step of a lookup may change: the clock stays, the cache changes
    under one key at most, and [n] requests are issued and traced. *)
Definition advances (k : string) (n : nat) (w w' : World) : Prop :=
  now w' = now w
  /\ same_elsewhere k (IndexFileCache w) (IndexFileCache w')
  /\ exists evs,
       trace w' = (trace w ++ evs)%list
       /\ count is_Download evs = n
       /\ requests w' = requests w + n.

(** The archives among the entries of a walk: the files whose name ends in
    [.tgz] and does not read as a local index. *)
Definition archives (entries : list (string * bool)) : list string :=
  map fst
      (List.filter (fun f => negb (snd f)
                             && negb (is_local_index (filepath.Base (fst f)))
                             && strings.HasSuffix (filepath.Base (fst f)) ".tgz")
                   entries).

(** ** Saving the generated index (chartrepo.go)

    The file name [indexPath] is a constant of index.go, taken as a
    parameter. *)

Definition saveIndexFile `{Collaborators} (indexPath : string) (r : ChartRepository)
  : M (option error) :=
  match Marshal (RepoIndexFile r) with
  | Err e => ret (Some e)
  | Ok index => ioutil_WriteFile (filepath.Join [Name (Config r); indexPath]) index
  end.

(** [Index]: the error returned, the repository as the call leaves it, and
    the world. *)
Definition Index `{Collaborators} (indexPath : string) (r : ChartRepository) (w : World)
  : option error * ChartRepository * World :=
  match generateIndex (disk w) (now w) r with
  | (Some err, r') => (Some err, r', w)
  | (None, r') =>
      match saveIndexFile indexPath r' w with
      | (Return e, w') => (e, r', w')
      | (Fail e, w') => (Some e, r', w')
      | (Panic, w') => (None, r', w')
      end
  end.

(** ** The show action (pkg/action/show.go) *)

Module action.

(** [strings.EqualFold] against a name of ASCII bytes without [k] or [s],
    as the readme names are: equal bytes, or an upper-case letter and its
    lower-case form. *)
Definition fold_byte (c d : ascii) : bool :=
  Ascii.eqb c d
  || (url.byte_in c 65 90 && (nat_of_ascii d =? nat_of_ascii c + 32)%nat)
  || (url.byte_in d 65 90 && (nat_of_ascii c =? nat_of_ascii d + 32)%nat).

Fixpoint EqualFold (s t : string) : bool :=
  match s, t with
  | EmptyString, EmptyString => true
  | String c s', String d t' => fold_byte c d && EqualFold s' t'
  | _, _ => false
  end.

Definition ShowAll : string := "all".
Definition ShowChart : string := "chart".
Definition ShowValues : string := "values".
Definition ShowReadme : string := "readme".
Definition ShowHook : string := "hook".
Definition ShowCRDs : string := "crds".

Definition readmeFileNames : list string := ["readme.md"; "readme.txt"; "readme"].

(** The fields of [chart.File], [chart.CRD] and [release.Hook] the action
    reads. *)
Record File := mkFile { Name : string; Data : string }.
Record CRD := mkCRD { Filename : string; CRDFile : File }.
Record Hook := mkHook { Path : string; Manifest : string }.

Record Chart (V : Type) := mkChart {
  Metadata : chart.Metadata;
  Values : option V;
  Raw : list File;
  Files : list File
}.
Arguments mkChart {V} Metadata Values Raw Files.
Arguments Metadata {V} c.
Arguments Values {V} c.
Arguments Raw {V} c.
Arguments Files {V} c.

Record ReleaseOptions := mkReleaseOptions {
  ReleaseName : string;
  ReleaseNamespace : string;
  Revision : Z
}.

(** What the action calls: the chart loader, the YAML encoder of the
    metadata, the JSONPath printer, the values file name, the CRDs of a
    chart, and the rendering of the configuration. *)
Class Rendering := {
  values : Type;
  Configuration : Type;
  capabilities : Type;
  rendered_values : Type;
  printer : Type;
  loader_Load : FS -> string -> result (Chart values);
  yaml_Marshal : chart.Metadata -> result string;
  NewJSONPathPrinter : string -> result printer;
  (** the text [Execute] writes; its error is dropped by the caller *)
  printer_Execute : printer -> values -> string;
  ValuesfileName : string;
  CRDObjects : Chart values -> list CRD;
  getCapabilities : Configuration -> result capabilities;
  (** [chartutil.ToRenderValues]: the values it returns, with or without
      an error *)
  ToRenderValues : Chart values -> values -> ReleaseOptions -> capabilities
                   -> rendered_values * option error;
  (** the hooks of [renderResources], [None] for a nil slice *)
  renderResources : Configuration -> Chart values -> rendered_values -> string
                    -> result (option (list Hook))
}.

Record Show `{Rendering} := mkShow {
  cfg : Configuration;
  Namespace : string;
  OutputFormat : string;
  JSONPathTemplate : string;
  chart : option (Chart values)
}.
Arguments mkShow {H} cfg Namespace OutputFormat JSONPathTemplate chart.

Definition nl : string := String (ascii_of_nat 10) "".

(** [fmt.Fprintln(&out, s)] *)
Definition Fprintln (out s : string) : string := out ++ s ++ nl.

Definition is_readme (f : File) : bool :=
  existsb (EqualFold (Name f)) readmeFileNames.

Definition findReadme (files : list File) : option File :=
  List.find is_readme files.

Section Run.

Context `{Rendering}.

Definition FindHooks (s : Show) (releaseName : string) (chrt : Chart values)
                     (vals : values) : result (option (list Hook)) :=
  let options := mkReleaseOptions releaseName (Namespace s) 1 in
  match getCapabilities (cfg s) with
  | Err err => Err err
  | Ok caps =>
      let valuesToRender := fst (ToRenderValues chrt vals options caps) in
      match renderResources (cfg s) chrt valuesToRender releaseName with
      | Err err => Err err
      | Ok hooks => Ok hooks
      end
  end.

(** How a part of [Run] ends: the output so far, or the values returned. *)
Inductive part :=
| Continue (out : string)
| Returned (r : result string).

Definition is_format (s : Show) (f : string) : bool := String.eqb (OutputFormat s) f.

Definition chart_part (s : Show) (cf out : string) : string :=
  if is_format s ShowChart || is_format s ShowAll then
    Fprintln (Fprintln out (nl ++ "--- ChartInfo")) cf
  else out.

Definition values_part (s : Show) (c : Chart values) (out : string) : part :=
  match Values c with
  | Some v =>
      if is_format s ShowValues || is_format s ShowAll then
        let out := if is_format s ShowAll then Fprintln out "---" else out in
        if negb (String.eqb (JSONPathTemplate s) "") then
          match NewJSONPathPrinter (JSONPathTemplate s) with
          | Err err =>
              Returned (Err (Wrap err ("error parsing jsonpath " ++ JSONPathTemplate s)))
          | Ok p => Continue (out ++ printer_Execute p v)
          end
        else
          Continue (fold_left
                      (fun out f => if String.eqb (Name f) ValuesfileName
                                    then Fprintln out (Data f) else out)
                      (Raw c) out)
      else Continue out
  | None => Continue out
  end.

Definition hooks_part (s : Show) (c : Chart values) (vals : values) (out : string)
  : part :=
  if is_format s ShowHook || is_format s ShowAll then
    let out := if is_format s ShowAll then Fprintln out (nl ++ "--- Hooks") else out in
    match FindHooks s "" c vals with
    | Err _ => Returned (Ok "")
    | Ok None => Returned (Ok out)
    | Ok (Some hooks) =>
        Continue (fold_left
                    (fun out hook =>
                       out ++ "# Source: " ++ Path hook ++ nl ++ Manifest hook ++ nl)
                    hooks out)
    end
  else Continue out.

Definition readme_part (s : Show) (c : Chart values) (out : string) : string :=
  if is_format s ShowReadme || is_format s ShowAll then
    match findReadme (Files c) with
    | Some readme =>
        let out := if is_format s ShowAll then Fprintln out "---" else out in
        Fprintln out (Data readme)
    | None => out
    end
  else out.

Definition crds_part (s : Show) (c : Chart values) (out : string) : string :=
  if is_format s ShowCRDs || is_format s ShowAll then
    match CRDObjects c with
    | [] => out
    | first :: _ as crds =>
        let out :=
          if is_format s ShowAll
             && negb (strings.HasPrefix (Data (CRDFile first)) "---")
          then Fprintln out "---" else out in
        fold_left (fun out crd => Fprintln out (Data (CRDFile crd))) crds out
    end
  else out.

Definition with_chart (s : Show) (c : Chart values) : Show :=
  mkShow (cfg s) (Namespace s) (OutputFormat s) (JSONPathTemplate s) (Some c).

(** The output of [Run] for a chart that is loaded. *)
Definition show_chart (s : Show) (c : Chart values) (vals : values) : result string :=
  match yaml_Marshal (Metadata c) with
  | Err err => Err err
  | Ok cf =>
      match values_part s c (chart_part s cf "") with
      | Returned r => r
      | Continue out =>
          match hooks_part s c vals out with
          | Returned r => r
          | Continue out => Ok (crds_part s c (readme_part s c out))
          end
      end
  end.

(** [Run]: the values returned, and the action with the chart it holds
    after the call. *)
Definition Run (fs : FS) (s : Show) (chartpath : string) (vals : values)
  : result string * Show :=
  match chart s with
  | Some c => (show_chart s c vals, s)
  | None =>
      match loader_Load fs chartpath with
      | Err err => (Err err, s)
      | Ok chrt => (show_chart (with_chart s chrt) chrt vals, with_chart s chrt)
      end
  end.

End Run.

End action.

(** A name without upper-case letters. *)
Fixpoint no_upper (s : string) : bool :=
  match s with
  | EmptyString => true
  | String c s' => negb (url.byte_in c 65 90) && no_upper s'
  end.

(** The values part of [Run] does not fail: no JSONPath template, no
    values, or a template that parses. *)
Definition values_ok `{action.Rendering} (s : action.Show) (c : action.Chart action.values) : Prop :=
  action.JSONPathTemplate s = "" \/ action.Values c = None
  \/ exists p, action.NewJSONPathPrinter (action.JSONPathTemplate s) = Ok p.

(** ** A chart to show *)

Module sample_show.

Definition rendering : action.Rendering :=
  {| action.values := string;
     action.Configuration := bool;
     action.capabilities := unit;
     action.rendered_values := string;
     action.printer := string;
     action.loader_Load := fun fs p =>
       match os.ReadFile fs p with
       | Err e => Err e
       | Ok data =>
           Ok (action.mkChart (chart.mkMetadata data "1.0.0" "") (Some "replicas: 1")
                 [action.mkFile "values.yaml" "replicas: 1"]
                 [action.mkFile "LICENSE" "MIT"; action.mkFile "README.md" "# Hello"])
       end;
     action.yaml_Marshal := fun md => Ok ("name: " ++ chart.Name md);
     action.NewJSONPathPrinter := fun t =>
       if String.eqb t "{" then Err (External "unclosed action") else Ok t;
     action.printer_Execute := fun p v => v;
     action.ValuesfileName := "values.yaml";
     action.CRDObjects := fun _ => [];
     action.getCapabilities := fun cfg =>
       if cfg then Ok tt else Err (External "cluster unreachable");
     action.ToRenderValues := fun _ vals _ _ => (vals, None);
     action.renderResources := fun _ _ _ _ => Ok None |}.

(** An action on a reachable and on an unreachable cluster. *)
Definition show (reachable : bool) (format : string) : action.Show (H := rendering) :=
  action.mkShow (H := rendering) reachable "default" format "" None.

Definition chart_disk : FS := mkFS {[ "/charts/foo" := File "foo" ]} ∅.

End sample_show.

(** ** Further worlds, remotes and charts *)

Module scenario.

(** A world whose cache holds the fresh index for the repository, and the
    stale one for another repository. *)
Definition hot : World :=
  mkWorld (cache.Set_ time.Second "https://other.example/charts" (IndexFilePtr sample.stale)
             cache.DefaultExpiration
             (cache.Set_ time.Second sample.repoURL (IndexFilePtr sample.fresh)
                cache.DefaultExpiration IndexFileCache_init))
          (2 * time.Second) 1 sample.empty_disk [].

(** A remote that cannot be reached. *)
Definition down : getter.Providers :=
  fun scheme =>
    if String.eqb scheme "https"
    then Some (fun _ _ _ => Err (External "connection refused"))
    else None.

(** A world whose chart list below the cache path cannot be written. *)
Definition locked : World :=
  mkWorld IndexFileCache_init time.Second 0
          (mkFS ∅ {[ "/cache/repository/repo-charts.txt" ]}) [].

(** The directory of the sample repository, nothing cached. *)
Definition indexed : World := mkWorld IndexFileCache_init 9 0 sample.repo_disk [].

Definition paths : list string := ["/repo/foo-1.0.0.tgz"; "/repo/sub/bar-0.1.0.tgz"].

Definition foo : action.Chart string :=
  action.mkChart (chart.mkMetadata "foo" "1.0.0" "") (Some "replicas: 1")
    [action.mkFile "values.yaml" "replicas: 1"]
    [action.mkFile "LICENSE" "MIT"; action.mkFile "README.md" "# Hello";
     action.mkFile "readme.txt" "hello"].

(** An action that holds the chart. *)
Definition shown (reachable : bool) (format : string)
  : action.Show (H := sample_show.rendering) :=
  action.mkShow (H := sample_show.rendering) reachable "default" format "" (Some foo).

End scenario.

(** * Properties *)

(** ** Resolving a chart location against the repository URL *)

Lemma absolute_reference_fixed (b : url.URL) :
  url.String
    (url.ResolveReference b
       (url.mkURL "https" "" None "other" "/x.tgz" "" false "" "" ""))
  = "https://other/x.tgz".
Proof. reflexivity. Qed.




(** ** The unauthenticated lookup *)

(** C10. [FindChartInRepoURL] returns what [FindChartInAuthRepoURL] returns
    with empty user name and password, in every world: the same result and
    the same world after the call. *)
Theorem C10_unauthenticated_is_empty_credentials `{Collaborators}
    (repoURL chartName chartVersion certFile keyFile caFile : string)
    (getters : getter.Providers) (w : World) :
  FindChartInRepoURL repoURL chartName chartVersion certFile keyFile caFile getters w
  = FindChartInAuthRepoURL repoURL "" "" chartName chartVersion
                           certFile keyFile caFile getters w.
Proof. reflexivity. Qed.

(** ** The TTL of the cache *)

Ltac Zbool :=
  repeat match goal with
    | |- context [(?a =? ?b)%Z] => destruct (Z.eqb_spec a b); try lia
    | |- context [(?a <? ?b)%Z] => destruct (Z.ltb_spec a b); try lia
    end.

Section CacheTTL.

Variable V : Type.
Implicit Types (c : cache.Cache V) (k : string) (v : V).

Lemma Get_Set_live c k v d (T t : Z) :
  (0 < d)%Z -> (t <= T + d)%Z ->
  cache.Get t k (cache.Set_ T k v d c) = Some v.
Proof.
  intros Hd Ht. unfold cache.Get, cache.Set_, cache.DefaultExpiration.
  cbn [cache.items]. rewrite lookup_insert_eq.
  destruct (Z.eqb_spec d 0); [lia |]. destruct (Z.ltb_spec 0 d); [| lia].
  cbn [cache.Expiration cache.Object]. Zbool; reflexivity.
Qed.

Lemma Get_Set_expired c k v d (T t : Z) :
  (0 < d)%Z -> (0 <= T)%Z -> (T + d < t)%Z ->
  cache.Get t k (cache.Set_ T k v d c) = None.
Proof.
  intros Hd HT Ht. unfold cache.Get, cache.Set_, cache.DefaultExpiration.
  cbn [cache.items]. rewrite lookup_insert_eq.
  destruct (Z.eqb_spec d 0); [lia |]. destruct (Z.ltb_spec 0 d); [| lia].
  cbn [cache.Expiration cache.Object]. Zbool; reflexivity.
Qed.

Lemma Set_default c k v (T : Z) :
  cache.Set_ T k v cache.DefaultExpiration c
  = cache.Set_ T k v (cache.defaultExpiration c) c.
Proof.
  unfold cache.Set_, cache.DefaultExpiration. cbn.
  destruct (Z.eqb_spec (cache.defaultExpiration c) 0) as [->|]; reflexivity.
Qed.

Lemma sweep_keeps_live c k v d (T t : Z) :
  (0 < d)%Z -> (t <= T + d)%Z ->
  cache.items (cache.DeleteExpired t (cache.Set_ T k v d c)) !! k
  = Some (cache.mkItem v (T + d)).
Proof.
  intros Hd Ht. unfold cache.DeleteExpired, cache.Set_, cache.DefaultExpiration.
  cbn [cache.items].
  destruct (Z.eqb_spec d 0); [lia |]. destruct (Z.ltb_spec 0 d); [| lia].
  apply map_lookup_filter_Some. split; [apply lookup_insert_eq |].
  cbn. Zbool; reflexivity.
Qed.

Lemma sweep_drops_expired c k v d (T t : Z) :
  (0 < d)%Z -> (0 <= T)%Z -> (T + d < t)%Z ->
  cache.items (cache.DeleteExpired t (cache.Set_ T k v d c)) !! k = None.
Proof.
  intros Hd HT Ht. unfold cache.DeleteExpired, cache.Set_, cache.DefaultExpiration.
  cbn [cache.items].
  destruct (Z.eqb_spec d 0); [lia |]. destruct (Z.ltb_spec 0 d); [| lia].
  apply map_lookup_filter_None. right. intros it Hit.
  rewrite lookup_insert_eq in Hit. injection Hit as <-. cbn.
  Zbool; discriminate.
Qed.

End CacheTTL.

(** ** The lookup, path by path *)

Section Lookup.
Context `{Collaborators}.
Variables (repoURL username password chartName chartVersion certFile keyFile caFile : string).
Variable getters : getter.Providers.

Local Abbreviation find := (FindChartInAuthRepoURL repoURL username password chartName chartVersion
                    certFile keyFile caFile getters).
Local Abbreviation refetch := (GetAndCacheIndexFile repoURL username password
                       certFile keyFile caFile getters).
Local Abbreviation chosen := (chosen_catalog repoURL username password certFile keyFile caFile getters).

(** The rest of the lookup once the catalog is chosen. *)
Lemma find_after_choice (w w1 : World) (repoIndex : IndexFile) :
  chosen w repoIndex w1 ->
  find w =
    match IndexFile_Get repoIndex chartName chartVersion with
    | Ok cv => (located repoURL chartName chartVersion cv,
                logged w1 (EvIndexGet chartName chartVersion true))
    | Err _ =>
        match refetch (invalidated repoURL chartName chartVersion w1) with
        | (Return repoIndex2, w3) =>
            match IndexFile_Get repoIndex2 chartName chartVersion with
            | Ok cv => (located repoURL chartName chartVersion cv,
                        recached repoURL (logged w3 (EvIndexGet chartName chartVersion true)))
            | Err _ =>
                (Fail (Errorf (errMsg_of chartName chartVersion ++ " not found in "
                               ++ repoURL ++ " repository")),
                 logged w3 (EvIndexGet chartName chartVersion false))
            end
        | (Fail e3, w3) => (Fail e3, w3)
        | (Panic, w3) => (Panic, w3)
        end
    end.
Proof.
  assert (Htail : forall w',
    (first <- repoIndex_Get repoIndex chartName chartVersion;;
     cv <-
       match first with
       | Ok cv => ret cv
       | Err _ =>
           IndexFileCache_Delete repoURL;;
           repoIndex <- refetch;;
           second <- repoIndex_Get repoIndex chartName chartVersion;;
           match second with
           | Err _ =>
               fail (Errorf (errMsg_of chartName chartVersion ++ " not found in "
                             ++ repoURL ++ " repository"))
           | Ok cv =>
               IndexFileCache_Set repoURL CachePtr cache.DefaultExpiration;;
               ret cv
           end
       end;;
     match URLs cv with
     | [] => fail (Errorf (errMsg_of chartName chartVersion ++ " has no downloadable URLs"))
     | chartURL :: _ =>
         match ResolveReferenceURL repoURL chartURL with
         | Err err => fail (Wrap err "failed to make chart URL absolute")
         | Ok absoluteChartURL => ret absoluteChartURL
         end
     end)%go w' =
    match IndexFile_Get repoIndex chartName chartVersion with
    | Ok cv => (located repoURL chartName chartVersion cv,
                logged w' (EvIndexGet chartName chartVersion true))
    | Err _ =>
        match refetch (invalidated repoURL chartName chartVersion w') with
        | (Return repoIndex2, w3) =>
            match IndexFile_Get repoIndex2 chartName chartVersion with
            | Ok cv => (located repoURL chartName chartVersion cv,
                        recached repoURL (logged w3 (EvIndexGet chartName chartVersion true)))
            | Err _ =>
                (Fail (Errorf (errMsg_of chartName chartVersion ++ " not found in "
                               ++ repoURL ++ " repository")),
                 logged w3 (EvIndexGet chartName chartVersion false))
            end
        | (Fail e3, w3) => (Fail e3, w3)
        | (Panic, w3) => (Panic, w3)
        end
    end).
  { intros w'.
    unfold bind, ret, fail, repoIndex_Get, log, IndexFileCache_Delete,
      IndexFileCache_Set, located, logged, invalidated, recached.
    cbn -[GetAndCacheIndexFile ResolveReferenceURL errMsg_of cache.Set_ cache.Delete].
    destruct (IndexFile_Get repoIndex chartName chartVersion) as [cv | e].
    - destruct (URLs cv) as [| chartURL ?]; [reflexivity |].
      destruct (ResolveReferenceURL repoURL chartURL); reflexivity.
    - cbn [IndexFileCache now requests disk trace]. rewrite <- !app_assoc. cbn [app].
      destruct (refetch _) as [[repoIndex2 | e3 |] w3]; try reflexivity.
      cbn -[GetAndCacheIndexFile ResolveReferenceURL errMsg_of cache.Set_ cache.Delete].
      destruct (IndexFile_Get repoIndex2 chartName chartVersion) as [cv | e2];
        [| reflexivity].
      cbn -[GetAndCacheIndexFile ResolveReferenceURL errMsg_of cache.Set_ cache.Delete].
      destruct (URLs cv) as [| chartURL ?]; [reflexivity |].
      destruct (ResolveReferenceURL repoURL chartURL); reflexivity. }
  intros [[Hhit ->] | [Hmiss Hfetch]].
  - rewrite <- Htail. unfold FindChartInAuthRepoURL, bind at 1.
    unfold IndexFileCache_Get at 1. rewrite Hhit. reflexivity.
  - rewrite <- Htail. unfold FindChartInAuthRepoURL, bind at 1.
    unfold IndexFileCache_Get at 1. rewrite Hmiss. unfold bind at 1.
    change (bool_decide (is_Some (@None object))) with false.
    fold (logged w (EvCacheGet repoURL false)). rewrite Hfetch. reflexivity.
Qed.

Lemma DownloadIndexFile_effect (r : ChartRepository) (w w' : World)
                               (res : outcome (IndexFile * string)) :
  DownloadIndexFile r w = (res, w') ->
  res <> Panic
  /\ now w' = now w
  /\ IndexFileCache w' = IndexFileCache w
  /\ ((exists e, res = Fail e) /\ trace w' = trace w
      \/ exists u, trace w' = (trace w ++ [EvDownload u])%list).
Proof.
  unfold DownloadIndexFile.
  destruct (index_location (URL (Config r))) as [pe | indexURL].
  { intros [= <- <-]. repeat split; try discriminate. left. eauto. }
  unfold bind at 1. unfold Client_Get.
  destruct (Client r (requests w) indexURL _) as [body | e].
  2:{ intros [= <- <-]. repeat split; try discriminate. right. eauto. }
  unfold bind at 1. unfold lift.
  destruct (loadIndex body) as [indexFile | e].
  2:{ intros [= <- <-]. repeat split; try discriminate. right. eauto. }
  unfold ret at 1, bind, os_MkdirAll, ioutil_WriteFile.
  cbn [IndexFileCache now requests disk trace].
  repeat match goal with
         | |- context [os.WriteFile ?a ?b ?c] =>
             destruct (os.WriteFile a b c) as [? [?|]]
         end;
    intros [= <- <-]; repeat split; try discriminate; right; eauto.
Qed.

Lemma refetch_effect (w w' : World) (r : outcome IndexFile) :
  refetch w = (r, w') ->
  r <> Panic
  /\ now w' = now w
  /\ ((exists e, r = Fail e) /\ IndexFileCache w' = IndexFileCache w
      /\ (trace w' = trace w \/ exists u, trace w' = (trace w ++ [EvDownload u])%list)
      \/ exists i u,
           r = Return i
           /\ IndexFileCache w'
              = cache.Set_ (now w) repoURL (IndexFilePtr i) cache.DefaultExpiration
                           (IndexFileCache w)
           /\ trace w' = (trace w ++ [EvDownload u;
                                      EvCacheSet repoURL (IndexFilePtr i)])%list).
Proof.
  unfold GetAndCacheIndexFile, NewChartRepository, the_requests, bind at 1.
  cbn [URL].
  destruct (url.Parse repoURL) as [pe | u].
  { unfold bind, fail. intros [= <- <-]. repeat split; try discriminate. left. eauto. }
  destruct (getters (url.Scheme u)) as [client |].
  2:{ unfold bind, fail. intros [= <- <-]. repeat split; try discriminate. left. eauto. }
  cbv beta iota delta [bind ret NewIndexFile time_Now on_error].
  match goal with
  | |- context [DownloadIndexFile ?r ?w0] =>
      destruct (DownloadIndexFile r w0) as [res w1] eqn:Hd
  end.
  apply DownloadIndexFile_effect in Hd as (Hp & Hnow & Hcache & Htr).
  destruct res as [[indexFile fname] | e |]; [| | congruence].
  - unfold bind, IndexFileCache_Set, ret. cbn [fst].
    intros [= <- <-]. cbn [now IndexFileCache trace].
    split; [discriminate |]. split; [exact Hnow |]. right.
    destruct Htr as [[[e He] _] | [u' Hu]]; [discriminate |].
    exists indexFile, u'. rewrite Hu, Hcache, Hnow, <- app_assoc. auto.
  - intros [= <- <-]. split; [discriminate |]. split; [exact Hnow |]. left.
    split; [eauto |]. split; [exact Hcache |].
    destruct Htr as [[_ Ht] | [u' Hu]]; eauto.
Qed.
Lemma count_app (p : event -> bool) (l1 l2 : list event) :
  count p (l1 ++ l2) = count p l1 + count p l2.
Proof. unfold count. now rewrite List.filter_app, List.length_app. Qed.

Lemma events_since_app (w w' : World) (evs : list event) :
  trace w' = (trace w ++ evs)%list -> events_since w w' = evs.
Proof. intros E. unfold events_since. rewrite E. apply drop_app_length. Qed.

(** Choosing the catalog makes no [Get] attempt, deletes nothing, and
    downloads at most once. *)
Lemma chosen_effect (w w1 : World) (repoIndex : IndexFile) :
  chosen w repoIndex w1 ->
  exists evs,
    trace w1 = (trace w ++ evs)%list
    /\ count is_IndexGet evs = 0
    /\ count is_CacheDelete evs = 0
    /\ count is_Download evs <= 1.
Proof.
  intros [[_ ->] | [_ Hfetch]].
  - eexists. split; [reflexivity |]. cbn. lia.
  - apply refetch_effect in Hfetch as (_ & _ & [[[e He] _] | (i & u & _ & _ & Ht)]);
      [discriminate |].
    exists [EvCacheGet repoURL false; EvDownload u; EvCacheSet repoURL (IndexFilePtr i)].
    split; [| cbn; lia]. rewrite Ht. cbn. now rewrite <- app_assoc.
Qed.

(** C1. When [Get] fails on the chosen catalog, whether the catalog came
    from the cache or from a download, the lookup deletes the cache entry
    of the repository URL and fetches the index again. When that fetch
    returns a catalog, [Get] is tried on it once more and never again: a
    second failure ends the lookup with the error [chart "name" not found
    in URL repository], the version named after the chart when it is not
    empty. Over the whole lookup there are two [Get] attempts, one
    deletion and at most two downloads. *)
Theorem C1_stale_retry_once
    (w w1 w3 : World) (repoIndex : IndexFile) (e : error) (r3 : outcome IndexFile) :
  chosen w repoIndex w1 ->
  IndexFile_Get repoIndex chartName chartVersion = Err e ->
  refetch (invalidated repoURL chartName chartVersion w1) = (r3, w3) ->
  cache.items (IndexFileCache (invalidated repoURL chartName chartVersion w1)) !! repoURL
    = None
  /\ match r3 with
     | Return repoIndex2 =>
         (exists u,
            trace w3 = (trace w1 ++ [EvIndexGet chartName chartVersion false;
                                     EvCacheDelete repoURL;
                                     EvDownload u;
                                     EvCacheSet repoURL (IndexFilePtr repoIndex2)])%list)
         /\ match IndexFile_Get repoIndex2 chartName chartVersion with
            | Err _ =>
                find w =
                  (Fail (Errorf (errMsg_of chartName chartVersion ++ " not found in "
                                 ++ repoURL ++ " repository")),
                   logged w3 (EvIndexGet chartName chartVersion false))
            | Ok cv =>
                find w =
                  (located repoURL chartName chartVersion cv,
                   recached repoURL (logged w3 (EvIndexGet chartName chartVersion true)))
            end
         /\ count is_IndexGet (events_since w (snd (find w))) = 2
     | Fail e3 =>
         find w = (Fail e3, w3)
         /\ count is_IndexGet (events_since w (snd (find w))) = 1
     | Panic => False
     end
  /\ count is_CacheDelete (events_since w (snd (find w))) = 1
  /\ count is_Download (events_since w (snd (find w))) <= 2
  /\ errMsg_of chartName chartVersion
     = (if String.eqb chartVersion "" then "chart " ++ quote chartName
        else ("chart " ++ quote chartName) ++ " version " ++ quote chartVersion).
Proof.
  intros Hc Hget Hre.
  pose proof (find_after_choice w w1 repoIndex Hc) as Hfind.
  rewrite Hget, Hre in Hfind.
  destruct (chosen_effect _ _ _ Hc) as (evs0 & Ht0 & Hg0 & Hd0 & Hf0).
  pose proof (refetch_effect _ _ _ Hre) as (Hnp & _ & Heff).
  cbn [invalidated trace IndexFileCache] in Heff.
  split; [apply lookup_delete_eq |].
  assert (Hmsg : errMsg_of chartName chartVersion
                 = (if String.eqb chartVersion "" then "chart " ++ quote chartName
                    else ("chart " ++ quote chartName) ++ " version "
                         ++ quote chartVersion)) by reflexivity.
  assert (Hcount : forall (p : event -> bool) (wf : World) (evs : list event),
             trace wf = (trace w1 ++ evs)%list ->
             count p (events_since w wf) = count p evs0 + count p evs).
  { intros p wf evs Hwf. unfold events_since.
    rewrite Hwf, Ht0, <- app_assoc, drop_app_length. apply count_app. }
  destruct r3 as [repoIndex2 | e3 |]; [| | congruence].
  - destruct Heff as [[[e' He'] _] | (i & u & [= <-] & _ & Ht3)]; [discriminate |].
    rewrite <- app_assoc in Ht3. cbn [app] in Ht3.
    destruct (IndexFile_Get repoIndex2 chartName chartVersion) as [cv | e2];
      rewrite Hfind; cbn [snd].
    + rewrite !(Hcount _ _ [EvIndexGet chartName chartVersion false;
                            EvCacheDelete repoURL; EvDownload u;
                            EvCacheSet repoURL (IndexFilePtr repoIndex2);
                            EvIndexGet chartName chartVersion true;
                            EvCacheSet repoURL CachePtr])
        by (cbn [recached logged trace]; rewrite Ht3, <- !app_assoc; reflexivity).
      rewrite Hg0, Hd0. repeat split; eauto; cbn; lia.
    + rewrite !(Hcount _ _ [EvIndexGet chartName chartVersion false;
                            EvCacheDelete repoURL; EvDownload u;
                            EvCacheSet repoURL (IndexFilePtr repoIndex2);
                            EvIndexGet chartName chartVersion false])
        by (cbn [logged trace]; rewrite Ht3, <- !app_assoc; reflexivity).
      rewrite Hg0, Hd0. repeat split; eauto; cbn; lia.
  - rewrite Hfind. cbn [snd].
    destruct Heff as [(_ & _ & Ht3) | (i & u & [=] & _)].
    destruct Ht3 as [Ht3 | [u Ht3]].
    + rewrite !(Hcount _ _ [EvIndexGet chartName chartVersion false;
                            EvCacheDelete repoURL])
        by (rewrite Ht3; reflexivity).
      rewrite Hg0, Hd0. repeat split; eauto; cbn; lia.
    + rewrite !(Hcount _ _ [EvIndexGet chartName chartVersion false;
                            EvCacheDelete repoURL; EvDownload u])
        by (rewrite Ht3, <- !app_assoc; reflexivity).
      rewrite Hg0, Hd0. repeat split; eauto; cbn; lia.
Qed.

(** C5. Whenever [Get] produces a record, on the chosen catalog or, after a
    failure there, on the catalog fetched again, the lookup fails with
    [... has no downloadable URLs] when the record lists no URL, and
    otherwise returns what resolving the record's first URL against the
    repository URL gives, an error of that resolution being returned
    wrapped. *)
Theorem C5_first_url_resolved
    (w w1 : World) (repoIndex : IndexFile) (cv : ChartVersion) :
  chosen w repoIndex w1 ->
  (IndexFile_Get repoIndex chartName chartVersion = Ok cv
   \/ exists e repoIndex2 w3,
        IndexFile_Get repoIndex chartName chartVersion = Err e
        /\ refetch (invalidated repoURL chartName chartVersion w1)
           = (Return repoIndex2, w3)
        /\ IndexFile_Get repoIndex2 chartName chartVersion = Ok cv) ->
  fst (find w) =
    match URLs cv with
    | [] => Fail (Errorf (errMsg_of chartName chartVersion ++ " has no downloadable URLs"))
    | chartURL :: _ =>
        match ResolveReferenceURL repoURL chartURL with
        | Ok absoluteChartURL => Return absoluteChartURL
        | Err err => Fail (Wrap err "failed to make chart URL absolute")
        end
    end.
Proof.
  intros Hc Hget. rewrite (find_after_choice w w1 repoIndex Hc).
  destruct Hget as [-> | (e & repoIndex2 & w3 & -> & -> & ->)];
    cbn [fst]; unfold located;
    destruct (URLs cv) as [| chartURL ?]; try reflexivity;
    destruct (ResolveReferenceURL repoURL chartURL); reflexivity.
Qed.

(** A cached cache object makes the next lookup panic. *)
Lemma find_panics_on_cache_object (w : World) :
  cache.Get (now w) repoURL (IndexFileCache w) = Some CachePtr ->
  find w = (Panic, logged w (EvCacheGet repoURL true)).
Proof.
  intros Hhit. unfold FindChartInAuthRepoURL, bind at 1.
  unfold IndexFileCache_Get at 1. rewrite Hhit. reflexivity.
Qed.

(** After a retry that found the record, the entry of the repository URL
    holds the cache object, and a lookup up to its expiry panics. *)
Lemma lookup_after_retry_panics
    (w w1 w3 : World) (repoIndex repoIndex2 : IndexFile) (e : error)
    (cv : ChartVersion) (t : Z) :
  chosen w repoIndex w1 ->
  IndexFile_Get repoIndex chartName chartVersion = Err e ->
  refetch (invalidated repoURL chartName chartVersion w1) = (Return repoIndex2, w3) ->
  IndexFile_Get repoIndex2 chartName chartVersion = Ok cv ->
  (0 < cache.defaultExpiration (IndexFileCache w3))%Z ->
  (t <= now w3 + cache.defaultExpiration (IndexFileCache w3))%Z ->
  cache.Get t repoURL (IndexFileCache (snd (find w))) = Some CachePtr
  /\ fst (find (at_time t (snd (find w)))) = Panic.
Proof.
  intros Hc Hget Hre Hget2 Hd Ht.
  rewrite (find_after_choice w w1 repoIndex Hc), Hget, Hre, Hget2.
  cbn [snd recached logged IndexFileCache now].
  assert (Hhit : cache.Get t repoURL
                   (cache.Set_ (now w3) repoURL CachePtr cache.DefaultExpiration
                               (IndexFileCache w3)) = Some CachePtr)
    by (rewrite Set_default; now apply Get_Set_live).
  split; [exact Hhit |].
  now rewrite find_panics_on_cache_object.
Qed.

End Lookup.

Lemma C1_stale_retry_once_witness :
  fst (sample.find "baz" "2.0.0" sample.warm)
  = Fail (Errorf ("chart " ++ sample.quoted "baz" ++ " version " ++ sample.quoted "2.0.0"
                  ++ " not found in https://repo.example/charts repository")).
Proof.
  pose proof (C1_stale_retry_once (H := sample.collaborators)
                sample.repoURL "" "" "baz" "2.0.0" "" "" "" sample.getters
                sample.warm
                (logged sample.warm (EvCacheGet sample.repoURL true))
                (snd (sample.refetch
                        (invalidated sample.repoURL "baz" "2.0.0"
                           (logged sample.warm (EvCacheGet sample.repoURL true)))))
                sample.stale (Errorf "no chart name found") (Return sample.fresh)) as Hw.
  destruct Hw as (_ & (_ & Hfind & _) & _).
  - left. split; reflexivity.
  - reflexivity.
  - vm_compute. reflexivity.
  - assert (Hf : sample.find "baz" "2.0.0" sample.warm
                 = (Fail (Errorf (errMsg_of (H := sample.collaborators) "baz" "2.0.0"
                                  ++ " not found in " ++ sample.repoURL ++ " repository")),
                    logged (snd (sample.refetch
                        (invalidated sample.repoURL "baz" "2.0.0"
                           (logged sample.warm (EvCacheGet sample.repoURL true)))))
                           (EvIndexGet "baz" "2.0.0" false))) by exact Hfind.
    rewrite Hf. reflexivity.
Defined.

Lemma C5_first_url_resolved_witness :
  fst (sample.find "foo" "1.0.0" sample.warm)
  = Return "https://repo.example/charts/foo-1.0.0.tgz".
Proof.
  unfold sample.find.
  rewrite (C5_first_url_resolved (H := sample.collaborators)
             sample.repoURL "" "" "foo" "1.0.0" "" "" "" sample.getters
             sample.warm (logged sample.warm (EvCacheGet sample.repoURL true))
             sample.stale
             (sample.record "foo" "1.0.0" "sha256:f1" ["foo-1.0.0.tgz"])).
  - reflexivity.
  - left. split; reflexivity.
  - right. exists (Errorf "no chart name found"), sample.fresh,
      (snd (sample.refetch
              (invalidated sample.repoURL "foo" "1.0.0"
                 (logged sample.warm (EvCacheGet sample.repoURL true))))).
    split; [reflexivity |]. split; [vm_compute; reflexivity | reflexivity].
Defined.

(** ** What the cache holds after a retry *)

(** C2. The claim fails on the code. With the stale catalog cached and the
    remote now serving the chart, the lookup succeeds on its retry and
    leaves the cache object itself, not the catalog fetched again, under the
    repository URL; the next lookup hits that entry and panics in its type
    assertion. *)
Theorem C2_cache_object_stored_after_retry :
  fst (sample.find "foo" "1.0.0" sample.warm)
    = Return "https://repo.example/charts/foo-1.0.0.tgz"
  /\ cache.Get (now sample.warm) sample.repoURL
               (IndexFileCache (snd (sample.find "foo" "1.0.0" sample.warm)))
     = Some CachePtr
  /\ fst (sample.find "foo" "1.0.0"
            (at_time (3 * time.Second) (snd (sample.find "foo" "1.0.0" sample.warm))))
     = Panic.
Proof. repeat split; vm_compute; reflexivity. Qed.

(** ** The name of the index file *)

Lemma remote_index_name_not_local : is_local_index remote_index_name = false.
Proof. reflexivity. Qed.

(** [Load] passes over a file with the name the download uses. *)
Lemma Load_visit_skips_remote_name `{Collaborators}
    (fs : FS) (r : ChartRepository) (p : string) :
  filepath.Base p = remote_index_name ->
  Load_visit fs r (p, false) = r.
Proof. intros Hb. unfold Load_visit. rewrite Hb. reflexivity. Qed.

(** C3. The claim fails on the code. The download joins [index.yaml] onto
    the repository URL, while [Load] reads a file as an index only when its
    name contains [-index.yaml]: in a directory holding a valid index under
    the name [index.yaml], [Load] records the archives and leaves the
    repository's index file as it was. *)
Theorem C3_index_yaml_not_read_by_Load :
  index_location sample.repoURL = inr "https://repo.example/charts/index.yaml"
  /\ filepath.Base "/repo/index.yaml" = remote_index_name
  /\ LoadIndexFile (H := sample.collaborators) sample.repo_disk "/repo/index.yaml"
     = Ok sample.fresh
  /\ Load (H := sample.collaborators) sample.repo_disk
          (sample.repository sample.stale [])
     = Ok (sample.repository sample.stale
             ["/repo/foo-1.0.0.tgz"; "/repo/sub/bar-0.1.0.tgz"]).
Proof. repeat split; vm_compute; reflexivity. Qed.

(** ** Expiry *)

(** C8, as the code has it. For an entry stored at an instant [T] not
    before the epoch, in a cache with the default expiration of
    [IndexFileCache]: the default expiration is three minutes and the sweep
    runs every three minutes; a lookup at or before [T] plus three minutes
    finds the entry and a sweep then keeps it; a lookup strictly after finds
    nothing and a sweep then removes the entry. *)
Theorem C8_entry_lives_through_its_ttl
    (c : cache.Cache object) (k : string) (v : object) (T t : Z) :
  cache.defaultExpiration c = cache.defaultExpiration IndexFileCache_init ->
  (0 <= T)%Z ->
  cache.defaultExpiration IndexFileCache_init = (3 * time.Minute)%Z
  /\ cache.cleanupInterval IndexFileCache_init
     = cache.defaultExpiration IndexFileCache_init
  /\ ((t <= T + 3 * time.Minute)%Z ->
      cache.Get t k (cache.Set_ T k v cache.DefaultExpiration c) = Some v
      /\ cache.items (cache.DeleteExpired t
                        (cache.Set_ T k v cache.DefaultExpiration c)) !! k
         = Some (cache.mkItem v (T + 3 * time.Minute)))
  /\ ((T + 3 * time.Minute < t)%Z ->
      cache.Get t k (cache.Set_ T k v cache.DefaultExpiration c) = None
      /\ cache.items (cache.DeleteExpired t
                        (cache.Set_ T k v cache.DefaultExpiration c)) !! k
         = None).
Proof.
  intros Hc HT. rewrite Set_default, Hc.
  change (cache.defaultExpiration IndexFileCache_init) with (3 * time.Minute)%Z.
  assert (0 < 3 * time.Minute)%Z by reflexivity.
  repeat split.
  - now apply Get_Set_live.
  - now apply sweep_keeps_live.
  - now apply Get_Set_expired.
  - now apply sweep_drops_expired.
Qed.

Lemma C8_entry_lives_through_its_ttl_witness :
  cache.Get (time.Minute + 3 * time.Minute) sample.repoURL
            (cache.Set_ time.Minute sample.repoURL (IndexFilePtr sample.stale)
                        cache.DefaultExpiration IndexFileCache_init)
  = Some (IndexFilePtr sample.stale).
Proof.
  apply (C8_entry_lives_through_its_ttl IndexFileCache_init sample.repoURL
           (IndexFilePtr sample.stale) time.Minute (time.Minute + 3 * time.Minute)).
  - reflexivity.
  - unfold time.Minute, time.Second, time.Nanosecond. lia.
  - lia.
Defined.

(** The claim of C8 as written fails at the instant of expiry itself: an
    entry stored one second past the epoch is still found exactly three
    minutes later. *)
Lemma C8_found_at_expiry_instant :
  (time.Second + 3 * time.Minute <= time.Second + 3 * time.Minute)%Z
  /\ cache.Get (time.Second + 3 * time.Minute) sample.repoURL
               (cache.Set_ time.Second sample.repoURL (IndexFilePtr sample.fresh)
                           cache.DefaultExpiration IndexFileCache_init)
     = Some (IndexFilePtr sample.fresh).
Proof. split; [lia | vm_compute; reflexivity]. Qed.

(** ** Generating and merging indexes *)

Section Index.
Context `{Collaborators}.

Lemma insert_sorted_perm (x : ChartVersion) (l : list ChartVersion) :
  Permutation (insert_sorted x l) (x :: l).
Proof.
  induction l as [| y l IH]; cbn; [reflexivity |].
  destruct (precedes y x); [| reflexivity].
  rewrite IH. apply perm_swap.
Qed.

Lemma sort_versions_perm (l : list ChartVersion) :
  Permutation (sort_versions l) l.
Proof.
  induction l as [| x l IH]; cbn; [reflexivity |].
  rewrite insert_sorted_perm. now constructor.
Qed.

Lemma records_SortEntries (i : IndexFile) (name : string) :
  records (SortEntries i) name = sort_versions (records i name).
Proof.
  unfold records, SortEntries, with_Entries. cbn [Entries].
  rewrite lookup_fmap. destruct (Entries i !! name); reflexivity.
Qed.

Lemma In_records_SortEntries (i : IndexFile) (name : string) (cv : ChartVersion) :
  In cv (records (SortEntries i) name) <-> In cv (records i name).
Proof.
  rewrite records_SortEntries.
  split; apply Permutation_in; [| symmetry]; apply sort_versions_perm.
Qed.

Lemma Has_records (i : IndexFile) (name version : string) :
  Has i name version = has_version (records i name) version.
Proof. unfold Has, records. destruct (Entries i !! name); reflexivity. Qed.

Lemma has_version_In (vs : list ChartVersion) (version : string) :
  has_version vs version = true
  <-> exists cv, In cv vs /\ chart.Version (Metadata cv) = version.
Proof.
  unfold has_version. rewrite existsb_exists.
  split; intros (cv & Hin & Hv); exists cv; split; auto;
    now apply String.eqb_eq.
Qed.

Lemma records_Add_new (t : Z) (i : IndexFile) (md : chart.Metadata)
                      (filename baseURL digest name : string) :
  Has i (chart.Name md) (chart.Version md) = false ->
  records (Add t i md filename baseURL digest) name
  = if String.eqb name (chart.Name md)
    then (records i name
          ++ [mkChartVersion md [chart_location baseURL filename] t digest])%list
    else records i name.
Proof.
  intros Hh. unfold Add. rewrite Hh. unfold records, with_Entries. cbn [Entries].
  destruct (String.eqb_spec name (chart.Name md)) as [-> | Hne].
  - now rewrite lookup_insert_eq.
  - now rewrite lookup_insert_ne by congruence.
Qed.

Lemma Has_mono (i i1 : IndexFile) (name version : string) :
  (forall cv, In cv (records i name) -> In cv (records i1 name)) ->
  Has i1 name version = false -> Has i name version = false.
Proof.
  intros Hsub H1. rewrite Has_records in *.
  destruct (has_version (records i name) version) eqn:E; [| reflexivity].
  apply has_version_In in E as (cv & Hin & Hv).
  assert (has_version (records i1 name) version = true) as Ht
    by (apply has_version_In; eauto).
  congruence.
Qed.

Lemma generateIndex_step_records (fs : FS) (t : Z) (baseURL : string)
                                 (i i1 : IndexFile) (p : string) :
  generateIndex_step fs t baseURL i p = Ok i1 ->
  (forall name cv, In cv (records i name) -> In cv (records i1 name))
  /\ (forall name cv,
        In cv (records i1 name) ->
        In cv (records i name) \/ added_from fs t baseURL i [p] name cv).
Proof.
  unfold generateIndex_step.
  destruct (loader_Load fs p) as [md | e] eqn:Hmd; [| discriminate].
  destruct (provenance_DigestFile fs p) as [digest | e] eqn:Hdg; [| discriminate].
  destruct (Has i (chart.Name md) (chart.Version md)) eqn:Hh; cbn [negb];
    intros [= <-]; [now auto |].
  split; intros name cv; rewrite records_Add_new by assumption;
    destruct (String.eqb_spec name (chart.Name md)) as [-> | Hne]; auto.
  - intros Hin. apply in_or_app. now left.
  - intros [Hin | [<- | []]]%in_app_or; [now left | right].
    exists p, md, digest. cbn. auto 10.
Qed.

Lemma generateIndex_loop_records (fs : FS) (t : Z) (baseURL : string)
    (paths : list string) (i i' : IndexFile) (e : option error) :
  generateIndex_loop fs t baseURL i paths = (e, i') ->
  (forall name cv, In cv (records i name) -> In cv (records i' name))
  /\ (forall name cv,
        In cv (records i' name) ->
        In cv (records i name) \/ added_from fs t baseURL i paths name cv).
Proof.
  revert i. induction paths as [| p rest IH]; intros i; cbn [generateIndex_loop].
  - intros [= _ <-]. auto.
  - destruct (generateIndex_step fs t baseURL i p) as [i1 | err] eqn:Hstep.
    2:{ intros [= _ <-]. auto. }
    intros Hloop. apply generateIndex_step_records in Hstep as [Hkeep1 Hnew1].
    apply IH in Hloop as [Hkeep Hnew]. split; [now auto |].
    intros name cv Hin. apply Hnew in Hin as [Hin | Hadd].
    + apply Hnew1 in Hin as [Hin | (q & md & dg & [<- | []] & Hrest)]; [now left |].
      right. exists p, md, dg. cbn. tauto.
    + right. destruct Hadd as (q & md & dg & Hq & Hl & Hd & Hn & Hcv & Hh).
      exists q, md, dg. repeat split; cbn; auto.
      eapply Has_mono; [| exact Hh]. auto.
Qed.

Lemma has_version_false (vs : list ChartVersion) (version : string) :
  has_version vs version = false ->
  ~ In version (map (fun cv => chart.Version (Metadata cv)) vs).
Proof.
  intros Hf Hin. apply in_map_iff in Hin as (cv & Hv & Hin).
  assert (has_version vs version = true) by (apply has_version_In; eauto).
  congruence.
Qed.

Lemma generateIndex_step_versions (fs : FS) (t : Z) (baseURL : string)
                                  (i i1 : IndexFile) (p name : string) :
  generateIndex_step fs t baseURL i p = Ok i1 ->
  NoDup (versions i name) -> NoDup (versions i1 name).
Proof.
  unfold generateIndex_step.
  destruct (loader_Load fs p) as [md | e]; [| discriminate].
  destruct (provenance_DigestFile fs p) as [digest | e]; [| discriminate].
  destruct (Has i (chart.Name md) (chart.Version md)) eqn:Hh; cbn [negb];
    intros [= <-]; [now auto |].
  unfold versions. rewrite records_Add_new by assumption.
  destruct (String.eqb_spec name (chart.Name md)) as [-> | Hne]; [| now auto].
  intros Hnd. rewrite List.map_app. cbn [map Metadata].
  apply NoDup_app. split; [assumption |]. split; [| apply NoDup_singleton].
  intros v Hv Hk. apply list_elem_of_singleton in Hk as ->.
  apply list_elem_of_In in Hv. rewrite Has_records in Hh.
  now apply has_version_false in Hh.
Qed.

Lemma generateIndex_loop_versions (fs : FS) (t : Z) (baseURL : string)
    (paths : list string) (i i' : IndexFile) (e : option error) (name : string) :
  generateIndex_loop fs t baseURL i paths = (e, i') ->
  NoDup (versions i name) -> NoDup (versions i' name).
Proof.
  revert i. induction paths as [| p rest IH]; intros i; cbn [generateIndex_loop].
  - now intros [= _ <-].
  - destruct (generateIndex_step fs t baseURL i p) as [i1 | err] eqn:Hstep.
    2:{ now intros [= _ <-]. }
    intros Hloop Hnd. apply (IH _ Hloop).
    now apply (generateIndex_step_versions _ _ _ _ _ _ _ Hstep).
Qed.

Lemma versions_SortEntries (i : IndexFile) (name : string) :
  Permutation (versions (SortEntries i) name) (versions i name).
Proof.
  unfold versions. rewrite records_SortEntries.
  apply Permutation_map, sort_versions_perm.
Qed.
(** C7. Whatever [generateIndex] returns, the records the index file held
    are all still there, as they were; a record that was not there comes
    from a chart path whose package name and version the index did not
    have; for a chart whose name and version the index already had, every
    record of that version is one the index held before, whatever digest
    the archive now has; and a run without error ends with
    [SortEntries]. *)
Theorem C7_generateIndex_adds_only_absent_versions
    (fs : FS) (t : Z) (r : ChartRepository) :
  (forall name cv,
     In cv (records (RepoIndexFile r) name) ->
     In cv (records (RepoIndexFile (snd (generateIndex fs t r))) name))
  /\ (forall name cv,
        In cv (records (RepoIndexFile (snd (generateIndex fs t r))) name) ->
        In cv (records (RepoIndexFile r) name)
        \/ added_from fs t (URL (Config r)) (RepoIndexFile r) (ChartPaths r) name cv)
  /\ (forall p md digest,
        In p (ChartPaths r) ->
        loader_Load fs p = Ok md ->
        provenance_DigestFile fs p = Ok digest ->
        Has (RepoIndexFile r) (chart.Name md) (chart.Version md) = true ->
        forall cv,
          In cv (records (RepoIndexFile (snd (generateIndex fs t r))) (chart.Name md)) ->
          chart.Version (Metadata cv) = chart.Version md ->
          In cv (records (RepoIndexFile r) (chart.Name md)))
  /\ (forall name,
        NoDup (versions (RepoIndexFile r) name) ->
        NoDup (versions (RepoIndexFile (snd (generateIndex fs t r))) name))
  /\ (fst (generateIndex fs t r) = None ->
      RepoIndexFile (snd (generateIndex fs t r))
      = SortEntries (snd (generateIndex_loop fs t (URL (Config r))
                                             (RepoIndexFile r) (ChartPaths r)))).
Proof.
  unfold generateIndex.
  destruct (generateIndex_loop fs t (URL (Config r)) (RepoIndexFile r) (ChartPaths r))
    as [[e |] i'] eqn:Hloop;
    pose proof (fun name => generateIndex_loop_versions _ _ _ _ _ _ _ name Hloop) as Hnd;
    apply generateIndex_loop_records in Hloop as [Hkeep Hnew];
    cbn [fst snd with_IndexFile RepoIndexFile].
  - repeat split; auto; [| discriminate].
    intros p md digest _ _ _ Hh cv Hin Hv.
    apply Hnew in Hin as [Hin | (q & md' & dg & _ & _ & _ & Hn & -> & Hh')]; [assumption |].
    cbn in Hv. rewrite Hn, Hv in Hh'. congruence.
  - repeat split.
    + intros name cv Hin. apply In_records_SortEntries. auto.
    + intros name cv Hin. apply (proj1 (In_records_SortEntries _ _ _)) in Hin. auto.
    + intros p md digest _ _ _ Hh cv Hin Hv.
      apply (proj1 (In_records_SortEntries _ _ _)) in Hin.
      apply Hnew in Hin as [Hin | (q & md' & dg & _ & _ & _ & Hn & -> & Hh')];
        [assumption |].
      cbn in Hv. rewrite Hn, Hv in Hh'. congruence.
    + intros name Hu. rewrite versions_SortEntries. exact (Hnd name Hu).
Qed.





Lemma written_ok (i : IndexFile) (out : string) (w w' : World) :
  written i out w = (Return tt, w') ->
  exists b, Marshal i = Ok b /\ nodes (disk w') !! out = Some (File b).
Proof.
  unfold written, os.WriteFile.
  destruct (Marshal i) as [b | e]; [| discriminate].
  destruct (bool_decide _); [discriminate |].
  destruct (nodes (disk w) !! out) as [[data |] |]; try discriminate;
    intros [= <-]; exists b; cbn; now rewrite lookup_insert_eq.
Qed.


Lemma save_written (idx : IndexFile) (out : string) (w : World) :
  (e <- IndexFile_WriteFile idx out;;
   match e with Some err => fail err | None => ret tt end)%go w
  = written idx out w.
Proof.
  unfold written, IndexFile_WriteFile, ioutil_WriteFile, bind, ret, fail, with_disk.
  destruct (Marshal idx) as [b | e]; [| reflexivity].
  destruct (os.WriteFile (disk w) out b) as [fs [e |]]; reflexivity.
Qed.


End Index.

Lemma C7_generateIndex_adds_only_absent_versions_witness :
  In (sample.record "foo" "1.0.0" "sha256:local" ["foo-1.0.0.tgz"])
     (records (RepoIndexFile
                 (snd (generateIndex (H := sample.collaborators) sample.repo_disk 5
                         (sample.repository sample.local
                            ["/repo/foo-1.0.0.tgz"; "/repo/sub/bar-0.1.0.tgz"]))))
              "foo").
Proof.
  apply (proj1 (C7_generateIndex_adds_only_absent_versions
                  (H := sample.collaborators) sample.repo_disk 5
                  (sample.repository sample.local
                     ["/repo/foo-1.0.0.tgz"; "/repo/sub/bar-0.1.0.tgz"]))).
  left. reflexivity.
Defined.


(** * Further properties *)

(** ** Downloads and lookups *)

Section Download.
Context `{Collaborators}.

(** [DownloadIndexFile], outcome by outcome. *)
Lemma DownloadIndexFile_outcome (r : ChartRepository) (w : World) :
  DownloadIndexFile r w =
    match index_location (URL (Config r)) with
    | inl e => (Fail (URLError e), w)
    | inr indexURL =>
        match Client r (requests w) indexURL (download_options r) with
        | Err e => (Fail e, requested w indexURL)
        | Ok body =>
            match loadIndex body with
            | Err e => (Fail e, requested w indexURL)
            | Ok indexFile =>
                match os.WriteFile (disk_for_index_file r indexFile (disk w))
                                   (index_file r) body with
                | (fs, Some e) => (Fail e, with_disk (requested w indexURL) fs)
                | (fs, None) =>
                    (Return (indexFile, index_file r),
                     with_disk (requested w indexURL) fs)
                end
            end
        end
    end.
Proof.
  unfold DownloadIndexFile.
  destruct (index_location (URL (Config r))) as [pe | indexURL]; [reflexivity |].
  unfold bind at 1. unfold Client_Get. fold (download_options r).
  fold (requested w indexURL).
  destruct (Client r (requests w) indexURL (download_options r)) as [body | e];
    [| reflexivity].
  unfold bind at 1. unfold lift.
  destruct (loadIndex body) as [indexFile | e]; [| reflexivity].
  unfold ret at 1.
  cbv beta iota delta [bind os_MkdirAll ioutil_WriteFile].
  cbn [disk IndexFileCache now requests trace requested].
  fold (charts_file r). fold (index_file r).
  unfold disk_for_index_file.
  destruct (os.WriteFile (os.MkdirAll (disk w) (filepath.Dir (charts_file r)))
              (charts_file r) _) as [fs1 e1] eqn:E1.
  cbn [fst disk IndexFileCache now requests trace].
  destruct (os.WriteFile (os.MkdirAll fs1 (filepath.Dir (index_file r)))
              (index_file r) body) as [fs2 [e2 |]]; reflexivity.
Qed.
End Download.

Lemma same_elsewhere_refl (k : string) (c : cache.Cache object) : same_elsewhere k c c.
Proof. repeat split. Qed.

Lemma same_elsewhere_trans (k : string) (c1 c2 c3 : cache.Cache object) :
  same_elsewhere k c1 c2 -> same_elsewhere k c2 c3 -> same_elsewhere k c1 c3.
Proof.
  intros (Hd1 & Hc1 & Hi1) (Hd2 & Hc2 & Hi2). repeat split; try congruence.
  intros k' Hk. rewrite Hi2, Hi1; auto.
Qed.

Lemma same_elsewhere_Set (k : string) (c : cache.Cache object) (t d : Z) (v : object) :
  same_elsewhere k c (cache.Set_ t k v d c).
Proof.
  repeat split. intros k' Hk. unfold cache.Set_. cbn [cache.items].
  now rewrite lookup_insert_ne by congruence.
Qed.

Lemma same_elsewhere_Delete (k : string) (c : cache.Cache object) :
  same_elsewhere k c (cache.Delete k c).
Proof.
  repeat split. intros k' Hk. unfold cache.Delete. cbn [cache.items].
  now rewrite lookup_delete_ne by congruence.
Qed.

Lemma advances_refl (k : string) (w : World) : advances k 0 w w.
Proof.
  split; [reflexivity |]. split; [apply same_elsewhere_refl |].
  exists []. rewrite app_nil_r. repeat split. lia.
Qed.

Lemma advances_trans (k : string) (n m : nat) (w1 w2 w3 : World) :
  advances k n w1 w2 -> advances k m w2 w3 -> advances k (n + m) w1 w3.
Proof.
  intros (Hn1 & Hs1 & evs1 & Ht1 & Hc1 & Hr1) (Hn2 & Hs2 & evs2 & Ht2 & Hc2 & Hr2).
  split; [congruence |]. split; [eapply same_elsewhere_trans; eauto |].
  exists (evs1 ++ evs2)%list. rewrite Ht2, Ht1, <- app_assoc.
  split; [reflexivity |]. split; [| lia].
  unfold count in *. rewrite List.filter_app, List.length_app. lia.
Qed.

Lemma advances_logged (k : string) (w : World) (e : event) :
  is_Download e = false -> advances k 0 w (logged w e).
Proof.
  intros He. split; [reflexivity |]. split; [apply same_elsewhere_refl |].
  exists [e]. cbn. unfold count. cbn. rewrite He. repeat split. cbn. lia.
Qed.

Lemma advances_invalidated (k name version : string) (w : World) :
  advances k 0 w (invalidated k name version w).
Proof.
  split; [reflexivity |]. split; [apply same_elsewhere_Delete |].
  eexists. split; [reflexivity |]. cbn. split; [reflexivity | lia].
Qed.

Lemma advances_recached (k : string) (w : World) :
  advances k 0 w (recached k w).
Proof.
  split; [reflexivity |]. split; [apply same_elsewhere_Set |].
  eexists. split; [reflexivity |]. cbn. split; [reflexivity | lia].
Qed.

(** An item is found at the instant it is stored. *)
Lemma Get_Set_now (c : cache.Cache object) (k : string) (v : object) (t d : Z) :
  cache.Get t k (cache.Set_ t k v d c) = Some v.
Proof.
  unfold cache.Get, cache.Set_, cache.DefaultExpiration. cbn [cache.items].
  rewrite lookup_insert_eq. cbn [cache.Expiration cache.Object].
  set (d' := if (d =? 0)%Z then cache.defaultExpiration c else d).
  destruct (Z.ltb_spec 0 d') as [Hd | Hd].
  - destruct (Z.ltb_spec (t + d') t); [lia |]. now rewrite andb_false_r.
  - reflexivity.
Qed.

Section Lookup2.
Context `{Collaborators}.
Variables (repoURL username password chartName chartVersion certFile keyFile caFile : string).
Variable getters : getter.Providers.

Local Abbreviation find := (FindChartInAuthRepoURL repoURL username password chartName
                              chartVersion certFile keyFile caFile getters).
Local Abbreviation refetch := (GetAndCacheIndexFile repoURL username password
                                 certFile keyFile caFile getters).
Local Abbreviation chosen := (chosen_catalog repoURL username password certFile
                                keyFile caFile getters).

(** The repository [GetAndCacheIndexFile] makes for its download. *)
Lemma refetch_outcome (w : World) :
  refetch w =
    match url.Parse repoURL with
    | inl _ => (Fail (Errorf ("invalid chart URL format: " ++ repoURL)), w)
    | inr u =>
        match getters (url.Scheme u) with
        | None =>
            (Fail (Errorf ("could not find protocol handler for: " ++ url.Scheme u)), w)
        | Some client =>
            match DownloadIndexFile
                    (mkChartRepository
                       (mkEntry (random_name (requests w)) repoURL username password
                                certFile keyFile caFile false)
                       [] (mkIndexFile APIVersionV1 (now w) ∅ []) client
                       (helmpath_CachePath "repository")) w with
            | (Return res, w1) =>
                (Return (fst res),
                 mkWorld (cache.Set_ (now w1) repoURL (IndexFilePtr (fst res))
                                     cache.DefaultExpiration (IndexFileCache w1))
                         (now w1) (requests w1) (disk w1)
                         (trace w1 ++ [EvCacheSet repoURL (IndexFilePtr (fst res))])%list)
            | (Fail e, w1) =>
                (Fail (Wrap e ("looks like " ++ quote repoURL
                               ++ " is not a valid chart repository or cannot be reached")),
                 w1)
            | (Panic, w1) => (Panic, w1)
            end
        end
    end.
Proof.
  unfold GetAndCacheIndexFile, NewChartRepository, the_requests, bind at 1.
  cbn [URL].
  destruct (url.Parse repoURL) as [pe | u]; [reflexivity |].
  destruct (getters (url.Scheme u)) as [client |]; [| reflexivity].
  cbv beta iota delta [bind ret NewIndexFile time_Now on_error].
  destruct (DownloadIndexFile _ w) as [[res | e |] w1]; reflexivity.
Qed.

Lemma DownloadIndexFile_advances (r : ChartRepository) (w w' : World)
                                 (res : outcome (IndexFile * string)) :
  DownloadIndexFile r w = (res, w') ->
  res <> Panic
  /\ IndexFileCache w' = IndexFileCache w
  /\ (advances repoURL 0 w w' /\ disk w' = disk w /\ (exists e, res = Fail e)
      \/ advances repoURL 1 w w').
Proof.
  rewrite DownloadIndexFile_outcome.
  assert (Hreq : forall u fs, advances repoURL 1 w (with_disk (requested w u) fs)).
  { intros u fs. split; [reflexivity |]. split; [apply same_elsewhere_refl |].
    exists [EvDownload u]. cbn. repeat split. lia. }
  destruct (index_location (URL (Config r))) as [pe | u].
  { intros [= <- <-]. repeat split; try discriminate. left.
    split; [apply advances_refl |]. eauto. }
  destruct (Client r (requests w) u (download_options r)) as [body | e].
  2:{ intros [= <- <-]. repeat split; try discriminate. right.
      apply (Hreq u (disk w)). }
  destruct (loadIndex body) as [i | e].
  2:{ intros [= <- <-]. repeat split; try discriminate. right.
      apply (Hreq u (disk w)). }
  destruct (os.WriteFile _ (index_file r) body) as [fs [e |]];
    intros [= <- <-]; repeat split; try discriminate; right; apply Hreq.
Qed.

Lemma refetch_advances (w w' : World) (r : outcome IndexFile) :
  refetch w = (r, w') ->
  r <> Panic
  /\ (advances repoURL 0 w w' /\ disk w' = disk w /\ (exists e, r = Fail e)
      \/ advances repoURL 1 w w').
Proof.
  rewrite refetch_outcome.
  destruct (url.Parse repoURL) as [pe | u].
  { intros [= <- <-]. split; [discriminate |]. left.
    split; [apply advances_refl |]. eauto. }
  destruct (getters (url.Scheme u)) as [client |].
  2:{ intros [= <- <-]. split; [discriminate |]. left.
      split; [apply advances_refl |]. eauto. }
  destruct (DownloadIndexFile _ w) as [res w1] eqn:Hd.
  apply DownloadIndexFile_advances in Hd as (Hnp & Hc & Hadv).
  destruct res as [res | e |]; [| | congruence]; intros [= <- <-].
  - split; [discriminate |]. right.
    destruct Hadv as [(_ & _ & e & He) | Hadv]; [discriminate |].
    replace 1 with (1 + 0) by lia. eapply advances_trans; [exact Hadv |].
    split; [reflexivity |]. split; [apply same_elsewhere_Set |].
    eexists. split; [reflexivity |]. cbn. split; [reflexivity | lia].
  - split; [discriminate |].
    destruct Hadv as [(Ha & Hdk & _) | Hadv]; [left | right]; eauto.
Qed.

(** How a lookup starts: it panics on a cached cache object, ends with the
    error of a first download that fails, or has a catalog to work on. *)
Lemma find_start (w : World) :
  (cache.Get (now w) repoURL (IndexFileCache w) = Some CachePtr
   /\ find w = (Panic, logged w (EvCacheGet repoURL true)))
  \/ (exists e w1,
        cache.Get (now w) repoURL (IndexFileCache w) = None
        /\ refetch (logged w (EvCacheGet repoURL false)) = (Fail e, w1)
        /\ find w = (Fail e, w1))
  \/ (exists repoIndex w1, chosen w repoIndex w1).
Proof.
  destruct (cache.Get (now w) repoURL (IndexFileCache w)) as [[i |] |] eqn:Hget.
  - right. right. exists i, (logged w (EvCacheGet repoURL true)). left. auto.
  - left. split; [reflexivity |].
    unfold FindChartInAuthRepoURL, bind at 1. unfold IndexFileCache_Get at 1.
    rewrite Hget. reflexivity.
  - destruct (refetch (logged w (EvCacheGet repoURL false))) as [[i | e |] w1] eqn:Hre.
    + right. right. exists i, w1. right. auto.
    + right. left. exists e, w1. repeat split; auto.
      unfold FindChartInAuthRepoURL, bind at 1. unfold IndexFileCache_Get at 1.
      rewrite Hget. unfold bind at 1.
      change (bool_decide (is_Some (@None object))) with false.
      fold (logged w (EvCacheGet repoURL false)). rewrite Hre. reflexivity.
    + apply refetch_advances in Hre as [Hnp _]. congruence.
Qed.


Lemma chosen_advances (w w1 : World) (repoIndex : IndexFile) :
  chosen w repoIndex w1 -> exists n, n <= 1 /\ advances repoURL n w w1.
Proof.
  intros [[_ ->] | [_ Hfetch]].
  - exists 0. split; [lia |]. now apply advances_logged.
  - apply refetch_advances in Hfetch as [_ [(_ & _ & e & He) | Hadv]]; [discriminate |].
    exists 1. split; [lia |]. change 1 with (0 + 1).
    eapply advances_trans; [| exact Hadv]. now apply advances_logged.
Qed.

Lemma find_advances (w : World) :
  exists n, n <= 2 /\ advances repoURL n w (snd (find w)).
Proof.
  destruct (find_start w) as [[_ ->] | [(e & w1 & _ & Hre & ->) | (i & w1 & Hc)]];
    cbn [snd].
  - exists 0. split; [lia |]. now apply advances_logged.
  - apply refetch_advances in Hre as [_ [(Hadv & _) | Hadv]].
    + exists 0. split; [lia |]. change 0 with (0 + 0).
      eapply advances_trans; [| exact Hadv]. now apply advances_logged.
    + exists 1. split; [lia |]. change 1 with (0 + 1).
      eapply advances_trans; [| exact Hadv]. now apply advances_logged.
  - rewrite (find_after_choice _ _ _ _ _ _ _ _ _ w w1 i Hc).
    destruct (chosen_advances _ _ _ Hc) as (n0 & Hn0 & Hadv0).
    destruct (IndexFile_Get i chartName chartVersion) as [cv | e]; cbn [snd].
    { exists (n0 + 0). split; [lia |].
      eapply advances_trans; [exact Hadv0 |]. now apply advances_logged. }
    destruct (refetch (invalidated repoURL chartName chartVersion w1))
      as [r3 w3] eqn:Hre.
    assert (Hinv : exists n1, n1 <= 1
                   /\ advances repoURL (n0 + n1) w w3).
    { apply refetch_advances in Hre as [_ [(Hadv & _) | Hadv]].
      - exists 0. split; [lia |]. eapply advances_trans; [exact Hadv0 |].
        change 0 with (0 + 0). eapply advances_trans; [| exact Hadv].
        apply advances_invalidated.
      - exists 1. split; [lia |]. eapply advances_trans; [exact Hadv0 |].
        change 1 with (0 + 1). eapply advances_trans; [| exact Hadv].
        apply advances_invalidated. }
    destruct Hinv as (n1 & Hn1 & Hadv3).
    destruct r3 as [i2 | e3 |]; cbn [snd].
    + destruct (IndexFile_Get i2 chartName chartVersion) as [cv | e2]; cbn [snd].
      * exists (n0 + n1 + 0). split; [lia |].
        eapply advances_trans; [exact Hadv3 |]. change 0 with (0 + 0).
        eapply advances_trans; [| apply advances_recached].
        now apply advances_logged.
      * exists (n0 + n1 + 0). split; [lia |].
        eapply advances_trans; [exact Hadv3 |]. now apply advances_logged.
    + exists (n0 + n1). split; [lia | exact Hadv3].
    + exists (n0 + n1). split; [lia | exact Hadv3].
Qed.

(** The lookup panics exactly when the entry it finds for the repository
    URL is the cache object. *)
Theorem lookup_panics_iff_cache_object (w : World) :
  fst (find w) = Panic
  <-> cache.Get (now w) repoURL (IndexFileCache w) = Some CachePtr.
Proof.
  split.
  - destruct (find_start w) as [[Hhit _] | [(e & w1 & _ & _ & ->) | (i & w1 & Hc)]];
      [auto | discriminate |].
    rewrite (find_after_choice _ _ _ _ _ _ _ _ _ w w1 i Hc).
    assert (Hloc : forall cv, located repoURL chartName chartVersion cv <> Panic).
    { intros cv. unfold located. destruct (URLs cv); [discriminate |].
      destruct (ResolveReferenceURL repoURL s); discriminate. }
    destruct (IndexFile_Get i chartName chartVersion) as [cv | e]; cbn [fst].
    { intros Hp. now apply Hloc in Hp. }
    destruct (refetch (invalidated repoURL chartName chartVersion w1))
      as [[i2 | e3 |] w3] eqn:Hre; cbn [fst]; try discriminate.
    + destruct (IndexFile_Get i2 chartName chartVersion) as [cv | e2]; cbn [fst];
        [| discriminate].
      intros Hp. now apply Hloc in Hp.
    + apply refetch_advances in Hre as [Hnp _]. congruence.
  - intros Hhit.
    now rewrite (find_panics_on_cache_object _ _ _ _ _ _ _ _ _ w Hhit).
Qed.

(** The lookup leaves the cache entries of every other repository URL, and
    the settings of the cache, as they were. *)
Theorem lookup_keeps_other_entries (w : World) (k : string) (t : Z) :
  k <> repoURL ->
  cache.Get t k (IndexFileCache (snd (find w))) = cache.Get t k (IndexFileCache w)
  /\ cache.defaultExpiration (IndexFileCache (snd (find w)))
     = cache.defaultExpiration (IndexFileCache w)
  /\ cache.cleanupInterval (IndexFileCache (snd (find w)))
     = cache.cleanupInterval (IndexFileCache w).
Proof.
  intros Hk. destruct (find_advances w) as (n & _ & _ & (Hd & Hc & Hi) & _).
  unfold cache.Get. rewrite (Hi k Hk). auto.
Qed.

(** The lookup issues at most two requests, one for each download in its
    trace. *)
Theorem lookup_requests_at_most_two (w : World) :
  requests (snd (find w))
  = requests w + count is_Download (events_since w (snd (find w)))
  /\ count is_Download (events_since w (snd (find w))) <= 2.
Proof.
  destruct (find_advances w) as (n & Hn & _ & _ & evs & Ht & Hc & Hr).
  unfold events_since. rewrite Ht, drop_app_length, Hc. auto.
Qed.

(** A lookup answered from the cache issues no request, writes no file and
    leaves the cache as it was. *)
Theorem lookup_from_cache_is_local (w : World) (repoIndex : IndexFile) (cv : ChartVersion) :
  cache.Get (now w) repoURL (IndexFileCache w) = Some (IndexFilePtr repoIndex) ->
  IndexFile_Get repoIndex chartName chartVersion = Ok cv ->
  fst (find w) = located repoURL chartName chartVersion cv
  /\ requests (snd (find w)) = requests w
  /\ disk (snd (find w)) = disk w
  /\ IndexFileCache (snd (find w)) = IndexFileCache w
  /\ events_since w (snd (find w))
     = [EvCacheGet repoURL true; EvIndexGet chartName chartVersion true].
Proof.
  intros Hhit Hget.
  rewrite (find_after_choice _ _ _ _ _ _ _ _ _ w (logged w (EvCacheGet repoURL true))
             repoIndex) by (left; auto).
  rewrite Hget. unfold logged, events_since.
  cbn [fst snd requests disk IndexFileCache trace].
  repeat split. rewrite <- app_assoc. apply drop_app_length.
Qed.

(** A location the lookup returns is the first URL of the record its own
    [Get] produced, resolved against the repository URL: the record found
    in the catalog the lookup chose, the cached one or the one downloaded
    on a miss, or, when [Get] failed there, the record found in the catalog
    the retry downloaded. *)
Theorem lookup_returns_resolved_first_url (w : World) (u : string) :
  fst (find w) = Return u ->
  exists repoIndex w1 cv chartURL rest,
    chosen w repoIndex w1
    /\ (IndexFile_Get repoIndex chartName chartVersion = Ok cv
        \/ exists e repoIndex2 w3,
             IndexFile_Get repoIndex chartName chartVersion = Err e
             /\ refetch (invalidated repoURL chartName chartVersion w1)
                = (Return repoIndex2, w3)
             /\ IndexFile_Get repoIndex2 chartName chartVersion = Ok cv)
    /\ URLs cv = chartURL :: rest
    /\ ResolveReferenceURL repoURL chartURL = Ok u.
Proof.
  assert (Hloc : forall cv,
            located repoURL chartName chartVersion cv = Return u ->
            exists chartURL rest,
              URLs cv = chartURL :: rest
              /\ ResolveReferenceURL repoURL chartURL = Ok u).
  { intros cv. unfold located.
    destruct (URLs cv) as [| chartURL rest] eqn:Hu; [discriminate |].
    destruct (ResolveReferenceURL repoURL chartURL) as [a | e] eqn:Hr;
      [| discriminate].
    intros [= ->]. exists chartURL, rest. auto. }
  destruct (find_start w) as [[_ ->] | [(e & w1 & _ & _ & ->) | (i & w1 & Hc)]];
    [discriminate | discriminate |].
  rewrite (find_after_choice _ _ _ _ _ _ _ _ _ w w1 i Hc).
  destruct (IndexFile_Get i chartName chartVersion) as [cv | e] eqn:Hget; cbn [fst].
  { intros Hret. destruct (Hloc cv Hret) as (chartURL & rest & Hu & Hr).
    exists i, w1, cv, chartURL, rest. auto. }
  destruct (refetch (invalidated repoURL chartName chartVersion w1))
    as [[i2 | e3 |] w3] eqn:Hre; cbn [fst]; try discriminate.
  destruct (IndexFile_Get i2 chartName chartVersion) as [cv | e2] eqn:Hget2; cbn [fst];
    [| discriminate].
  intros Hret. destruct (Hloc cv Hret) as (chartURL & rest & Hu & Hr).
  exists i, w1, cv, chartURL, rest. split; [exact Hc |]. split; [| auto].
  right. exists e, i2, w3. auto.
Qed.

(** With nothing cached, a repository URL that does not parse, a scheme
    without a getter and a getter's error end the lookup with their error,
    before any [Get] and with the cache as it was. *)
Theorem lookup_cold_errors (w : World) :
  cache.Get (now w) repoURL (IndexFileCache w) = None ->
  match url.Parse repoURL with
  | inl _ =>
      find w = (Fail (Errorf ("invalid chart URL format: " ++ repoURL)),
                logged w (EvCacheGet repoURL false))
  | inr u =>
      match getters (url.Scheme u) with
      | None =>
          find w = (Fail (Errorf ("could not find protocol handler for: "
                                  ++ url.Scheme u)),
                    logged w (EvCacheGet repoURL false))
      | Some client =>
          forall indexURL e,
            index_location repoURL = inr indexURL ->
            client (requests w) indexURL
                   (getter.mkOptions repoURL false certFile keyFile caFile
                                     username password) = Err e ->
            find w = (Fail (Wrap e ("looks like " ++ quote repoURL
                                    ++ " is not a valid chart repository or cannot be reached")),
                      requested (logged w (EvCacheGet repoURL false)) indexURL)
      end
  end.
Proof.
  intros Hmiss.
  assert (Hfail : forall e w1,
            refetch (logged w (EvCacheGet repoURL false)) = (Fail e, w1) ->
            find w = (Fail e, w1)).
  { intros e w1 Hre. unfold FindChartInAuthRepoURL, bind at 1.
    unfold IndexFileCache_Get at 1. rewrite Hmiss. unfold bind at 1.
    change (bool_decide (is_Some (@None object))) with false.
    fold (logged w (EvCacheGet repoURL false)). rewrite Hre. reflexivity. }
  pose proof (refetch_outcome (logged w (EvCacheGet repoURL false))) as Hout.
  destruct (url.Parse repoURL) as [pe | u] eqn:Hp; [now apply Hfail |].
  destruct (getters (url.Scheme u)) as [client |]; [| now apply Hfail].
  intros indexURL e Hloc Hget. apply Hfail. rewrite Hout.
  rewrite DownloadIndexFile_outcome. cbn [Config URL Client].
  rewrite Hloc. unfold download_options.
  cbn [Config URL InsecureSkipTLSverify CertFile KeyFile CAFile Username Password
       logged requests].
  rewrite Hget. reflexivity.
Qed.

(** When the retry's download fails, the entry of the repository URL is
    gone: the stale catalog is not put back. *)
Theorem lookup_failed_retry_drops_entry
    (w w1 w3 : World) (repoIndex : IndexFile) (e e3 : error) :
  chosen w repoIndex w1 ->
  IndexFile_Get repoIndex chartName chartVersion = Err e ->
  refetch (invalidated repoURL chartName chartVersion w1) = (Fail e3, w3) ->
  fst (find w) = Fail e3
  /\ forall t, cache.Get t repoURL (IndexFileCache (snd (find w))) = None.
Proof.
  intros Hc Hget Hre.
  rewrite (find_after_choice _ _ _ _ _ _ _ _ _ w w1 repoIndex Hc), Hget, Hre.
  cbn [fst snd]. split; [reflexivity |]. intros t.
  apply refetch_effect in Hre as (_ & _ & [(_ & Hcache & _) | (i & u & [=] & _)]).
  rewrite Hcache. unfold cache.Get, invalidated, cache.Delete.
  cbn [IndexFileCache cache.items]. now rewrite lookup_delete_eq.
Qed.

(** A download that succeeds leaves the catalog under the repository URL,
    found at once, after exactly one request. *)
Theorem refetch_caches_catalog (w w' : World) (i : IndexFile) :
  refetch w = (Return i, w') ->
  cache.Get (now w') repoURL (IndexFileCache w') = Some (IndexFilePtr i)
  /\ requests w' = S (requests w)
  /\ exists fname body,
       nodes (disk w') !! fname = Some (File body) /\ loadIndex body = Ok i.
Proof.
  rewrite refetch_outcome.
  destruct (url.Parse repoURL) as [pe | u]; [discriminate |].
  destruct (getters (url.Scheme u)) as [client |]; [| discriminate].
  rewrite DownloadIndexFile_outcome.
  destruct (index_location _) as [pe | indexURL]; [discriminate |].
  destruct (Client _ _ _ _) as [body | e]; [| discriminate].
  destruct (loadIndex body) as [i' | e] eqn:Hload; [| discriminate].
  destruct (os.WriteFile _ _ body) as [fs [e |]] eqn:Hw; [discriminate |].
  intros [= <- <-]. cbn [fst now IndexFileCache requests disk with_disk requested].
  split; [| split; [reflexivity |]].
  - apply Get_Set_now.
  - eexists _, body. split; [| exact Hload].
    unfold os.WriteFile in Hw.
    destruct (bool_decide _); [discriminate |].
    match type of Hw with
    | context [nodes ?fs0 !! ?p] => destruct (nodes fs0 !! p) as [[d |] |]
    end; try discriminate; injection Hw as <-; cbn [nodes];
      apply lookup_insert_eq.
Qed.

(** A download that fails leaves the whole cache as it was. *)
Theorem refetch_failure_keeps_cache (w w' : World) (e : error) :
  refetch w = (Fail e, w') ->
  IndexFileCache w' = IndexFileCache w
  /\ ((exists msg, e = Errorf msg) /\ w' = w
      \/ exists cause,
           e = Wrap cause ("looks like " ++ quote repoURL
                           ++ " is not a valid chart repository or cannot be reached")
           /\ requests w' = S (requests w)).
Proof.
  rewrite refetch_outcome.
  destruct (url.Parse repoURL) as [pe | u] eqn:Hp.
  { intros [= <- <-]. split; [reflexivity |]. left. eauto. }
  destruct (getters (url.Scheme u)) as [client |].
  2:{ intros [= <- <-]. split; [reflexivity |]. left. eauto. }
  rewrite DownloadIndexFile_outcome. unfold index_location. cbn [Config URL].
  rewrite Hp.
  destruct (Client _ _ _ _) as [body | e1].
  2:{ intros [= <- <-]. split; [reflexivity |]. right. eauto. }
  destruct (loadIndex body) as [i' | e1].
  2:{ intros [= <- <-]. split; [reflexivity |]. right. eauto. }
  destruct (os.WriteFile _ _ body) as [fs [e1 |]]; intros [= <- <-].
  split; [reflexivity |]. right. eauto.
Qed.

End Lookup2.

(** ** Files *)

Lemma WriteFile_written (fs fs' : FS) (p data : string) :
  os.WriteFile fs p data = (fs', None) ->
  nodes fs' !! p = Some (File data)
  /\ readonly fs' = readonly fs
  /\ forall q, q <> p -> nodes fs' !! q = nodes fs !! q.
Proof.
  unfold os.WriteFile. destruct (bool_decide _); [discriminate |].
  destruct (nodes fs !! p) as [[d |] |]; try discriminate;
    intros [= <-]; cbn [nodes readonly];
    (split; [apply lookup_insert_eq |]; split; [reflexivity |]);
    intros q Hq; now rewrite lookup_insert_ne by congruence.
Qed.

Lemma WriteFile_refused (fs fs' : FS) (p data : string) (e : error) :
  os.WriteFile fs p data = (fs', Some e) -> fs' = fs.
Proof.
  unfold os.WriteFile. destruct (bool_decide _); [now intros [= <-] |].
  destruct (nodes fs !! p) as [[d |] |]; try discriminate; now intros [= <-].
Qed.

Lemma WriteFile_succeeds (fs : FS) (p data : string) :
  p ∉ readonly fs -> nodes fs !! p <> Some Dir ->
  exists fs', os.WriteFile fs p data = (fs', None).
Proof.
  intros Hro Hd. unfold os.WriteFile.
  rewrite bool_decide_eq_false_2 by assumption.
  destruct (nodes fs !! p) as [[d |] |]; [eauto | congruence | eauto].
Qed.

Lemma WriteFile_frame (fs : FS) (p data q : string) :
  readonly (fst (os.WriteFile fs p data)) = readonly fs
  /\ (nodes fs !! q <> Some Dir -> nodes (fst (os.WriteFile fs p data)) !! q <> Some Dir).
Proof.
  destruct (os.WriteFile fs p data) as [fs' [e |]] eqn:Hw; cbn [fst].
  - apply WriteFile_refused in Hw as ->. auto.
  - apply WriteFile_written in Hw as (Hp & Hro & Hq). split; [exact Hro |].
    intros Hd. destruct (String.eqb_spec q p) as [-> | Hne].
    + rewrite Hp. discriminate.
    + now rewrite Hq.
Qed.

Lemma MkdirAll_frame (fs : FS) (p q : string) :
  readonly (os.MkdirAll fs p) = readonly fs
  /\ (q <> p -> nodes (os.MkdirAll fs p) !! q = nodes fs !! q).
Proof.
  unfold os.MkdirAll. destruct (nodes fs !! p); cbn [nodes readonly]; split; auto.
  intros Hq. now rewrite lookup_insert_ne by congruence.
Qed.

Section Download2.
Context `{Collaborators}.

(** A download that succeeds has fetched bytes that decode to the catalog
    it returns, and leaves those bytes in the index file below the cache
    path, whose name it returns; one request was issued and the cache was
    not touched. *)
Theorem DownloadIndexFile_mirrors_index
    (r : ChartRepository) (w w' : World) (i : IndexFile) (fname : string) :
  DownloadIndexFile r w = (Return (i, fname), w') ->
  fname = index_file r
  /\ (exists indexURL body,
        index_location (URL (Config r)) = inr indexURL
        /\ Client r (requests w) indexURL (download_options r) = Ok body
        /\ loadIndex body = Ok i
        /\ nodes (disk w') !! fname = Some (File body))
  /\ requests w' = S (requests w)
  /\ IndexFileCache w' = IndexFileCache w.
Proof.
  rewrite DownloadIndexFile_outcome.
  destruct (index_location _) as [pe | indexURL]; [discriminate |].
  destruct (Client _ _ _ _) as [body | e] eqn:Hget; [| discriminate].
  destruct (loadIndex body) as [i' | e] eqn:Hload; [| discriminate].
  destruct (os.WriteFile _ _ body) as [fs [e |]] eqn:Hw; [discriminate |].
  intros [= <- <- <-]. apply WriteFile_written in Hw as (Hp & _).
  repeat split. exists indexURL, body. auto.
Qed.

(** A download touches the file system only after the bytes it fetched
    have decoded. *)
Theorem DownloadIndexFile_writes_after_decoding
    (r : ChartRepository) (w w' : World) (res : outcome (IndexFile * string)) :
  DownloadIndexFile r w = (res, w') ->
  disk w' <> disk w ->
  exists indexURL body i,
    index_location (URL (Config r)) = inr indexURL
    /\ Client r (requests w) indexURL (download_options r) = Ok body
    /\ loadIndex body = Ok i.
Proof.
  rewrite DownloadIndexFile_outcome.
  destruct (index_location _) as [pe | indexURL]; [now intros [= <- <-] |].
  destruct (Client _ _ _ _) as [body | e] eqn:Hget; [| now intros [= <- <-]].
  destruct (loadIndex body) as [i | e] eqn:Hload; [| now intros [= <- <-]].
  intros _ _. exists indexURL, body, i. auto.
Qed.

(** Whether the chart list can be written makes no difference: once the
    bytes are fetched and decode, the download succeeds when the index file
    itself can be written. *)
Theorem DownloadIndexFile_ignores_chart_list
    (r : ChartRepository) (w : World) (indexURL body : string) (i : IndexFile) :
  index_location (URL (Config r)) = inr indexURL ->
  Client r (requests w) indexURL (download_options r) = Ok body ->
  loadIndex body = Ok i ->
  index_file r ∉ readonly (disk w) ->
  nodes (disk w) !! index_file r <> Some Dir ->
  filepath.Dir (charts_file r) <> index_file r ->
  filepath.Dir (index_file r) <> index_file r ->
  fst (DownloadIndexFile r w) = Return (i, index_file r)
  /\ nodes (disk (snd (DownloadIndexFile r w))) !! index_file r = Some (File body).
Proof.
  intros Hloc Hget Hload Hro Hnd Hd1 Hd2.
  rewrite DownloadIndexFile_outcome, Hloc, Hget, Hload.
  destruct (WriteFile_succeeds (disk_for_index_file r i (disk w)) (index_file r) body)
    as [fs Hw].
  - unfold disk_for_index_file.
    rewrite (proj1 (MkdirAll_frame _ _ "")), (proj1 (WriteFile_frame _ _ _ "")),
      (proj1 (MkdirAll_frame _ _ "")). exact Hro.
  - unfold disk_for_index_file.
    rewrite (proj2 (MkdirAll_frame _ _ _)) by congruence.
    apply WriteFile_frame.
    rewrite (proj2 (MkdirAll_frame _ _ _)) by congruence. exact Hnd.
  - rewrite Hw. cbn [fst snd with_disk disk]. split; [reflexivity |].
    now apply WriteFile_written in Hw.
Qed.

End Download2.

(** ** Loading a directory *)

Section Load.
Context `{Collaborators}.

Lemma Load_visit_fields (fs : FS) (r : ChartRepository) (f : string * bool) :
  Config (Load_visit fs r f) = Config r
  /\ Client (Load_visit fs r f) = Client r
  /\ CachePath (Load_visit fs r f) = CachePath r
  /\ ChartPaths (Load_visit fs r f) = (ChartPaths r ++ archives [f])%list
  /\ (RepoIndexFile (Load_visit fs r f) = RepoIndexFile r
      \/ snd f = false /\ is_local_index (filepath.Base (fst f)) = true
         /\ LoadIndexFile fs (fst f) = Ok (RepoIndexFile (Load_visit fs r f))).
Proof.
  destruct f as [p isDir]. unfold Load_visit, archives. cbn [fst snd List.filter].
  destruct isDir; cbn [negb andb map].
  { rewrite app_nil_r. auto 10. }
  destruct (is_local_index (filepath.Base p)) eqn:Hi; cbn [negb andb map].
  { destruct (LoadIndexFile fs p) as [i |] eqn:Hl;
      cbn [Config Client CachePath ChartPaths RepoIndexFile with_IndexFile];
      rewrite app_nil_r; auto 10. }
  destruct (strings.HasSuffix (filepath.Base p) ".tgz"); cbn [map fst];
    cbn [Config Client CachePath ChartPaths RepoIndexFile with_ChartPaths];
    [| rewrite app_nil_r]; auto 10.
Qed.

Lemma archives_app (l1 l2 : list (string * bool)) :
  archives (l1 ++ l2) = (archives l1 ++ archives l2)%list.
Proof. unfold archives. now rewrite List.filter_app, List.map_app. Qed.

Lemma Load_fold_fields (fs : FS) (entries : list (string * bool)) (r : ChartRepository) :
  let r' := fold_left (Load_visit fs) entries r in
  Config r' = Config r
  /\ Client r' = Client r
  /\ CachePath r' = CachePath r
  /\ ChartPaths r' = (ChartPaths r ++ archives entries)%list
  /\ (RepoIndexFile r' = RepoIndexFile r
      \/ exists p, In (p, false) entries
                   /\ is_local_index (filepath.Base p) = true
                   /\ LoadIndexFile fs p = Ok (RepoIndexFile r')).
Proof.
  revert r. induction entries as [| f rest IH]; intros r; cbn [fold_left].
  - cbn. rewrite app_nil_r. auto 10.
  - destruct (IH (Load_visit fs r f)) as (Hc & Hcl & Hcp & Hp & Hi).
    destruct (Load_visit_fields fs r f) as (Hc1 & Hcl1 & Hcp1 & Hp1 & Hi1).
    cbv zeta. repeat split; try congruence.
    + rewrite Hp, Hp1, <- app_assoc. f_equal.
      change (f :: rest) with ([f] ++ rest)%list. now rewrite archives_app.
    + destruct Hi as [Hi | (p & Hin & Hn & Hl)].
      * rewrite Hi. destruct Hi1 as [Hi1 | (Hs & Hn & Hl)]; [now left |].
        right. exists (fst f). destruct f as [p d]. cbn in *. subst d. auto.
      * right. exists p. cbn. auto.
Qed.

Lemma walk_nodes (fuel : nat) (fs : FS) (root p : string) (d : bool) :
  In (p, d) (walk fuel fs root) ->
  match nodes fs !! p with
  | Some Dir => d = true
  | Some (File _) => d = false
  | None => False
  end.
Proof.
  revert root. induction fuel as [| fuel IH]; intros root; cbn [walk]; [intros [] |].
  destruct (nodes fs !! root) as [[data |] |] eqn:Hn; [| | intros []].
  - intros [[= <- <-] | []]. now rewrite Hn.
  - intros [[= <- <-] | Hin]; [now rewrite Hn |].
    apply in_flat_map in Hin as (child & _ & Hin). exact (IH child Hin).
Qed.

Lemma archives_are_files (fs : FS) (root p : string) :
  In p (archives (filepath_Walk fs root)) ->
  strings.HasSuffix (filepath.Base p) ".tgz" = true
  /\ is_local_index (filepath.Base p) = false
  /\ exists data, nodes fs !! p = Some (File data).
Proof.
  unfold archives. intros Hin. apply in_map_iff in Hin as ([q d] & <- & Hin).
  apply filter_In in Hin as [Hin Hf]. cbn [fst snd] in *.
  apply andb_prop in Hf as [Hf Hs]. apply andb_prop in Hf as [Hd Hi].
  apply negb_true_iff in Hd, Hi. subst d.
  apply walk_nodes in Hin. repeat split; auto.
  destruct (nodes fs !! q) as [[data |] |]; [eauto | discriminate | contradiction].
Qed.

(** [Load] keeps the chart paths it had and appends the archives below the
    root in walk order: files whose name ends in [.tgz] and does not
    contain [-index.yaml]. The configuration, the getter and the cache path
    stay. *)
Theorem Load_lists_archives (fs : FS) (r r' : ChartRepository) :
  Load fs r = Ok r' ->
  ChartPaths r'
    = (ChartPaths r ++ archives (filepath_Walk fs (Name (Config r))))%list
  /\ (forall p, In p (archives (filepath_Walk fs (Name (Config r)))) ->
                strings.HasSuffix (filepath.Base p) ".tgz" = true
                /\ strings.Contains (filepath.Base p) "-index.yaml" = false
                /\ exists data, nodes fs !! p = Some (File data))
  /\ Config r' = Config r /\ Client r' = Client r /\ CachePath r' = CachePath r.
Proof.
  unfold Load. destruct (os.Stat fs (Name (Config r))) as [[data |] |];
    try discriminate.
  intros [= <-].
  destruct (Load_fold_fields fs (filepath_Walk fs (Name (Config r))) r)
    as (Hc & Hcl & Hcp & Hp & _).
  split; [exact Hp |]. split; [| auto].
  intros p Hin. apply archives_are_files in Hin. exact Hin.
Qed.

(** [Load] does not start from an empty list: loading the same directory a
    second time lists every archive twice. *)
Theorem Load_twice_lists_twice (fs : FS) (r r1 : ChartRepository) :
  Load fs r = Ok r1 ->
  exists r2,
    Load fs r1 = Ok r2
    /\ ChartPaths r2
       = (ChartPaths r ++ archives (filepath_Walk fs (Name (Config r)))
                       ++ archives (filepath_Walk fs (Name (Config r))))%list.
Proof.
  unfold Load. destruct (os.Stat fs (Name (Config r))) as [[data |] |] eqn:Hs;
    try discriminate.
  intros [= <-].
  destruct (Load_fold_fields fs (filepath_Walk fs (Name (Config r))) r)
    as (Hc & _ & _ & Hp & _).
  rewrite Hc, Hs. eexists. split; [reflexivity |].
  destruct (Load_fold_fields fs (filepath_Walk fs (Name (Config r)))
              (fold_left (Load_visit fs) (filepath_Walk fs (Name (Config r))) r))
    as (_ & _ & _ & Hp2 & _).
  rewrite Hp2, Hp. now rewrite <- app_assoc.
Qed.


End Load.

(** ** Generating an index *)

Section Generate.
Context `{Collaborators}.

Lemma Has_Add (t : Z) (i : IndexFile) (md : chart.Metadata)
              (filename baseURL digest : string) :
  Has (Add t i md filename baseURL digest) (chart.Name md) (chart.Version md) = true.
Proof.
  destruct (Has i (chart.Name md) (chart.Version md)) eqn:Hh.
  - unfold Add. now rewrite Hh.
  - rewrite Has_records, records_Add_new, String.eqb_refl by assumption.
    apply has_version_In. eexists. split; [apply in_or_app; right; now left |].
    reflexivity.
Qed.

Lemma Has_keeps (i i1 : IndexFile) (name version : string) :
  (forall cv, In cv (records i name) -> In cv (records i1 name)) ->
  Has i name version = true -> Has i1 name version = true.
Proof.
  intros Hsub Hh. destruct (Has i1 name version) eqn:E; [reflexivity |].
  apply (Has_mono _ _ _ _ Hsub) in E. congruence.
Qed.

Lemma generateIndex_step_has (fs : FS) (t : Z) (baseURL : string)
                             (i i1 : IndexFile) (p : string) :
  generateIndex_step fs t baseURL i p = Ok i1 ->
  exists md, loader_Load fs p = Ok md
             /\ (exists digest, provenance_DigestFile fs p = Ok digest)
             /\ Has i1 (chart.Name md) (chart.Version md) = true.
Proof.
  unfold generateIndex_step.
  destruct (loader_Load fs p) as [md | e]; [| discriminate].
  destruct (provenance_DigestFile fs p) as [digest | e]; [| discriminate].
  destruct (Has i (chart.Name md) (chart.Version md)) eqn:Hh; cbn [negb];
    intros [= <-]; exists md; split; auto; split; eauto.
  apply Has_Add.
Qed.

Lemma generateIndex_loop_has (fs : FS) (t : Z) (baseURL : string)
    (paths : list string) (i i' : IndexFile) :
  generateIndex_loop fs t baseURL i paths = (None, i') ->
  forall p, In p paths ->
    exists md, loader_Load fs p = Ok md
               /\ (exists digest, provenance_DigestFile fs p = Ok digest)
               /\ Has i' (chart.Name md) (chart.Version md) = true.
Proof.
  revert i. induction paths as [| q rest IH]; intros i; cbn [generateIndex_loop].
  - intros _ p [].
  - destruct (generateIndex_step fs t baseURL i q) as [i1 | err] eqn:Hstep;
      [| discriminate].
    intros Hloop p [<- | Hin]; [| now apply (IH _ Hloop)].
    apply generateIndex_step_has in Hstep as (md & Hl & Hd & Hh).
    exists md. split; [exact Hl |]. split; [exact Hd |].
    apply generateIndex_loop_records in Hloop as [Hkeep _].
    eapply Has_keeps; [| exact Hh]. auto.
Qed.

Lemma Has_SortEntries (i : IndexFile) (name version : string) :
  Has (SortEntries i) name version = Has i name version.
Proof.
  destruct (Has i name version) eqn:Hh.
  - eapply Has_keeps; [| exact Hh]. intros cv. apply In_records_SortEntries.
  - eapply Has_mono; [| exact Hh]. intros cv Hin.
    now apply (proj1 (In_records_SortEntries _ _ _)) in Hin.
Qed.

(** A loop over paths whose charts the index all has changes nothing. *)
Lemma generateIndex_loop_fixed (fs : FS) (t : Z) (baseURL : string)
    (paths : list string) (i : IndexFile) :
  (forall p, In p paths ->
     exists md, loader_Load fs p = Ok md
                /\ (exists digest, provenance_DigestFile fs p = Ok digest)
                /\ Has i (chart.Name md) (chart.Version md) = true) ->
  generateIndex_loop fs t baseURL i paths = (None, i).
Proof.
  induction paths as [| q rest IH]; intros Hall; cbn [generateIndex_loop];
    [reflexivity |].
  destruct (Hall q (or_introl eq_refl)) as (md & Hl & [digest Hd] & Hh).
  unfold generateIndex_step. rewrite Hl, Hd, Hh. cbn [negb].
  apply IH. intros p Hin. apply Hall. now right.
Qed.

(** After a run without error, every chart path has loaded and the index
    has a record for its name and version. *)
Theorem generateIndex_covers_chart_paths (fs : FS) (t : Z) (r : ChartRepository) :
  fst (generateIndex fs t r) = None ->
  forall p, In p (ChartPaths r) ->
    exists md,
      loader_Load fs p = Ok md
      /\ Has (RepoIndexFile (snd (generateIndex fs t r)))
             (chart.Name md) (chart.Version md) = true.
Proof.
  unfold generateIndex.
  destruct (generateIndex_loop fs t (URL (Config r)) (RepoIndexFile r) (ChartPaths r))
    as [[e |] i'] eqn:Hloop; [discriminate |].
  intros _ p Hin. cbn [snd with_IndexFile RepoIndexFile].
  destruct (generateIndex_loop_has _ _ _ _ _ _ Hloop p Hin) as (md & Hl & _ & Hh).
  exists md. split; [exact Hl |]. now rewrite Has_SortEntries.
Qed.

(** Generating again over the same files adds nothing: after a run without
    error, a second run, at any later instant, succeeds and holds the same
    records for every package, up to their order. *)
Theorem generateIndex_again_adds_nothing
    (fs : FS) (t t' : Z) (r : ChartRepository) (name : string) :
  fst (generateIndex fs t r) = None ->
  fst (generateIndex fs t' (snd (generateIndex fs t r))) = None
  /\ Permutation
       (records (RepoIndexFile (snd (generateIndex fs t' (snd (generateIndex fs t r)))))
                name)
       (records (RepoIndexFile (snd (generateIndex fs t r))) name).
Proof.
  intros Hok.
  assert (Hrun : exists i',
            generateIndex_loop fs t (URL (Config r)) (RepoIndexFile r) (ChartPaths r)
            = (None, i')
            /\ snd (generateIndex fs t r) = with_IndexFile r (SortEntries i')).
  { unfold generateIndex in *.
    destruct (generateIndex_loop fs t (URL (Config r)) (RepoIndexFile r) (ChartPaths r))
      as [[e |] i']; [discriminate | eauto]. }
  destruct Hrun as (i' & Hloop & ->). unfold generateIndex.
  cbn [with_IndexFile Config RepoIndexFile ChartPaths].
  rewrite generateIndex_loop_fixed.
  - cbn [fst snd with_IndexFile RepoIndexFile]. split; [reflexivity |].
    rewrite records_SortEntries. apply sort_versions_perm.
  - intros p Hin.
    destruct (generateIndex_loop_has _ _ _ _ _ _ Hloop p Hin) as (md & Hl & Hd & Hh).
    exists md. split; [exact Hl |]. split; [exact Hd |]. now rewrite Has_SortEntries.
Qed.

(** A run that fails stops at the first chart path that does not load or
    digest: the index holds what the paths before it gave, unsorted, and
    the error is that path's. *)
Theorem generateIndex_stops_at_first_error
    (fs : FS) (t : Z) (r : ChartRepository) (e : error) :
  fst (generateIndex fs t r) = Some e ->
  exists before p after,
    ChartPaths r = (before ++ p :: after)%list
    /\ generateIndex_loop fs t (URL (Config r)) (RepoIndexFile r) before
       = (None, RepoIndexFile (snd (generateIndex fs t r)))
    /\ (loader_Load fs p = Err e
        \/ (exists md, loader_Load fs p = Ok md)
           /\ provenance_DigestFile fs p = Err e).
Proof.
  unfold generateIndex.
  destruct (generateIndex_loop fs t (URL (Config r)) (RepoIndexFile r) (ChartPaths r))
    as [[e' |] i'] eqn:Hloop; [| discriminate].
  cbn [fst snd with_IndexFile RepoIndexFile]. intros [= ->].
  revert Hloop. generalize (RepoIndexFile r) as i. generalize (ChartPaths r) as paths.
  induction paths as [| q rest IH]; intros i; cbn [generateIndex_loop]; [discriminate |].
  destruct (generateIndex_step fs t (URL (Config r)) i q) as [i1 | err] eqn:Hstep.
  - intros Hloop. destruct (IH _ Hloop) as (before & p & after & -> & Hb & Hp).
    exists (q :: before), p, after. split; [reflexivity |]. split; [| exact Hp].
    cbn [generateIndex_loop]. now rewrite Hstep.
  - intros [= -> ->]. exists [], q, rest. split; [reflexivity |]. split; [reflexivity |].
    unfold generateIndex_step in Hstep.
    destruct (loader_Load fs q) as [md | e1]; [| left; congruence].
    destruct (provenance_DigestFile fs q) as [dg | e1].
    + destruct (negb _); discriminate.
    + right. split; [eauto | congruence].
Qed.

(** [Index] writes nothing when generating fails; when it returns no
    error, the file named by [indexPath] in the repository's directory
    holds the serialized, sorted index. *)
Theorem Index_saves_generated_index
    (indexPath : string) (r : ChartRepository) (w : World) :
  (forall e, fst (generateIndex (disk w) (now w) r) = Some e ->
             Index indexPath r w = (Some e, snd (generateIndex (disk w) (now w) r), w))
  /\ forall r' w',
       Index indexPath r w = (None, r', w') ->
       fst (generateIndex (disk w) (now w) r) = None
       /\ r' = snd (generateIndex (disk w) (now w) r)
       /\ exists b,
            Marshal (RepoIndexFile r') = Ok b
            /\ nodes (disk w') !! filepath.Join [Name (Config r); indexPath]
               = Some (File b).
Proof.
  unfold Index.
  destruct (generateIndex (disk w) (now w) r) as [[e |] r1] eqn:Hg; cbn [fst snd].
  - split; [now intros e' [= ->] | discriminate].
  - split; [discriminate |]. intros r' w'.
    assert (Hc : Config r1 = Config r).
    { unfold generateIndex in Hg.
      destruct (generateIndex_loop _ _ _ _ _) as [[e |] i']; [discriminate |].
      now injection Hg as <-. }
    unfold saveIndexFile, ret, ioutil_WriteFile. rewrite Hc.
    destruct (Marshal (RepoIndexFile r1)) as [b | e] eqn:Hm; [| discriminate].
    destruct (os.WriteFile (disk w) _ b) as [fs [e |]] eqn:Hw; [discriminate |].
    intros [= <- <-]. cbn [disk]. repeat split. exists b. split; [exact Hm |].
    unfold os.WriteFile in Hw. destruct (bool_decide _); [discriminate |].
    destruct (nodes (disk w) !! _) as [[d |] |]; try discriminate;
      injection Hw as <-; cbn [nodes]; apply lookup_insert_eq.
Qed.

End Generate.

(** ** The index command *)

Section Command.
Context `{Collaborators}.

(** Without a merge target the index command saves the generated index,
    sorted, and reads no other index; when the directory cannot be indexed
    it returns that error and writes nothing, with or without a target. *)
Theorem index_without_merge (dir url : string) (w : World) :
  match IndexDirectory (disk w) (now w) dir url with
  | Err e => forall mergeTo, index dir url mergeTo w = (Fail e, w)
  | Ok i =>
      index dir url "" w
      = written (SortEntries i) (filepath.Join [dir; "index.yaml"]) w
      /\ (forall name, Permutation (records (SortEntries i) name) (records i name))
      /\ forall w',
           index dir url "" w = (Return tt, w') ->
           exists b,
             Marshal (SortEntries i) = Ok b
             /\ nodes (disk w') !! filepath.Join [dir; "index.yaml"] = Some (File b)
  end.
Proof.
  destruct (IndexDirectory (disk w) (now w) dir url) as [i | e] eqn:Hgen.
  - assert (Hidx : index dir url "" w
                   = written (SortEntries i) (filepath.Join [dir; "index.yaml"]) w).
    { unfold index. unfold bind at 1. unfold the_disk at 1. unfold bind at 1.
      unfold time_Now at 1. unfold bind at 1. rewrite Hgen. unfold lift, ret at 1.
      cbn [String.eqb]. unfold bind at 1. unfold ret at 1. apply save_written. }
    split; [exact Hidx |]. split.
    + intros name. rewrite records_SortEntries. apply sort_versions_perm.
    + intros w' Hw. rewrite Hidx in Hw. now apply written_ok in Hw.
  - intros mergeTo. unfold index. unfold bind at 1. unfold the_disk at 1.
    unfold bind at 1. unfold time_Now at 1. unfold bind at 1. rewrite Hgen.
    reflexivity.
Qed.


End Command.

(** ** The trailing slash of the base URL *)

Lemma HasSuffix_cons (c : ascii) (s suf : string) :
  strings.HasSuffix (String c s) suf
  = String.eqb (String c s) suf || strings.HasSuffix s suf.
Proof. reflexivity. Qed.

Lemma TrimSuffix_cons (c : ascii) (s suf : string) :
  strings.TrimSuffix (String c s) suf
  = if String.eqb (String c s) suf then ""
    else String c (strings.TrimSuffix s suf).
Proof. reflexivity. Qed.

Lemma TrimSuffix_absent (s : string) :
  strings.HasSuffix s "/" = false -> strings.TrimSuffix s "/" = s.
Proof.
  induction s as [| c s IH]; [reflexivity |].
  rewrite HasSuffix_cons. intros [He Hs]%orb_false_iff.
  rewrite TrimSuffix_cons, He. now rewrite IH.
Qed.

Lemma TrimSuffix_slash (s : string) :
  strings.HasSuffix s "/" = false -> strings.TrimSuffix (s ++ "/") "/" = s.
Proof.
  induction s as [| c s IH]; [reflexivity |].
  rewrite HasSuffix_cons. intros [He Hs]%orb_false_iff.
  change (String c s ++ "/") with (String c (s ++ "/")). rewrite TrimSuffix_cons.
  destruct (String.eqb_spec (String c (s ++ "/")) "/") as [E | _].
  - injection E as _ E. destruct s; discriminate.
  - now rewrite IH.
Qed.

(** For a base whose path needs no escaped form of its own ([RawPath] is
    empty), a trailing slash on the path makes no difference: two such
    base URLs that parse alike but for that slash resolve every reference
    to the same location. A base with an escaped path is outside this:
    [x] resolves to [/a/b/x] against [https://h/a%2Fb] and to [/a%2Fb/x]
    against [https://h/a%2Fb/], as the slash is put on [Path] only and the
    escaped form is then kept or dropped. *)
Theorem ResolveReferenceURL_trailing_slash :
  (forall (baseURL baseURL' refURL : string) (b : url.URL),
     url.Parse baseURL = inr b ->
     url.RawPath b = "" ->
     url.Parse baseURL' = inr (with_Path b (url.Path b ++ "/")) ->
     strings.HasSuffix (url.Path b) "/" = false ->
     ResolveReferenceURL baseURL refURL = ResolveReferenceURL baseURL' refURL)
  /\ ResolveReferenceURL "https://h/a%2Fb" "x" = Ok "https://h/a/b/x"
  /\ ResolveReferenceURL "https://h/a%2Fb/" "x" = Ok "https://h/a%2Fb/x".
Proof.
  split; [| split; reflexivity].
  intros baseURL baseURL' refURL b Hb _ Hb' Hs. unfold ResolveReferenceURL.
  rewrite Hb, Hb'.
  destruct (url.Parse refURL) as [e | ref]; [reflexivity |].
  unfold with_Path, with_paths. cbn [url.Path url.Scheme url.Opaque url.User url.Host
    url.RawPath url.ForceQuery url.RawQuery url.Fragment url.RawFragment].
  now rewrite TrimSuffix_absent, TrimSuffix_slash.
Qed.

Lemma ResolveReferenceURL_trailing_slash_witness :
  ResolveReferenceURL "https://repo.example/charts" "foo-1.0.0.tgz"
  = ResolveReferenceURL "https://repo.example/charts/" "foo-1.0.0.tgz".
Proof.
  apply (proj1 ResolveReferenceURL_trailing_slash _ _ _
           (url.mkURL "https" "" None "repo.example" "/charts" "" false "" "" ""));
    reflexivity.
Defined.

(** ** Showing a chart *)

Lemma fold_byte_lower (c d : ascii) :
  url.byte_in d 65 90 = false ->
  action.fold_byte c d = Ascii.eqb (strings.ToLowerByte c) d.
Proof.
  unfold action.fold_byte, strings.ToLowerByte, url.byte_in. intros Hd. rewrite Hd.
  rewrite andb_false_l, orb_false_r.
  destruct ((65 <=? nat_of_ascii c)%nat && (nat_of_ascii c <=? 90)%nat) eqn:Hc.
  - apply andb_prop in Hc as [H1%Nat.leb_le H2%Nat.leb_le].
    assert (Hne : Ascii.eqb c d = false).
    { apply Ascii.eqb_neq. intros <-.
      apply andb_false_iff in Hd as [Hd%Nat.leb_gt | Hd%Nat.leb_gt]; lia. }
    rewrite Hne, andb_true_l, orb_false_l.
    destruct (Nat.eqb_spec (nat_of_ascii d) (nat_of_ascii c + 32)) as [E | E];
      symmetry.
    + apply Ascii.eqb_eq. rewrite <- E. apply ascii_nat_embedding.
    + apply Ascii.eqb_neq. intros <-.
      rewrite nat_ascii_embedding in E by lia. lia.
  - now rewrite andb_false_l, orb_false_r.
Qed.

Lemma EqualFold_lower (s n : string) :
  no_upper n = true ->
  action.EqualFold s n = String.eqb (strings.ToLower s) n.
Proof.
  revert n. induction s as [| c s IH]; intros [| d n]; cbn; try reflexivity.
  intros [Hd Hn]%andb_prop. apply negb_true_iff in Hd.
  rewrite fold_byte_lower, IH by assumption. reflexivity.
Qed.

Lemma is_readme_lower (f : action.File) :
  action.is_readme f = true
  <-> In (strings.ToLower (action.Name f)) action.readmeFileNames.
Proof.
  unfold action.is_readme. rewrite existsb_exists. split.
  - intros (n & Hin & He). rewrite EqualFold_lower in He.
    + apply String.eqb_eq in He. now subst.
    + destruct Hin as [<- | [<- | [<- | []]]]; reflexivity.
  - intros Hin. exists (strings.ToLower (action.Name f)). split; [exact Hin |].
    rewrite EqualFold_lower; [apply String.eqb_refl |].
    destruct Hin as [<- | [<- | [<- | []]]]; reflexivity.
Qed.

Lemma find_first {A} (p : A -> bool) (l : list A) :
  match List.find p l with
  | Some x => exists before after,
                l = (before ++ x :: after)%list /\ p x = true
                /\ forall y, In y before -> p y = false
  | None => forall y, In y l -> p y = false
  end.
Proof.
  induction l as [| a l IH]; cbn [List.find]; [intros y [] |].
  destruct (p a) eqn:Ha.
  - exists [], l. repeat split; auto. intros y [].
  - destruct (List.find p l) as [x |].
    + destruct IH as (before & after & -> & Hx & Hb).
      exists (a :: before), after. repeat split; auto.
      intros y [<- | Hy]; auto.
    + intros y [<- | Hy]; auto.
Qed.

(** [findReadme] returns the first file, in the order of the list, whose
    name is [readme.md], [readme.txt] or [readme] in any mix of upper and
    lower case, and nothing when there is none. *)
Theorem findReadme_first_match (files : list action.File) :
  match action.findReadme files with
  | Some f =>
      exists before after,
        files = (before ++ f :: after)%list
        /\ In (strings.ToLower (action.Name f)) action.readmeFileNames
        /\ forall g, In g before ->
                     ~ In (strings.ToLower (action.Name g)) action.readmeFileNames
  | None =>
      forall g, In g files ->
                ~ In (strings.ToLower (action.Name g)) action.readmeFileNames
  end.
Proof.
  unfold action.findReadme. pose proof (find_first action.is_readme files) as Hf.
  destruct (List.find action.is_readme files) as [f |].
  - destruct Hf as (before & after & -> & Hx & Hb). exists before, after.
    split; [reflexivity |]. split; [now apply is_readme_lower |].
    intros g Hg Hin. apply is_readme_lower in Hin. rewrite (Hb g Hg) in Hin.
    discriminate.
  - intros g Hg Hin. apply is_readme_lower in Hin. rewrite (Hf g Hg) in Hin.
    discriminate.
Qed.

Section Show.
Context `{action.Rendering}.

(** Once a chart is loaded, [Run] shows it again whatever path it is given
    and whatever the files now hold; a load that fails leaves the action
    without a chart and is returned as it is. *)
Theorem Run_keeps_first_chart
    (fs fs' : FS) (s : action.Show) (chartpath chartpath' : string)
    (vals : action.values) :
  (forall e, action.chart s = None -> action.loader_Load fs chartpath = Err e ->
             action.Run fs s chartpath vals = (Err e, s))
  /\ ((action.chart s <> None \/ exists c, action.loader_Load fs chartpath = Ok c) ->
      action.Run fs' (snd (action.Run fs s chartpath vals)) chartpath' vals
      = action.Run fs s chartpath vals).
Proof.
  unfold action.Run. split.
  - intros e Hc Hl. now rewrite Hc, Hl.
  - destruct (action.chart s) as [c |] eqn:Hc.
    + intros _. cbn [snd]. now rewrite Hc.
    + intros [Hn | [c Hl]]; [congruence |]. rewrite Hl. cbn [snd action.with_chart
        action.chart]. reflexivity.
Qed.

Lemma values_part_continues (s : action.Show) (c : action.Chart action.values)
                            (out : string) :
  values_ok s c -> exists out', action.values_part s c out = action.Continue out'.
Proof.
  unfold action.values_part. intros Hok.
  destruct (action.Values c) as [v |] eqn:Hv; [| eauto].
  destruct (_ || _); [| eauto].
  destruct (String.eqb_spec (action.JSONPathTemplate s) "") as [E | E];
    cbn [negb]; [eauto |].
  destruct Hok as [Hok | [Hok | [p Hp]]]; [congruence | congruence |].
  rewrite Hp. eauto.
Qed.

(** When the hooks cannot be rendered, [Run] for the [hook] and [all]
    formats returns the empty text and no error. *)
Theorem Run_hides_hook_error
    (fs : FS) (s : action.Show) (c : action.Chart action.values)
    (chartpath cf : string) (vals : action.values) (e : error) :
  action.OutputFormat s = action.ShowHook \/ action.OutputFormat s = action.ShowAll ->
  action.chart s = Some c ->
  action.yaml_Marshal (action.Metadata c) = Ok cf ->
  values_ok s c ->
  action.FindHooks s "" c vals = Err e ->
  action.Run fs s chartpath vals = (Ok "", s).
Proof.
  intros Hf Hc Hm Hv Hh. unfold action.Run, action.show_chart. rewrite Hc, Hm.
  destruct (values_part_continues s c (action.chart_part s cf "") Hv) as [out ->].
  unfold action.hooks_part, action.is_format. rewrite Hh.
  destruct Hf as [-> | ->]; reflexivity.
Qed.

(** When there are no hooks, [Run] for the [all] format ends with the hook
    heading: the readme and the CRDs of the chart are not shown. *)
Theorem Run_all_ends_at_nil_hooks
    (fs : FS) (s : action.Show) (c : action.Chart action.values)
    (chartpath cf out : string) (vals : action.values) :
  action.OutputFormat s = action.ShowAll ->
  action.chart s = Some c ->
  action.yaml_Marshal (action.Metadata c) = Ok cf ->
  action.values_part s c (action.chart_part s cf "") = action.Continue out ->
  action.FindHooks s "" c vals = Ok None ->
  fst (action.Run fs s chartpath vals)
  = Ok (out ++ action.nl ++ "--- Hooks" ++ action.nl).
Proof.
  intros Hf Hc Hm Hv Hh. unfold action.Run, action.show_chart.
  rewrite Hc, Hm, Hv. unfold action.hooks_part, action.is_format.
  rewrite Hh, Hf. cbn [fst]. unfold action.Fprintln.
  change (String.eqb action.ShowAll action.ShowHook) with false.
  change (String.eqb action.ShowAll action.ShowAll) with true.
  cbn [orb]. reflexivity.
Qed.

(** For the [readme] format [Run] returns the readme found among the files
    of the chart, with a newline, or the empty text; nothing else of the
    chart is shown and no hook is rendered, but metadata that does not
    serialize still fails the call. *)
Theorem Run_readme_only
    (fs : FS) (s : action.Show) (c : action.Chart action.values)
    (chartpath : string) (vals : action.values) :
  action.OutputFormat s = action.ShowReadme ->
  action.chart s = Some c ->
  fst (action.Run fs s chartpath vals)
  = match action.yaml_Marshal (action.Metadata c) with
    | Err e => Err e
    | Ok _ =>
        match action.findReadme (action.Files c) with
        | Some readme => Ok (action.Data readme ++ action.nl)
        | None => Ok ""
        end
    end.
Proof.
  intros Hf Hc. unfold action.Run, action.show_chart. rewrite Hc. cbn [fst].
  destruct (action.yaml_Marshal (action.Metadata c)) as [cf | e]; [| reflexivity].
  unfold action.chart_part, action.values_part, action.hooks_part, action.readme_part,
    action.crds_part, action.is_format. rewrite Hf.
  change (String.eqb action.ShowReadme action.ShowChart) with false.
  change (String.eqb action.ShowReadme action.ShowAll) with false.
  change (String.eqb action.ShowReadme action.ShowValues) with false.
  change (String.eqb action.ShowReadme action.ShowHook) with false.
  change (String.eqb action.ShowReadme action.ShowCRDs) with false.
  change (String.eqb action.ShowReadme action.ShowReadme) with true.
  cbn [orb]. destruct (action.Values c); 
    destruct (action.findReadme (action.Files c)); reflexivity.
Qed.

End Show.

(** ** The properties on the sample repository *)

Lemma lookup_keeps_other_entries_witness :
  cache.Get (now scenario.hot) "https://other.example/charts"
            (IndexFileCache (snd (sample.find "baz" "2.0.0" scenario.hot)))
  = Some (IndexFilePtr sample.stale).
Proof.
  unfold sample.find.
  rewrite (proj1 (lookup_keeps_other_entries (H := sample.collaborators)
                    sample.repoURL "" "" "baz" "2.0.0" "" "" "" sample.getters
                    scenario.hot "https://other.example/charts" (now scenario.hot)
                    ltac:(discriminate))).
  reflexivity.
Defined.

Lemma lookup_from_cache_is_local_witness :
  fst (sample.find "foo" "1.0.0" scenario.hot)
  = Return "https://repo.example/charts/foo-1.0.0.tgz"
  /\ requests (snd (sample.find "foo" "1.0.0" scenario.hot)) = 1.
Proof.
  destruct (lookup_from_cache_is_local (H := sample.collaborators)
              sample.repoURL "" "" "foo" "1.0.0" "" "" "" sample.getters
              scenario.hot sample.fresh
              (sample.record "foo" "1.0.0" "sha256:f1" ["foo-1.0.0.tgz"]))
    as (Hr & Hn & _).
  - reflexivity.
  - reflexivity.
  - split; [exact Hr | exact Hn].
Defined.

Lemma lookup_returns_resolved_first_url_witness :
  exists repoIndex w1 cv chartURL rest,
    chosen_catalog (H := sample.collaborators) sample.repoURL "" "" "" "" ""
                   sample.getters sample.warm repoIndex w1
    /\ (sample.lookup repoIndex "foo" "1.0.0" = Ok cv
        \/ exists e repoIndex2 w3,
             sample.lookup repoIndex "foo" "1.0.0" = Err e
             /\ sample.refetch (invalidated sample.repoURL "foo" "1.0.0" w1)
                = (Return repoIndex2, w3)
             /\ sample.lookup repoIndex2 "foo" "1.0.0" = Ok cv)
    /\ URLs cv = chartURL :: rest
    /\ ResolveReferenceURL sample.repoURL chartURL
       = Ok "https://repo.example/charts/foo-1.0.0.tgz".
Proof.
  apply (lookup_returns_resolved_first_url (H := sample.collaborators)
           sample.repoURL "" "" "foo" "1.0.0" "" "" "" sample.getters sample.warm).
  vm_compute. reflexivity.
Defined.

Lemma lookup_cold_errors_witness :
  fst (FindChartInAuthRepoURL (H := sample.collaborators) "ftp://repo.example/charts"
         "" "" "foo" "1.0.0" "" "" "" sample.getters sample.cold)
  = Fail (Errorf "could not find protocol handler for: ftp").
Proof.
  pose proof (lookup_cold_errors (H := sample.collaborators) "ftp://repo.example/charts"
                "" "" "foo" "1.0.0" "" "" "" sample.getters sample.cold eq_refl) as Hw.
  assert (Hf : FindChartInAuthRepoURL (H := sample.collaborators)
                 "ftp://repo.example/charts" "" "" "foo" "1.0.0" "" "" ""
                 sample.getters sample.cold
               = (Fail (Errorf "could not find protocol handler for: ftp"),
                  logged sample.cold (EvCacheGet "ftp://repo.example/charts" false)))
    by exact Hw.
  rewrite Hf. reflexivity.
Defined.

Lemma lookup_failed_retry_drops_entry_witness :
  cache.Get (now sample.warm) sample.repoURL
    (IndexFileCache
       (snd (FindChartInAuthRepoURL (H := sample.collaborators) sample.repoURL
               "" "" "foo" "1.0.0" "" "" "" scenario.down sample.warm)))
  = None.
Proof.
  apply (lookup_failed_retry_drops_entry (H := sample.collaborators)
           sample.repoURL "" "" "foo" "1.0.0" "" "" "" scenario.down
           sample.warm (logged sample.warm (EvCacheGet sample.repoURL true))
           (snd (GetAndCacheIndexFile (H := sample.collaborators) sample.repoURL
                   "" "" "" "" "" scenario.down
                   (invalidated sample.repoURL "foo" "1.0.0"
                      (logged sample.warm (EvCacheGet sample.repoURL true)))))
           sample.stale (Errorf "no chart name found")
           (Wrap (External "connection refused")
                 ("looks like " ++ sample.quoted sample.repoURL
                  ++ " is not a valid chart repository or cannot be reached"))).
  - left. split; reflexivity.
  - reflexivity.
  - vm_compute. reflexivity.
Defined.

Lemma refetch_caches_catalog_witness :
  cache.Get (now (snd (sample.refetch sample.cold))) sample.repoURL
            (IndexFileCache (snd (sample.refetch sample.cold)))
  = Some (IndexFilePtr sample.stale)
  /\ requests (snd (sample.refetch sample.cold)) = 1.
Proof.
  destruct (refetch_caches_catalog (H := sample.collaborators)
              sample.repoURL "" "" "" "" "" sample.getters
              sample.cold (snd (sample.refetch sample.cold)) sample.stale)
    as (Hc & Hn & _).
  - vm_compute. reflexivity.
  - split; [exact Hc | exact Hn].
Defined.

Lemma refetch_failure_keeps_cache_witness :
  IndexFileCache (snd (GetAndCacheIndexFile (H := sample.collaborators) sample.repoURL
                         "" "" "" "" "" scenario.down sample.warm))
  = IndexFileCache sample.warm.
Proof.
  apply (refetch_failure_keeps_cache (H := sample.collaborators)
           sample.repoURL "" "" "" "" "" scenario.down sample.warm
           (snd (GetAndCacheIndexFile (H := sample.collaborators) sample.repoURL
                   "" "" "" "" "" scenario.down sample.warm))
           (Wrap (External "connection refused")
                 ("looks like " ++ sample.quoted sample.repoURL
                  ++ " is not a valid chart repository or cannot be reached"))).
  vm_compute. reflexivity.
Defined.

Lemma DownloadIndexFile_mirrors_index_witness :
  requests (snd (DownloadIndexFile (H := sample.collaborators)
                   (sample.repository sample.stale []) sample.cold)) = 1
  /\ IndexFileCache (snd (DownloadIndexFile (H := sample.collaborators)
                            (sample.repository sample.stale []) sample.cold))
     = IndexFileCache sample.cold.
Proof.
  apply (DownloadIndexFile_mirrors_index (H := sample.collaborators)
           (sample.repository sample.stale []) sample.cold
           (snd (DownloadIndexFile (H := sample.collaborators)
                   (sample.repository sample.stale []) sample.cold))
           sample.stale "/cache/repository/repo-index.yaml").
  vm_compute. reflexivity.
Defined.

Lemma DownloadIndexFile_writes_after_decoding_witness :
  exists indexURL body i,
    index_location sample.repoURL = inr indexURL
    /\ sample.remote 0 indexURL (download_options (sample.repository sample.stale []))
       = Ok body
    /\ sample.decode body = Ok i.
Proof.
  apply (DownloadIndexFile_writes_after_decoding (H := sample.collaborators)
           (sample.repository sample.stale []) sample.cold
           (snd (DownloadIndexFile (H := sample.collaborators)
                   (sample.repository sample.stale []) sample.cold))
           (fst (DownloadIndexFile (H := sample.collaborators)
                   (sample.repository sample.stale []) sample.cold))).
  - apply surjective_pairing.
  - intros E.
    apply (f_equal (fun fs => nodes fs !! "/cache/repository/repo-index.yaml")) in E.
    vm_compute in E. discriminate E.
Defined.

Lemma DownloadIndexFile_ignores_chart_list_witness :
  fst (DownloadIndexFile (H := sample.collaborators)
         (sample.repository sample.stale []) scenario.locked)
  = Return (sample.stale, "/cache/repository/repo-index.yaml")
  /\ nodes (disk (snd (DownloadIndexFile (H := sample.collaborators)
                         (sample.repository sample.stale []) scenario.locked)))
       !! "/cache/repository/repo-charts.txt" = None.
Proof.
  split.
  - apply (DownloadIndexFile_ignores_chart_list (H := sample.collaborators)
             (sample.repository sample.stale []) scenario.locked
             "https://repo.example/charts/index.yaml" "stale" sample.stale).
    + reflexivity.
    + reflexivity.
    + reflexivity.
    + intros E. vm_compute in E. discriminate E.
    + discriminate.
    + vm_compute. discriminate.
    + vm_compute. discriminate.
  - vm_compute. reflexivity.
Defined.

Lemma Load_lists_archives_witness :
  scenario.paths
  = archives (filepath_Walk sample.repo_disk "/repo").
Proof.
  exact (proj1 (Load_lists_archives (H := sample.collaborators) sample.repo_disk
                  (sample.repository sample.stale [])
                  (sample.repository sample.stale scenario.paths) eq_refl)).
Defined.

Lemma Load_twice_lists_twice_witness :
  exists r2,
    Load (H := sample.collaborators) sample.repo_disk
         (sample.repository sample.stale scenario.paths) = Ok r2
    /\ ChartPaths r2 = (scenario.paths ++ scenario.paths)%list.
Proof.
  exact (Load_twice_lists_twice (H := sample.collaborators) sample.repo_disk
           (sample.repository sample.stale [])
           (sample.repository sample.stale scenario.paths) eq_refl).
Defined.


Lemma generateIndex_covers_chart_paths_witness :
  exists md,
    sample.load_chart sample.repo_disk "/repo/sub/bar-0.1.0.tgz" = Ok md
    /\ Has (RepoIndexFile
              (snd (generateIndex (H := sample.collaborators) sample.repo_disk 5
                      (sample.repository sample.local scenario.paths))))
           (chart.Name md) (chart.Version md) = true.
Proof.
  apply (generateIndex_covers_chart_paths (H := sample.collaborators) sample.repo_disk 5
           (sample.repository sample.local scenario.paths)).
  - vm_compute. reflexivity.
  - right. left. reflexivity.
Defined.

Lemma generateIndex_again_adds_nothing_witness :
  fst (generateIndex (H := sample.collaborators) sample.repo_disk 6
         (snd (generateIndex (H := sample.collaborators) sample.repo_disk 5
                 (sample.repository sample.local scenario.paths))))
  = None.
Proof.
  apply (generateIndex_again_adds_nothing (H := sample.collaborators) sample.repo_disk 5 6
           (sample.repository sample.local scenario.paths) "foo").
  vm_compute. reflexivity.
Defined.

Lemma generateIndex_stops_at_first_error_witness :
  exists before p after,
    ["/repo/foo-1.0.0.tgz"; "/repo/missing.tgz"; "/repo/sub/bar-0.1.0.tgz"]
    = (before ++ p :: after)%list
    /\ generateIndex_loop (H := sample.collaborators) sample.repo_disk 5 sample.repoURL
         sample.local before
       = (None,
          RepoIndexFile
            (snd (generateIndex (H := sample.collaborators) sample.repo_disk 5
                    (sample.repository sample.local
                       ["/repo/foo-1.0.0.tgz"; "/repo/missing.tgz";
                        "/repo/sub/bar-0.1.0.tgz"]))))
    /\ (sample.load_chart sample.repo_disk p
        = Err (External "open /repo/missing.tgz: no such file or directory")
        \/ (exists md, sample.load_chart sample.repo_disk p = Ok md)
           /\ sample.digest sample.repo_disk p
              = Err (External "open /repo/missing.tgz: no such file or directory")).
Proof.
  apply (generateIndex_stops_at_first_error (H := sample.collaborators) sample.repo_disk 5
           (sample.repository sample.local
              ["/repo/foo-1.0.0.tgz"; "/repo/missing.tgz"; "/repo/sub/bar-0.1.0.tgz"])).
  vm_compute. reflexivity.
Defined.

Lemma Index_saves_generated_index_witness :
  exists b,
    sample.encode
      (RepoIndexFile
         (snd (fst (Index (H := sample.collaborators) "index.yaml"
                      (sample.repository sample.local scenario.paths) scenario.indexed))))
    = Ok b
    /\ nodes (disk (snd (Index (H := sample.collaborators) "index.yaml"
                           (sample.repository sample.local scenario.paths)
                           scenario.indexed)))
         !! "/repo/index.yaml" = Some (File b).
Proof.
  apply (proj2 (Index_saves_generated_index (H := sample.collaborators) "index.yaml"
                  (sample.repository sample.local scenario.paths) scenario.indexed)
           (snd (fst (Index (H := sample.collaborators) "index.yaml"
                        (sample.repository sample.local scenario.paths)
                        scenario.indexed)))
           (snd (Index (H := sample.collaborators) "index.yaml"
                   (sample.repository sample.local scenario.paths) scenario.indexed))).
  vm_compute. reflexivity.
Defined.

Lemma index_without_merge_witness :
  index (H := sample.collaborators) "/repo" "" "" scenario.indexed
  = written (H := sample.collaborators)
      (SortEntries (H := sample.collaborators) sample.local) "/repo/index.yaml"
      scenario.indexed.
Proof.
  exact (proj1 (index_without_merge (H := sample.collaborators) "/repo" ""
                  scenario.indexed)).
Defined.


Lemma findReadme_first_match_witness :
  exists before after,
    action.Files scenario.foo
    = (before ++ action.mkFile "README.md" "# Hello" :: after)%list
    /\ In (strings.ToLower "README.md") action.readmeFileNames
    /\ forall g, In g before ->
                 ~ In (strings.ToLower (action.Name g)) action.readmeFileNames.
Proof.
  exact (findReadme_first_match (action.Files scenario.foo)).
Defined.

Lemma Run_keeps_first_chart_witness :
  action.Run (H := sample_show.rendering) sample.empty_disk
    (snd (action.Run (H := sample_show.rendering) sample_show.chart_disk
            (sample_show.show true "chart") "/charts/foo" "replicas: 2"))
    "/charts/bar" "replicas: 2"
  = action.Run (H := sample_show.rendering) sample_show.chart_disk
      (sample_show.show true "chart") "/charts/foo" "replicas: 2".
Proof.
  apply (proj2 (Run_keeps_first_chart (H := sample_show.rendering)
                  sample_show.chart_disk sample.empty_disk
                  (sample_show.show true "chart") "/charts/foo" "/charts/bar"
                  "replicas: 2")).
  right. eexists. reflexivity.
Defined.

Lemma Run_hides_hook_error_witness :
  action.Run (H := sample_show.rendering) sample.empty_disk
    (scenario.shown false "hook") "/charts/foo" "replicas: 2"
  = (Ok "", scenario.shown false "hook").
Proof.
  apply (Run_hides_hook_error (H := sample_show.rendering) sample.empty_disk
           (scenario.shown false "hook") scenario.foo "/charts/foo" "name: foo"
           "replicas: 2" (External "cluster unreachable")).
  - left. reflexivity.
  - reflexivity.
  - reflexivity.
  - left. reflexivity.
  - reflexivity.
Defined.

Lemma Run_all_ends_at_nil_hooks_witness :
  fst (action.Run (H := sample_show.rendering) sample.empty_disk
         (scenario.shown true "all") "/charts/foo" "replicas: 2")
  = Ok (action.nl ++ "--- ChartInfo" ++ action.nl ++ "name: foo" ++ action.nl
        ++ "---" ++ action.nl ++ "replicas: 1" ++ action.nl
        ++ action.nl ++ "--- Hooks" ++ action.nl).
Proof.
  exact (Run_all_ends_at_nil_hooks (H := sample_show.rendering) sample.empty_disk
           (scenario.shown true "all") scenario.foo "/charts/foo" "name: foo"
           (action.nl ++ "--- ChartInfo" ++ action.nl ++ "name: foo" ++ action.nl
            ++ "---" ++ action.nl ++ "replicas: 1" ++ action.nl)
           "replicas: 2" eq_refl eq_refl eq_refl eq_refl eq_refl).
Defined.

Lemma Run_readme_only_witness :
  fst (action.Run (H := sample_show.rendering) sample.empty_disk
         (scenario.shown true "readme") "/charts/foo" "replicas: 2")
  = Ok ("# Hello" ++ action.nl).
Proof.
  exact (Run_readme_only (H := sample_show.rendering) sample.empty_disk
           (scenario.shown true "readme") scenario.foo "/charts/foo" "replicas: 2"
           eq_refl eq_refl).
Defined.
